(** * The workflow graph runtime of PlaintextAI

    A shallow embedding of
    [frontend/client/src/components/workflow/WorkflowBuilder.tsx] (with the
    presets of [presets.ts]): the React component that owns the node and
    edge collections of the workflow graph, adapts one tool's output into
    the next tool's input, runs and stops a workflow, and implements the
    clipboard with its one-level undo and redo.

    The component's state hooks become the fields of one record; every
    event handler becomes a function from that record to the next one,
    run to its end before the next event.  The callbacks of a run are
    [async]: they are given once run to their end ([timerCallback],
    [fire]) and once with their [await]s, between which other events
    fall ([Machine], [timerFires], [resumes]).  Values of type [any] (tool
    outputs, node configs, parsed documents) are values of [JsVal]; what
    the browser and the tool execution service contribute (responses,
    minted session ids, the clock) comes in as arguments.  The canvas
    library's own edits ([onNodesChange], [onConnect]) are not part of
    the model. *)

From Stdlib Require Import List String Ascii Bool Arith ZArith Lia.
From Stdlib Require Import DecimalString DecimalNat Permutation.
Import ListNotations.
Local Open Scope list_scope.
Local Open Scope string_scope.

Set Implicit Arguments.
Set Warnings "-register-all".

(** ** JavaScript values *)

Module Js.

(** The values a tool output, a config entry or a parsed document can
    hold.  Numbers are the integers of magnitude below 10^21 (years,
    limits, counters, coordinates on the grid), which JavaScript prints
    digit by digit; fractions and larger numbers are outside the
    model.  An object is the list of its own properties in enumeration
    order. *)
Inductive JsVal : Type :=
| JUndefined
| JNull
| JBool (b : bool)
| JNum (n : Z)
| JStr (s : string)
| JArr (items : list JsVal)
| JObj (props : list (string * JsVal)).

(** What a JavaScript expression evaluates to: a value, or a thrown
    [Error] with its [message]. *)
Inductive result (A : Type) : Type :=
| Ok (a : A)
| Throw (message : string).
Arguments Ok {A} a.
Arguments Throw {A} message.

Definition bind {A B} (r : result A) (k : A -> result B) : result B :=
  match r with
  | Ok a => k a
  | Throw m => Throw m
  end.

Notation "x <- r ;; k" := (bind r (fun x => k))
  (at level 61, r at next level, right associativity).

(** [arr.map(f)] for a callback that may throw: the first exception
    leaves the loop. *)
Fixpoint mapM {A B} (f : A -> result B) (l : list A) : result (list B) :=
  match l with
  | [] => Ok []
  | a :: l' => b <- f a ;; bs <- mapM f l' ;; Ok (b :: bs)
  end.

Definition nl : string := String (ascii_of_nat 10) EmptyString.

Definition decNat (n : nat) : string := NilZero.string_of_uint (Nat.to_uint n).
Definition decZ (n : Z) : string := NilZero.string_of_int (Z.to_int n).

(** [!!v] *)
Definition truthy (v : JsVal) : bool :=
  match v with
  | JUndefined | JNull => false
  | JBool b => b
  | JNum n => negb (Z.eqb n 0)
  | JStr s => negb (String.eqb s "")
  | JArr _ | JObj _ => true
  end.

(** [a || b] *)
Definition or_else (a b : JsVal) : JsVal := if truthy a then a else b.

Definition isString (v : JsVal) : bool :=
  match v with JStr _ => true | _ => false end.

Definition isArray (v : JsVal) : bool :=
  match v with JArr _ => true | _ => false end.

(** The conversion to string of a template literal, [`${v}`]; a number
    of the model prints in decimal; an array prints as [join(',')],
    whose holes for [null] and [undefined] are empty. *)
Fixpoint toString (v : JsVal) : string :=
  match v with
  | JUndefined => "undefined"
  | JNull => "null"
  | JBool true => "true"
  | JBool false => "false"
  | JNum n => decZ n
  | JStr s => s
  | JArr items =>
      String.concat ","
        (map (fun x => match x with
                       | JUndefined | JNull => ""
                       | _ => toString x
                       end) items)
  | JObj _ => "[object Object]"
  end.

Definition joinItem (v : JsVal) : string :=
  match v with
  | JUndefined | JNull => ""
  | _ => toString v
  end.

(** [items.join(sep)] *)
Definition join (sep : string) (items : list JsVal) : string :=
  String.concat sep (map joinItem items).

Fixpoint lookup (k : string) (props : list (string * JsVal)) : JsVal :=
  match props with
  | [] => JUndefined
  | (k', v) :: rest => if String.eqb k' k then v else lookup k rest
  end.

(** [v.k], for the property names the workflow reads (none of them is an
    index, [length] or a member of a prototype): reading a property of
    [null] or [undefined] throws a [TypeError], any other primitive or
    an array has no such property. *)
Definition getProp (v : JsVal) (k : string) : result JsVal :=
  match v with
  | JUndefined | JNull =>
      Throw ("Cannot read properties of " ++ toString v
               ++ " (reading '" ++ k ++ "')")
  | JObj props => Ok (lookup k props)
  | _ => Ok JUndefined
  end.

(** *** [JSON.stringify] *)

Definition hexDigit (n : nat) : ascii :=
  ascii_of_nat (if (n <? 10)%nat then (48 + n)%nat else (87 + n)%nat).

Definition escapeChar (c : ascii) : string :=
  let n := nat_of_ascii c in
  if (n =? 34)%nat then "\" ++ String c ""
  else if (n =? 92)%nat then "\\"
  else if (n =? 8)%nat then "\b"
  else if (n =? 12)%nat then "\f"
  else if (n =? 10)%nat then "\n"
  else if (n =? 13)%nat then "\r"
  else if (n =? 9)%nat then "\t"
  else if (n <? 32)%nat then
    "\u00" ++ String (hexDigit (n / 16)) (String (hexDigit (n mod 16)) "")
  else String c "".

Fixpoint escape (s : string) : string :=
  match s with
  | EmptyString => ""
  | String c s' => escapeChar c ++ escape s'
  end.

Definition dquote : string := String (ascii_of_nat 34) "".

Definition quoteJSON (s : string) : string := dquote ++ escape s ++ dquote.

Fixpoint spaces (n : nat) : string :=
  match n with
  | O => ""
  | S n' => " " ++ spaces n'
  end.

Definition wrap (open close gap stepback indent : string)
    (parts : list string) : string :=
  match parts with
  | [] => open ++ close
  | _ =>
      if String.eqb gap "" then open ++ String.concat "," parts ++ close
      else open ++ nl ++ indent
             ++ String.concat ("," ++ nl ++ indent) parts
             ++ nl ++ stepback ++ close
  end.

(** The serialization of a value at the current indentation, [None] for
    [undefined]; an [undefined] array element prints as [null], an
    [undefined] property is left out. *)
Fixpoint serialize (gap indent : string) (v : JsVal) : option string :=
  match v with
  | JUndefined => None
  | JNull => Some "null"
  | JBool true => Some "true"
  | JBool false => Some "false"
  | JNum n => Some (decZ n)
  | JStr s => Some (quoteJSON s)
  | JArr items =>
      let inner := indent ++ gap in
      Some (wrap "[" "]" gap indent inner
              (map (fun x => match serialize gap inner x with
                             | Some s => s
                             | None => "null"
                             end) items))
  | JObj props =>
      let inner := indent ++ gap in
      Some (wrap "{" "}" gap indent inner
              (flat_map
                 (fun p => match serialize gap inner (snd p) with
                           | Some s =>
                               [quoteJSON (fst p) ++ ":"
                                  ++ (if String.eqb gap "" then "" else " ")
                                  ++ s]
                           | None => []
                           end) props))
  end.

(** [JSON.stringify(v, null, space)]; [JSON.stringify(v)] is [space = 0]. *)
Definition JSON_stringify (v : JsVal) (space : nat) : JsVal :=
  match serialize (spaces (Nat.min space 10)) "" v with
  | Some s => JStr s
  | None => JUndefined
  end.

End Js.
Import Js.

(** ** The graph: nodes and edges *)

Inductive Status : Type := pending | running | success | error.

Definition Status_eqb (a b : Status) : bool :=
  match a, b with
  | pending, pending | running, running
  | success, success | error, error => true
  | _, _ => false
  end.

Definition statusName (s : Status) : string :=
  match s with
  | pending => "pending"
  | running => "running"
  | success => "success"
  | error => "error"
  end.

(** How a node's [onConfigChange] closure rewrites the config: the
    handlers of [onDrop], [onLoadWorkflow] and [onApplyPreset] merge the
    new entries into the old config, the one of a chat-generated node
    replaces it, the one of [createToolNode] does nothing. *)
Inductive ConfigHandler : Type := MergeConfig | ReplaceConfig | IgnoreConfig.

(** A node's [onRun] closure: [createOnRunCallback(nodeId)], which runs
    the node it was created for whatever argument it is called with, or
    the empty function of [createToolNode]. *)
Inductive RunHandler : Type := RunNode (nodeId : string) | RunNothing.

(** [ToolNodeData], the [data] of a node.  [toolType], [output] and
    [sessionId] may be [undefined] ([None], [JUndefined]).  The fields no
    handler reads ([data.position], [data.data], sizes) are left out. *)
Record ToolNodeData : Type := mkData {
  data_id : string;
  label : string;
  toolType : option string;
  config : list (string * JsVal);
  status : Status;
  output : JsVal;
  sessionId : option string;
  onConfigChange : option ConfigHandler;
  onRun : option RunHandler
}.

Record Node : Type := mkNode {
  node_id : string;
  node_type : option string;
  position : Z * Z;
  dragHandle : option string;
  data : ToolNodeData
}.

(** An edge; an endpoint is [None] when the object holds [undefined]
    there (a paste whose remap table misses the old endpoint).  The
    marker and the stroke style of an edge are left out. *)
Record Edge : Type := mkEdge {
  edge_id : string;
  source : option string;
  target : option string
}.

Definition with_data (f : ToolNodeData -> ToolNodeData) (n : Node) : Node :=
  {| node_id := node_id n; node_type := node_type n; position := position n;
     dragHandle := dragHandle n; data := f (data n) |}.

Definition set_status (s : Status) (d : ToolNodeData) : ToolNodeData :=
  {| data_id := data_id d; label := label d; toolType := toolType d;
     config := config d; status := s; output := output d;
     sessionId := sessionId d; onConfigChange := onConfigChange d;
     onRun := onRun d |}.

Definition set_output (o : JsVal) (d : ToolNodeData) : ToolNodeData :=
  {| data_id := data_id d; label := label d; toolType := toolType d;
     config := config d; status := status d; output := o;
     sessionId := sessionId d; onConfigChange := onConfigChange d;
     onRun := onRun d |}.

Definition set_sessionId (s : option string) (d : ToolNodeData)
    : ToolNodeData :=
  {| data_id := data_id d; label := label d; toolType := toolType d;
     config := config d; status := status d; output := output d;
     sessionId := s; onConfigChange := onConfigChange d; onRun := onRun d |}.

Definition set_config (c : list (string * JsVal)) (d : ToolNodeData)
    : ToolNodeData :=
  {| data_id := data_id d; label := label d; toolType := toolType d;
     config := c; status := status d; output := output d;
     sessionId := sessionId d; onConfigChange := onConfigChange d;
     onRun := onRun d |}.

Definition set_data_id (i : string) (d : ToolNodeData) : ToolNodeData :=
  {| data_id := i; label := label d; toolType := toolType d;
     config := config d; status := status d; output := output d;
     sessionId := sessionId d; onConfigChange := onConfigChange d;
     onRun := onRun d |}.

(** [x === s] for an [x] that may be [undefined]. *)
Definition equals (x : option string) (s : string) : bool :=
  match x with
  | Some x' => String.eqb x' s
  | None => false
  end.

(** [ids.includes(x)] *)
Definition includes (ids : list string) (x : string) : bool :=
  existsb (String.eqb x) ids.

Definition includes_opt (ids : list string) (x : option string) : bool :=
  match x with
  | Some x' => includes ids x'
  | None => false
  end.

(** [nds.map(n => n.id === nodeId ? { ...n, data: f(n.data) } : n)] *)
Definition patchNode (nodeId : string) (f : ToolNodeData -> ToolNodeData)
    (nds : list Node) : list Node :=
  map (fun n => if String.eqb (node_id n) nodeId then with_data f n else n)
      nds.

(** ** Adapting a predecessor's output *)

Definition SourceFinder : string := "Source Finder".
Definition ClaimExtractor : string := "Claim Extractor".
Definition ContradictionChecker : string := "Contradiction Checker".
Definition AILiteratureReview : string := "AI Literature Review".
Definition ReferenceManagement : string := "Reference & Citation Management".
Definition ExportTXT : string := "Export TXT".
Definition ExportDOC : string := "Export DOC".

(** One line of the flattened papers list:
    [`${p.title}. ${Array.isArray(p.authors) ? p.authors.join(', ') : ''} (${p.published || ''})`] *)
Definition paperLine (p : JsVal) : result string :=
  title <- getProp p "title" ;;
  authors <- getProp p "authors" ;;
  published <- getProp p "published" ;;
  Ok (toString title ++ ". "
        ++ (match authors with JArr a => join ", " a | _ => "" end)
        ++ " (" ++ toString (or_else published (JStr "")) ++ ")").

(** [typeof c === 'string' ? c : (c.text || JSON.stringify(c))] *)
Definition claimText (c : JsVal) : result JsVal :=
  match c with
  | JStr _ => Ok c
  | _ => text <- getProp c "text" ;; Ok (or_else text (JSON_stringify c 0))
  end.

(** [papers.map(p => ...).join('\n')] *)
Definition flattenPapers (papers : JsVal) : result JsVal :=
  match papers with
  | JArr ps => lines <- mapM paperLine ps ;; Ok (JStr (String.concat nl lines))
  | _ => Throw "output.papers.map is not a function"
  end.

(** [!predToolType] *)
Definition noToolType (t : option string) : bool :=
  match t with
  | None => true
  | Some t' => String.eqb t' ""
  end.

(** The last four rows of the mapping table: a review text, a generic
    text, a string, or the whole output serialized. *)
Definition adaptText (output : JsVal) : result JsVal :=
  review <- getProp output "review" ;;
  if truthy review && isString review then Ok review
  else
    text <- getProp output "text" ;;
    if truthy text && isString text then Ok text
    else if isString output then Ok output
    else Ok (JSON_stringify output 2).

(** The mapping table of [getInputFromPredecessorNode], the body of its
    [if (predNode?.data.output)], for a truthy [output]. *)
Definition adaptOutput (toolTypeForContext predToolType : option string)
    (output : JsVal) : result JsVal :=
  papers <- getProp output "papers" ;;
  if equals toolTypeForContext AILiteratureReview
     && truthy papers && isArray papers
  then Ok papers
  else if truthy papers
          && (equals predToolType SourceFinder || noToolType predToolType)
  then flattenPapers papers
  else
    claims <- getProp output "claims" ;;
    match claims with
    | JArr cs =>
        if equals predToolType ClaimExtractor
           || equals predToolType ContradictionChecker
        then
          texts <- mapM claimText cs ;;
          Ok (JStr (join (nl ++ "---" ++ nl) texts))
        else adaptText output
    | _ => adaptText output
    end.

Definition getInputFromPredecessorNode (nodeId : string)
    (currentEdges : list Edge) (currentNodes : list Node)
    (toolTypeForContext : option string) : result JsVal :=
  match find (fun e => equals (target e) nodeId) currentEdges with
  | None => Ok JNull
  | Some incomingEdge =>
    match find (fun n => equals (source incomingEdge) (node_id n)) currentNodes
    with
    | None => Ok JNull
    | Some predNode =>
      let output := output (data predNode) in
      let predToolType := toolType (data predNode) in
      if truthy output then adaptOutput toolTypeForContext predToolType output
      else Ok JNull
    end
  end.

(** ** The component's state *)

(** A set of nodes with the edges among them: the selection, the copy
    buffer, the payload of a recorded action, a preset. *)
Record Subgraph : Type := mkSubgraph {
  sub_nodes : list Node;
  sub_edges : list Edge
}.

Inductive ActionType : Type := paste | cut.

Record Action : Type := mkAction {
  action_type : ActionType;
  action_nodes : list Node;
  action_edges : list Edge
}.

(** A pending [window.setTimeout] of the scheduler: it will execute
    [timer_node] after [timer_delay] milliseconds, and its closure pushes
    the timers it sets onto the [timeoutIdsStore] array of its run,
    [timer_store]. *)
Record Timer : Type := mkTimer {
  timer_id : nat;
  timer_node : string;
  timer_delay : nat;
  timer_store : nat
}.

(** A [number[]] of timer ids with the identity of the array object:
    [setWorkflowExecutionRefs(timeoutIdsStore)] puts the run's own array
    into the state, so what the run pushes later shows through the
    state. *)
Record TimeoutArray : Type := mkTimeoutArray {
  array_id : nat;
  array_items : list nat
}.

Inductive LogLevel : Type := Warn | Error.

Record Request : Type := mkRequest {
  url : string;
  body : JsVal
}.

(** The browser around the component: pending timers, what
    [console.warn] and [console.error] reported, the requests sent to the
    tool endpoints, local storage and the files offered for download. *)
Record Window : Type := mkWindow {
  timers : list Timer;
  nextTimerId : nat;
  nextArrayId : nat;
  console : list (LogLevel * string);
  requests : list Request;
  localStorage : list (string * string);
  downloads : list (string * string)
}.

(** The hooks of [WorkflowBuilder]: [useNodesState], [useEdgesState], the
    [useState] cells and the [idCounter] ref.  [nodesRef] and [edgesRef]
    mirror [nodes] and [edges] after every render, so a handler reads
    them as the state it was entered with. *)
Record Builder : Type := mkBuilder {
  nodes : list Node;
  edges : list Edge;
  runningWorkflow : bool;
  selection : Subgraph;
  copyBuffer : option Subgraph;
  lastAction : option Action;
  redoAction : option Action;
  workflowExecutionRefs : TimeoutArray;
  idCounter : nat;
  window : Window
}.

Definition setNodes (f : list Node -> list Node) (b : Builder) : Builder :=
  mkBuilder (f (nodes b)) (edges b) (runningWorkflow b) (selection b)
    (copyBuffer b) (lastAction b) (redoAction b) (workflowExecutionRefs b)
    (idCounter b) (window b).

Definition setEdges (f : list Edge -> list Edge) (b : Builder) : Builder :=
  mkBuilder (nodes b) (f (edges b)) (runningWorkflow b) (selection b)
    (copyBuffer b) (lastAction b) (redoAction b) (workflowExecutionRefs b)
    (idCounter b) (window b).

Definition setRunningWorkflow (r : bool) (b : Builder) : Builder :=
  mkBuilder (nodes b) (edges b) r (selection b) (copyBuffer b)
    (lastAction b) (redoAction b) (workflowExecutionRefs b) (idCounter b)
    (window b).

Definition setSelection (s : Subgraph) (b : Builder) : Builder :=
  mkBuilder (nodes b) (edges b) (runningWorkflow b) s (copyBuffer b)
    (lastAction b) (redoAction b) (workflowExecutionRefs b) (idCounter b)
    (window b).

Definition setCopyBuffer (c : option Subgraph) (b : Builder) : Builder :=
  mkBuilder (nodes b) (edges b) (runningWorkflow b) (selection b) c
    (lastAction b) (redoAction b) (workflowExecutionRefs b) (idCounter b)
    (window b).

Definition setLastAction (a : option Action) (b : Builder) : Builder :=
  mkBuilder (nodes b) (edges b) (runningWorkflow b) (selection b)
    (copyBuffer b) a (redoAction b) (workflowExecutionRefs b) (idCounter b)
    (window b).

Definition setRedoAction (a : option Action) (b : Builder) : Builder :=
  mkBuilder (nodes b) (edges b) (runningWorkflow b) (selection b)
    (copyBuffer b) (lastAction b) a (workflowExecutionRefs b) (idCounter b)
    (window b).

Definition setWorkflowExecutionRefs (r : TimeoutArray) (b : Builder)
    : Builder :=
  mkBuilder (nodes b) (edges b) (runningWorkflow b) (selection b)
    (copyBuffer b) (lastAction b) (redoAction b) r (idCounter b) (window b).

Definition setIdCounter (c : nat) (b : Builder) : Builder :=
  mkBuilder (nodes b) (edges b) (runningWorkflow b) (selection b)
    (copyBuffer b) (lastAction b) (redoAction b) (workflowExecutionRefs b) c
    (window b).

Definition onWindow (f : Window -> Window) (b : Builder) : Builder :=
  mkBuilder (nodes b) (edges b) (runningWorkflow b) (selection b)
    (copyBuffer b) (lastAction b) (redoAction b) (workflowExecutionRefs b)
    (idCounter b) (f (window b)).

(** [console.warn] and [console.error] *)
Definition report (l : LogLevel) (m : string) : Builder -> Builder :=
  onWindow (fun w =>
    mkWindow (timers w) (nextTimerId w) (nextArrayId w) (console w ++ [(l, m)])%list
      (requests w) (localStorage w) (downloads w)).

(** [fetch(url, { method: 'POST', body: JSON.stringify(body) })] leaves
    the browser. *)
Definition send (r : Request) : Builder -> Builder :=
  onWindow (fun w =>
    mkWindow (timers w) (nextTimerId w) (nextArrayId w) (console w)
      (requests w ++ [r])%list (localStorage w) (downloads w)).

(** A file handed to the user through a temporary [<a download>]. *)
Definition download (name content : string) : Builder -> Builder :=
  onWindow (fun w =>
    mkWindow (timers w) (nextTimerId w) (nextArrayId w) (console w) (requests w)
      (localStorage w) (downloads w ++ [(name, content)])%list).

(** [localStorage.setItem(key, value)] *)
Definition setItem (key value : string) : Builder -> Builder :=
  onWindow (fun w =>
    mkWindow (timers w) (nextTimerId w) (nextArrayId w) (console w) (requests w)
      ((key, value)
         :: filter (fun kv => negb (String.eqb (fst kv) key)) (localStorage w))
      (downloads w)).

Definition initialWindow : Window := mkWindow [] 1 1 [] [] [] [].

(** The state of a freshly mounted component. *)
Definition initialBuilder : Builder :=
  mkBuilder [] [] false (mkSubgraph [] []) None None None
    (mkTimeoutArray 0 []) 1 initialWindow.

(** ** Executing one node *)

(** What the tool execution service does with one request: the [fetch]
    promise rejects, or a response arrives with its [ok] flag, status text
    and body; [parsed] is [JSON.parse] of the body. *)
Inductive FetchOutcome : Type :=
| NetworkError (message : string)
| Response (ok : bool) (statusText : string) (raw : string)
    (parsed : result JsVal).

(** A computation inside the [try] block of [handleToolExecution]: it
    changes the browser and returns or throws. *)
Definition Exec (A : Type) : Type := Builder -> result A * Builder.

Definition ret {A} (a : A) : Exec A := fun b => (Ok a, b).

Definition throw {A} (m : string) : Exec A := fun b => (Throw m, b).

Definition eval {A} (r : result A) : Exec A := fun b => (r, b).

Definition exec {A} (f : Builder -> Builder) (a : A) : Exec A :=
  fun b => (Ok a, f b).

Definition andThen {A B} (m : Exec A) (k : A -> Exec B) : Exec B :=
  fun b =>
    match m b with
    | (Ok a, b') => k a b'
    | (Throw e, b') => (Throw e, b')
    end.

Notation "x <~ m ;; k" := (andThen m (fun x => k))
  (at level 61, m at next level, right associativity).

Section Execution.

(** The tool execution service, and the session id that
    [Date.now()] and [Math.random()] would mint. *)
Variable server : Request -> FetchOutcome.
Variable freshSessionId : string.

Definition fetch (u : string) (payload : JsVal) : Exec FetchOutcome :=
  fun b => let r := mkRequest u payload in (Ok (server r), send r b).

Definition fetchApiAndParse (u : string) (payload : JsVal) : Exec JsVal :=
  resp <~ fetch u payload ;;
  match resp with
  | NetworkError m => throw m
  | Response ok statusText raw parsed =>
      json <~ (if String.eqb raw "" then ret (JObj [])
               else match parsed with
                    | Ok j => ret j
                    | Throw m =>
                        throw ("Invalid JSON response: " ++ m
                                 ++ " -- raw: " ++ raw)
                    end) ;;
      if negb ok then
        err <~ eval (getProp json "error") ;;
        throw (toString (or_else (or_else err (JStr statusText)) (JStr raw)))
      else ret json
  end.

(** The [switch (toolType)] of [handleToolExecution]. *)
Definition invokeTool (nodeId : string) (toolType : option string)
    (config : list (string * JsVal))
    (currentEdges : list Edge) (currentNodes : list Node) : Exec JsVal :=
  let cfg k := lookup k config in
  let predecessor ctx :=
    eval (getInputFromPredecessorNode nodeId currentEdges currentNodes ctx) in
  if equals toolType SourceFinder then
    fetchApiAndParse "/api/source-finder/search"
      (JObj [("query", cfg "prompt"); ("model", cfg "model")])
  else if equals toolType ClaimExtractor then
    extractedInput <~ predecessor None ;;
    let inputText :=
      or_else (cfg "prompt")
        (if isString extractedInput then extractedInput else JStr "") in
    if negb (truthy inputText) then
      throw "Claim Extractor requires an input prompt or a connection providing text output."
    else
      fetchApiAndParse "/api/claim-extractor/extract"
        (JObj [("prompt", inputText); ("model", cfg "model")])
  else if equals toolType ContradictionChecker then
    extractedInput <~ predecessor None ;;
    let inputText :=
      or_else (cfg "prompt")
        (if isString extractedInput then extractedInput else JStr "") in
    if negb (truthy inputText) then
      throw "Contradiction Checker requires an input prompt or connection with text/claims output."
    else
      fetchApiAndParse "/api/contradiction-check/check"
        (JObj [("text", inputText); ("modelId", cfg "model")])
  else if equals toolType AILiteratureReview then
    predecessorOutput <~ predecessor (Some AILiteratureReview) ;;
    let papersInput :=
      if truthy predecessorOutput && isArray predecessorOutput
      then predecessorOutput else JArr [] in
    fetchApiAndParse "/api/literature-review/generate"
      (JObj [("reviewTopicScope", cfg "reviewTopicScope");
             ("reviewType", cfg "reviewType");
             ("reviewDepthLength", cfg "reviewDepthLength");
             ("reviewTone", cfg "reviewTone");
             ("yearFrom", cfg "yearFrom"); ("yearTo", cfg "yearTo");
             ("papers", papersInput); ("model", cfg "model")])
  else if equals toolType ReferenceManagement then
    let referencesInputFromConfig := or_else (cfg "referencesInput") (JStr "") in
    extractedInput <~ predecessor None ;;
    let inputStr :=
      or_else referencesInputFromConfig
        (if isString extractedInput then extractedInput else JStr "") in
    _ <~ (if negb (truthy inputStr) then
            exec (report Warn
              "Reference tool has no input string from config or predecessor.")
              tt
          else ret tt) ;;
    fetchApiAndParse "/api/reference-management/format"
      (JObj [("referencesInput", inputStr);
             ("citationStyle", cfg "citationStyle"); ("model", cfg "model")])
  else if equals toolType ExportTXT then
    extracted <~ predecessor None ;;
    let exportContent :=
      or_else extracted (or_else (cfg "prompt") (JStr "")) in
    let fileName := or_else (cfg "exportFileName") (JStr "export.txt") in
    resp <~ fetch "/api/export-tools/txt"
              (JObj [("exportData", exportContent);
                     ("exportFileName", fileName)]) ;;
    match resp with
    | NetworkError m => throw m
    | Response ok statusText raw _ =>
        if negb ok then
          throw (toString (or_else (JStr raw) (JStr statusText)))
        else
          exec (download (toString fileName) raw)
            (JObj [("message", JStr "File downloaded successfully");
                   ("fileName", fileName)])
    end
  else if equals toolType ExportDOC then
    extracted <~ predecessor None ;;
    let exportContent :=
      or_else extracted (or_else (cfg "prompt") (JStr "")) in
    let fileName := or_else (cfg "exportFileName") (JStr "export.doc") in
    resp <~ fetch "/api/export-tools/doc"
              (JObj [("content", exportContent); ("fileName", fileName)]) ;;
    match resp with
    | NetworkError m => throw m
    | Response ok statusText raw _ =>
        if negb ok then
          throw (toString (or_else (JStr raw) (JStr statusText)))
        else
          ret (JObj [("content", JStr raw);
                     ("message", JStr "Export successful");
                     ("fileName", fileName)])
    end
  else
    throw ("Unknown or unhandled tool type: "
             ++ match toolType with Some t => t | None => "undefined" end).

Definition truthySession (s : option string) : bool :=
  match s with
  | Some s' => negb (String.eqb s' "")
  | None => false
  end.

Definition handleToolExecution (nodeId : string) (b : Builder) : Builder :=
  match find (fun n => String.eqb (node_id n) nodeId) (nodes b) with
  | None =>
      setNodes
        (patchNode nodeId (fun d =>
           set_output (JObj [("error", JStr "Node not found")])
             (set_status error d)))
        (report Error ("Node " ++ nodeId ++ " not found for execution.") b)
  | Some nodeToExecute =>
      let toolType := toolType (data nodeToExecute) in
      let config := config (data nodeToExecute) in
      let currentNodesSnapshot := nodes b in
      let currentEdgesSnapshot := edges b in
      let existingSessionId := sessionId (data nodeToExecute) in
      let sessionId :=
        if truthySession existingSessionId then existingSessionId
        else Some freshSessionId in
      let b1 :=
        if truthySession existingSessionId then b
        else setNodes (patchNode nodeId (set_sessionId sessionId)) b in
      match invokeTool nodeId toolType config currentEdgesSnapshot
              currentNodesSnapshot b1 with
      | (Ok responseData, b2) =>
          setNodes
            (patchNode nodeId (fun d =>
               set_sessionId sessionId
                 (set_output responseData (set_status success d))))
            b2
      | (Throw message, b2) =>
          setNodes
            (patchNode nodeId (fun d =>
               set_sessionId sessionId
                 (set_output (JObj [("error", JStr message)])
                    (set_status error d))))
            (report Error
               ("Error running node " ++ nodeId ++ " ("
                  ++ match toolType with Some t => t | None => "undefined" end
                  ++ ")")
               b2)
      end
  end.

(** The [onRun] closure of a node, [createOnRunCallback(nodeId)]. *)
Definition createOnRunCallback (nodeId : string) (b : Builder) : Builder :=
  handleToolExecution nodeId
    (setNodes (patchNode nodeId (set_status running)) b).

End Execution.


(** ** Editing the graph *)

Definition ids_of (ns : list Node) : list string := map node_id ns.

Definition edge_ids_of (es : list Edge) : list string := map edge_id es.

(** [onSelectionChange]: the canvas reports the selected nodes and edges. *)
Definition onSelectionChangeHandler (sel : Subgraph) : Builder -> Builder :=
  setSelection sel.

Definition emptySelection : Subgraph := mkSubgraph [] [].

Definition nonEmpty {A} (l : list A) : bool :=
  match l with [] => false | _ => true end.

(** [handleDelete], the Delete key outside a text field. *)
Definition handleDelete (b : Builder) : Builder :=
  if nonEmpty (sub_nodes (selection b)) then
    let ids := ids_of (sub_nodes (selection b)) in
    setSelection emptySelection
      (setEdges
         (filter (fun e => negb (includes_opt ids (source e))
                           && negb (includes_opt ids (target e))))
         (setNodes (filter (fun n => negb (includes ids (node_id n)))) b))
  else b.

(** ASCII white space, what [/\s+/g] removes from a tool name. *)
Definition isSpace (c : ascii) : bool :=
  let n := nat_of_ascii c in
  (n =? 32)%nat || ((9 <=? n)%nat && (n <=? 13)%nat).

Fixpoint removeSpaces (s : string) : string :=
  match s with
  | EmptyString => ""
  | String c s' =>
      if isSpace c then removeSpaces s' else String c (removeSpaces s')
  end.

(** [onDrop] of a tool dragged from the sidebar onto the mounted canvas,
    at flow position [pos]. *)
Definition onDrop (tool : string) (pos : Z * Z) (b : Builder) : Builder :=
  if String.eqb tool "" then b
  else
    let newId := removeSpaces tool ++ "_" ++ decNat (idCounter b) in
    let newNode :=
      mkNode newId (Some "toolNode") pos (Some ".drag-handle")
        (mkData newId tool (Some tool) [] pending JUndefined None
           (Some MergeConfig) (Some (RunNode newId))) in
    setNodes (fun nds => (nds ++ [newNode])%list)
      (setIdCounter (S (idCounter b)) b).

(** The remap table [oldToNew] of a paste; a later entry for the same
    key is put in front, where [remapGet] finds it first. *)
Definition Remap : Type := list (string * string).

Fixpoint remapGet (m : Remap) (k : string) : option string :=
  match m with
  | [] => None
  | (k', v) :: rest => if String.eqb k' k then Some v else remapGet rest k
  end.

(** [oldToNew[x]] for an endpoint [x]; [undefined] indexes as the key
    ["undefined"]. *)
Definition remapEndpoint (m : Remap) (x : option string) : option string :=
  remapGet m (match x with Some s => s | None => "undefined" end).

(** [copyBuffer.nodes.map(...)] of a paste, threading [idCounter] and
    [oldToNew]. *)
Fixpoint pasteNodes (counter : nat) (oldToNew : Remap) (ns : list Node)
    : list Node * nat * Remap :=
  match ns with
  | [] => ([], counter, oldToNew)
  | n :: rest =>
      let newId := node_id n ++ "_" ++ decNat counter in
      let copy :=
        mkNode newId (node_type n)
          (fst (position n) + 40, snd (position n) + 40)%Z
          (Some ".drag-handle") (set_data_id newId (data n)) in
      let '(copies, counter', oldToNew') :=
        pasteNodes (S counter) ((node_id n, newId) :: oldToNew) rest in
      (copy :: copies, counter', oldToNew')
  end.

(** [copyBuffer.edges.map(...)] of a paste. *)
Fixpoint pasteEdges (counter : nat) (oldToNew : Remap) (es : list Edge)
    : list Edge * nat :=
  match es with
  | [] => ([], counter)
  | e :: rest =>
      let copy :=
        mkEdge ("e_" ++ decNat counter) (remapEndpoint oldToNew (source e))
          (remapEndpoint oldToNew (target e)) in
      let '(copies, counter') := pasteEdges (S counter) oldToNew rest in
      (copy :: copies, counter')
  end.

Definition selectedNodes (ids : list string) (b : Builder) : list Node :=
  filter (fun n => includes ids (node_id n)) (nodes b).

Definition selectedEdges (ids : list string) (b : Builder) : list Edge :=
  filter (fun e => includes_opt ids (source e) && includes_opt ids (target e))
    (edges b).

Definition copySelection (b : Builder) : Builder :=
  if nonEmpty (sub_nodes (selection b)) then
    let ids := ids_of (sub_nodes (selection b)) in
    setCopyBuffer (Some (mkSubgraph (selectedNodes ids b) (selectedEdges ids b)))
      b
  else b.

Definition cutSelection (b : Builder) : Builder :=
  if nonEmpty (sub_nodes (selection b)) then
    let ids := ids_of (sub_nodes (selection b)) in
    let nodesToCut := selectedNodes ids b in
    let edgesToCut := selectedEdges ids b in
    setSelection emptySelection
      (setEdges
         (filter (fun e => negb (includes_opt ids (source e))
                           && negb (includes_opt ids (target e))))
         (setNodes (filter (fun n => negb (includes ids (node_id n))))
            (setLastAction (Some (mkAction cut nodesToCut edgesToCut))
               (setCopyBuffer (Some (mkSubgraph nodesToCut edgesToCut)) b))))
  else b.

Definition pasteBuffer (b : Builder) : Builder :=
  match copyBuffer b with
  | None => b
  | Some buffer =>
      let '(newNodes, counter, oldToNew) :=
        pasteNodes (idCounter b) [] (sub_nodes buffer) in
      let '(newEdges, counter') :=
        pasteEdges counter oldToNew (sub_edges buffer) in
      setSelection (mkSubgraph newNodes newEdges)
        (setLastAction (Some (mkAction paste newNodes newEdges))
           (setEdges (fun es => (es ++ newEdges)%list)
              (setNodes (fun ns => (ns ++ newNodes)%list)
                 (setIdCounter counter' b))))
  end.

Definition selectAll (b : Builder) : Builder :=
  setSelection (mkSubgraph (nodes b) (edges b)) b.

(** Removing the nodes and the edges an action recorded: the undo of a
    paste, the redo of a cut. *)
Definition removeRecorded (a : Action) (b : Builder) : Builder :=
  let ids := ids_of (action_nodes a) in
  setEdges
    (filter (fun e =>
       negb (includes (edge_ids_of (action_edges a)) (edge_id e))))
    (setNodes (filter (fun n => negb (includes ids (node_id n)))) b).

(** Putting them back: the undo of a cut, the redo of a paste. *)
Definition insertRecorded (a : Action) (b : Builder) : Builder :=
  setEdges (fun es => (es ++ action_edges a)%list)
    (setNodes (fun ns => (ns ++ action_nodes a)%list) b).

Definition undo (b : Builder) : Builder :=
  match lastAction b with
  | None => b
  | Some a =>
      setSelection emptySelection
        (setLastAction None
           (setRedoAction (Some a)
              (match action_type a with
               | paste => removeRecorded a b
               | cut => insertRecorded a b
               end)))
  end.

Definition redo (b : Builder) : Builder :=
  match redoAction b with
  | None => b
  | Some a =>
      setRedoAction None
        (setLastAction (Some a)
           (match action_type a with
            | paste => insertRecorded a b
            | cut => removeRecorded a b
            end))
  end.

(** [handleGlobalKey] for [key], lower-cased, pressed with the platform's
    control key outside a text field. *)
Definition handleGlobalKey (key : string) (b : Builder) : Builder :=
  if String.eqb key "c" then copySelection b
  else if String.eqb key "x" then cutSelection b
  else if String.eqb key "v" then pasteBuffer b
  else if String.eqb key "a" then selectAll b
  else if String.eqb key "z" then undo b
  else if String.eqb key "y" then redo b
  else b.

(** [obj[k] = v] on the property list of an object. *)
Fixpoint assign (props : list (string * JsVal)) (k : string) (v : JsVal)
    : list (string * JsVal) :=
  match props with
  | [] => [(k, v)]
  | (k', v') :: rest =>
      if String.eqb k' k then (k, v) :: rest else (k', v') :: assign rest k v
  end.

(** [{ ...a, ...b }] *)
Definition spread (a b : list (string * JsVal)) : list (string * JsVal) :=
  fold_left (fun acc kv => assign acc (fst kv) (snd kv)) b a.

(** The node's panel calls [data.onConfigChange(id, newConfig)]. *)
Definition changeConfig (nodeId : string) (newConfig : list (string * JsVal))
    (b : Builder) : Builder :=
  match find (fun n => String.eqb (node_id n) nodeId) (nodes b) with
  | Some node =>
      match onConfigChange (data node) with
      | Some MergeConfig =>
          setNodes
            (patchNode nodeId (fun d => set_config (spread (config d) newConfig) d))
            b
      | Some ReplaceConfig =>
          setNodes (patchNode nodeId (set_config newConfig)) b
      | Some IgnoreConfig | None => b
      end
  | None => b
  end.

(** [handleConfigFieldChange] of [ToolNode.tsx], in the panel rendered
    for [node]: [onConfigChange(id, { ...config, [fieldName]: value })],
    with the handler the state holds for that id. *)
Definition handleConfigFieldChange (node : Node) (fieldName : string)
    (value : JsVal) : Builder -> Builder :=
  changeConfig (node_id node) (assign (config (data node)) fieldName value).

(** ** Presets *)

(** [createToolNode] of [presets.ts] *)
Definition createToolNode (i lbl tool : string) (x y : Z) : Node :=
  mkNode i (Some "toolNode") (x, y) None
    (mkData i lbl (Some tool) [] pending JUndefined None
       (Some IgnoreConfig) (Some RunNothing)).

Definition basicResearchWorkflow : Subgraph :=
  mkSubgraph
    [createToolNode "basic_src" SourceFinder SourceFinder 50 50;
     createToolNode "basic_review" AILiteratureReview AILiteratureReview
       450 50;
     createToolNode "basic_export" ExportTXT ExportTXT 850 50]
    [mkEdge "e1" (Some "basic_src") (Some "basic_review");
     mkEdge "e2" (Some "basic_review") (Some "basic_export")].

Definition factCheckWorkflow : Subgraph :=
  mkSubgraph
    [createToolNode "fact_src" SourceFinder SourceFinder 50 150;
     createToolNode "fact_claim" ClaimExtractor ClaimExtractor 450 150;
     createToolNode "fact_contra" ContradictionChecker ContradictionChecker
       850 150;
     createToolNode "fact_export" ExportDOC ExportDOC 1250 150]
    [mkEdge "e3" (Some "fact_src") (Some "fact_claim");
     mkEdge "e4" (Some "fact_claim") (Some "fact_contra");
     mkEdge "e5" (Some "fact_contra") (Some "fact_export")].

Definition bibliographyWorkflow : Subgraph :=
  mkSubgraph
    [createToolNode "bib_src" SourceFinder SourceFinder 50 250;
     createToolNode "bib_ref" ReferenceManagement ReferenceManagement 450 250;
     createToolNode "bib_export" ExportTXT ExportTXT 850 250]
    [mkEdge "e6" (Some "bib_src") (Some "bib_ref");
     mkEdge "e7" (Some "bib_ref") (Some "bib_export")].

Definition literatureReviewWorkflow : Subgraph :=
  mkSubgraph
    [createToolNode "lit_src" SourceFinder SourceFinder 50 350;
     createToolNode "lit_review" AILiteratureReview AILiteratureReview
       450 350;
     createToolNode "lit_export" ExportDOC ExportDOC 850 350]
    [mkEdge "e8" (Some "lit_src") (Some "lit_review");
     mkEdge "e9" (Some "lit_review") (Some "lit_export")].

(** [onApplyPreset]: the preset's nodes, rewired with the component's
    callbacks, replace the graph. *)
Definition onApplyPreset (preset : Subgraph) (b : Builder) : Builder :=
  let augmentedPresetNodes :=
    map (fun node =>
           with_data (fun d =>
             mkData (node_id node) (label d) (toolType d) (config d)
               (status d) (output d) (sessionId d) (Some MergeConfig)
               (Some (RunNode (node_id node))))
             node)
        (sub_nodes preset) in
  setEdges (fun _ => sub_edges preset)
    (setNodes (fun _ => augmentedPresetNodes) b).

(** ** Workflows generated by the chat panel *)




(** ** Running and stopping a workflow *)

(** [window.setTimeout(callback, delay)] of [executeNode], for the run
    whose array is [store]. *)
Definition setTimeout (nodeId : string) (delay store : nat) (b : Builder)
    : nat * Builder :=
  let tid := nextTimerId (window b) in
  (tid,
   onWindow (fun w =>
     mkWindow (timers w ++ [mkTimer tid nodeId delay store])%list (S tid)
       (nextArrayId w) (console w) (requests w) (localStorage w)
       (downloads w)) b).

Definition clearTimeout (tid : nat) : Builder -> Builder :=
  onWindow (fun w =>
    mkWindow (filter (fun t => negb (timer_id t =? tid)%nat) (timers w))
      (nextTimerId w) (nextArrayId w) (console w) (requests w)
      (localStorage w) (downloads w)).

(** A new array object. *)
Definition newArray (b : Builder) : nat * Builder :=
  let a := nextArrayId (window b) in
  (a,
   onWindow (fun w =>
     mkWindow (timers w) (nextTimerId w) (S a) (console w) (requests w)
       (localStorage w) (downloads w)) b).

(** [timeoutIdsStore.push(tid)] on the array [store]: seen in the state
    when the state holds that very array. *)
Definition pushStore (store tid : nat) (b : Builder) : Builder :=
  let refs := workflowExecutionRefs b in
  if (array_id refs =? store)%nat then
    setWorkflowExecutionRefs
      (mkTimeoutArray store (array_items refs ++ [tid])%list) b
  else b.

(** [executeNode(nodeId, delay)]: sets the timer and pushes its id. *)
Definition executeNode (store : nat) (nodeId : string) (delay : nat)
    (b : Builder) : nat * Builder :=
  let '(tid, b') := setTimeout nodeId delay store b in
  (tid, pushStore store tid b').

Definition isTerminal (s : Status) : bool :=
  Status_eqb s success || Status_eqb s error.

(** The root nodes: no edge targets them. *)
Definition rootNodes (b : Builder) : list Node :=
  filter (fun node =>
            negb (existsb (fun edge => equals (target edge) (node_id node))
                    (edges b)))
    (nodes b).

(** [rootNodes.forEach((node, index) => executeNode(node.id, 500 + index * 200))] *)
Fixpoint scheduleRoots (store index : nat) (roots : list Node) (b : Builder)
    : list nat * Builder :=
  match roots with
  | [] => ([], b)
  | node :: rest =>
      let '(tid, b') :=
        setTimeout (node_id node) (500 + index * 200) store b in
      let '(tids, b'') := scheduleRoots store (S index) rest b' in
      (tid :: tids, b'')
  end.

(** [onRunWorkflow].  Every root's timer id is pushed onto the run's
    array once by [executeNode] and once more by the [forEach] callback
    when its [await] resumes. *)
Definition onRunWorkflow (b : Builder) : Builder :=
  if negb (nonEmpty (nodes b)) then report Warn "No workflow to run" b
  else
    let b1 :=
      setNodes (map (with_data (set_status running)))
        (setRunningWorkflow true b) in
    if negb (nonEmpty (rootNodes b)) then
      setRunningWorkflow false
        (report Warn "No root nodes found in workflow" b1)
    else
      let '(store, b2) := newArray b1 in
      let '(tids, b3) := scheduleRoots store 0 (rootNodes b) b2 in
      setWorkflowExecutionRefs (mkTimeoutArray store (tids ++ tids)%list) b3.

Definition onStopWorkflow (b : Builder) : Builder :=
  let cleared :=
    fold_left (fun acc tid => clearTimeout tid acc)
      (array_items (workflowExecutionRefs b)) b in
  let '(fresh, b1) := newArray cleared in
  setRunningWorkflow false
    (setNodes (map (with_data (set_status pending)))
       (setWorkflowExecutionRefs (mkTimeoutArray fresh []) b1)).

Definition onClearWorkflow (b : Builder) : Builder :=
  setEdges (fun _ => [])
    (setNodes (fun _ => [])
       (if runningWorkflow b then onStopWorkflow b else b)).

Section Scheduler.

Variable server : Request -> FetchOutcome.
(** The session ids [`tool_...`] and [`workflow_...`] would be minted as. *)
Variable toolSessionId workflowSessionId : string.

Definition runHandler (h : RunHandler) (b : Builder) : Builder :=
  match h with
  | RunNode nodeId => createOnRunCallback server toolSessionId nodeId b
  | RunNothing => b
  end.

(** The children of [nodeId]: the nodes its outgoing edges target. *)
Definition childNodes (nodeId : string) (b : Builder) : list Node :=
  flat_map
    (fun edge =>
       match find (fun n => equals (target edge) (node_id n)) (nodes b) with
       | Some n => [n]
       | None => []
       end)
    (filter (fun edge => equals (source edge) nodeId) (edges b)).

(** Queueing the children that are still [running]; each timer id is
    pushed by [executeNode] and again by the loop. *)
Definition queueChildren (store : nat) (children snapshot : list Node)
    (b : Builder) : Builder :=
  fold_left
    (fun acc child =>
       match find (fun n => String.eqb (node_id n) (node_id child)) snapshot
       with
       | Some childNodeData =>
           if Status_eqb (status (data childNodeData)) running then
             let '(tid, acc') := executeNode store (node_id child) 50 acc in
             pushStore store tid acc'
           else acc
       | None => acc
       end)
    children b.

(** The callback of a timer set by [executeNode], run to its end with
    no other event in between: the node's [onRun], then its children,
    then the check for the end of the run. *)
Definition timerCallback (t : Timer) (b : Builder) : Builder :=
  let nodeId := timer_node t in
  let b1 :=
    match find (fun n => String.eqb (node_id n) nodeId) (nodes b) with
    | Some node =>
        match onRun (data node) with
        | Some h =>
            runHandler h
              (if truthySession (sessionId (data node)) then b
               else
                 setNodes
                   (patchNode nodeId (set_sessionId (Some workflowSessionId)))
                   b)
        | None => b
        end
    | None => b
    end in
  let b2 := queueChildren (timer_store t) (childNodes nodeId b1) (nodes b1) b1 in
  if forallb (fun n => isTerminal (status (data n))) (nodes b2) then
    setNodes
      (map (with_data (fun d =>
         if Status_eqb (status d) running then set_status pending d else d)))
      (setRunningWorkflow false b2)
  else if negb (existsb (fun n => Status_eqb (status (data n)) running)
                  (nodes b2))
  then
    setRunningWorkflow false
      (report Warn "Workflow appears stuck or partially complete." b2)
  else b2.

(** The timer [tid] fires, if it is still pending, and its callback
    runs to its end before anything else happens.  The callback is an
    [async] function; [timerFires] and [resumes] below take it through
    its [await]s one at a time, with other events in between. *)
Definition fire (tid : nat) (b : Builder) : Builder :=
  match find (fun t => (timer_id t =? tid)%nat) (timers (window b)) with
  | Some t => timerCallback t (clearTimeout tid b)
  | None => b
  end.

End Scheduler.

(** ** Callbacks in flight *)

(** Where a callback of [executeNode] that has begun is waiting: for the
    10 ms after it has written a session id and before it calls the
    node's [onRun] (l.546); inside [onRun], which has marked its node
    [running] and has not finished [handleToolExecution] yet, because
    the interface has not been redrawn or the service has not answered
    (l.455-456); or after [onRun], before it looks at the children
    (l.554). *)
Inductive Phase : Type :=
| AwaitSession (h : RunHandler)
| AwaitTool (nodeId : string)
| AwaitChildren.

(** An [async] call that has not returned: the callback of the timer
    [t], or the [onRun] of a node whose Run button was pressed, which
    has marked the node [running]. *)
Inductive InFlight : Type :=
| FromTimer (t : Timer) (p : Phase)
| ByHand (nodeId : string).

(** The component together with the calls in flight. *)
Record Machine : Type := mkMachine {
  browser : Builder;
  awaiting : list InFlight
}.

(** What the callbacks of a run do, one step at a time. *)
Inductive Progress : Type :=
| TimerFires (tid : nat)
| Resumes (k : nat).

Section Interleaving.

Variable server : Request -> FetchOutcome.
Variable toolSessionId workflowSessionId : string.

(** [await node.data.onRun(nodeId)] up to the first [await] of the
    closure: [createOnRunCallback] marks its node [running]; the
    placeholder of [createToolNode] returns at once. *)
Definition callOnRun (t : Timer) (h : RunHandler) (b : Builder)
    : Builder * InFlight :=
  match h with
  | RunNode nodeId =>
      (setNodes (patchNode nodeId (set_status running)) b,
       FromTimer t (AwaitTool nodeId))
  | RunNothing => (b, FromTimer t AwaitChildren)
  end.

(** The callback of the timer [t] from its start to its first [await]
    (l.539-548). *)
Definition callbackStarts (t : Timer) (b : Builder) : Builder * InFlight :=
  let nodeId := timer_node t in
  match find (fun n => String.eqb (node_id n) nodeId) (nodes b) with
  | Some node =>
      match onRun (data node) with
      | Some h =>
          if truthySession (sessionId (data node)) then callOnRun t h b
          else
            (setNodes
               (patchNode nodeId (set_sessionId (Some workflowSessionId))) b,
             FromTimer t (AwaitSession h))
      | None => (b, FromTimer t AwaitChildren)
      end
  | None => (b, FromTimer t AwaitChildren)
  end.

(** The last part of the callback (l.555-583): the children of the node
    that are still [running] are queued, then the end of the run is
    checked. *)
Definition childrenAndEnd (t : Timer) (b1 : Builder) : Builder :=
  let b2 :=
    queueChildren (timer_store t) (childNodes (timer_node t) b1) (nodes b1)
      b1 in
  if forallb (fun n => isTerminal (status (data n))) (nodes b2) then
    setNodes
      (map (with_data (fun d =>
         if Status_eqb (status d) running then set_status pending d else d)))
      (setRunningWorkflow false b2)
  else if negb (existsb (fun n => Status_eqb (status (data n)) running)
                  (nodes b2))
  then
    setRunningWorkflow false
      (report Warn "Workflow appears stuck or partially complete." b2)
  else b2.

(** A call in flight gets past the [await] it is waiting at, and runs to
    its next one or to its end.  The step out of [AwaitTool] is the
    whole of [handleToolExecution], from its snapshot to the answer of
    the service: a call whose answer has not come is a call that has not
    taken this step. *)
Definition resume (c : InFlight) (b : Builder) : Builder * option InFlight :=
  match c with
  | FromTimer t (AwaitSession h) =>
      let '(b', c') := callOnRun t h b in (b', Some c')
  | FromTimer t (AwaitTool nodeId) =>
      (handleToolExecution server toolSessionId nodeId b,
       Some (FromTimer t AwaitChildren))
  | FromTimer t AwaitChildren => (childrenAndEnd t b, None)
  | ByHand nodeId => (handleToolExecution server toolSessionId nodeId b, None)
  end.

(** The timer [tid] fires, if it is still pending: the browser takes it
    off its list and its callback begins. *)
Definition timerFires (tid : nat) (m : Machine) : Machine :=
  match find (fun t => (timer_id t =? tid)%nat) (timers (window (browser m)))
  with
  | Some t =>
      let '(b', c) := callbackStarts t (clearTimeout tid (browser m)) in
      mkMachine b' (awaiting m ++ [c])%list
  | None => m
  end.

(** The [k]-th call in flight resumes. *)
Definition resumes (k : nat) (m : Machine) : Machine :=
  match nth_error (awaiting m) k with
  | Some c =>
      let '(b', next) := resume c (browser m) in
      mkMachine b'
        (firstn k (awaiting m)
           ++ match next with Some c' => [c'] | None => [] end
           ++ skipn (S k) (awaiting m))%list
  | None => m
  end.

Definition advance (p : Progress) (m : Machine) : Machine :=
  match p with
  | TimerFires tid => timerFires tid m
  | Resumes k => resumes k m
  end.

Definition advanceAll (ps : list Progress) (m : Machine) : Machine :=
  fold_left (fun acc p => advance p acc) ps m.

(** The Run button of the panel of the node [nodeId] (ToolNode.tsx,
    [handleRunButtonClick]): [data.onRun(id)] begins. *)
Definition runButton (nodeId : string) (m : Machine) : Machine :=
  match find (fun n => String.eqb (node_id n) nodeId) (nodes (browser m)) with
  | Some node =>
      match onRun (data node) with
      | Some (RunNode i) =>
          mkMachine
            (setNodes (patchNode i (set_status running)) (browser m))
            (awaiting m ++ [ByHand i])%list
      | Some RunNothing | None => m
      end
  | None => m
  end.

(** A call in flight that nothing interrupts: it resumes until it has
    returned. *)
Definition uninterrupted (c : InFlight) (b : Builder) : Builder :=
  match resume c b with
  | (b1, None) => b1
  | (b1, Some c1) =>
      match resume c1 b1 with
      | (b2, None) => b2
      | (b2, Some c2) => fst (resume c2 b2)
      end
  end.

End Interleaving.

(** ** Saving and loading a workflow document *)

Definition jsOpt (s : option string) : JsVal :=
  match s with
  | Some x => JStr x
  | None => JUndefined
  end.

Definition STORAGE_KEY : string := "plaintextai_workflow".

(** [{ ...node, data: { id, label, toolType, config, status: 'pending' } }]:
    the node's own fields in the order [onDrop] writes them; a field that
    holds [undefined] is left out by [JSON.stringify]. *)
Definition savedNode (node : Node) : JsVal :=
  JObj [("id", JStr (node_id node));
        ("type", jsOpt (node_type node));
        ("dragHandle", jsOpt (dragHandle node));
        ("position", JObj [("x", JNum (fst (position node)));
                           ("y", JNum (snd (position node)))]);
        ("data", JObj [("id", JStr (data_id (data node)));
                       ("label", JStr (label (data node)));
                       ("toolType", jsOpt (toolType (data node)));
                       ("config", JObj (config (data node)));
                       ("status", JStr (statusName pending))])].

(** An edge of [edges: edges], with the fields [Edge] has: the marker
    and the stroke style the canvas draws are not in the model, so the
    saved text is the document up to these properties of its edges (and
    up to the order of the keys of a node that [onDrop] did not
    make). *)
Definition savedEdge (e : Edge) : JsVal :=
  JObj [("id", JStr (edge_id e)); ("source", jsOpt (source e));
        ("target", jsOpt (target e))].

(** [workflowData] of [onSaveWorkflow] *)
Definition workflowDocument (savedAt : string) (b : Builder) : JsVal :=
  JObj [("nodes", JArr (map savedNode (nodes b)));
        ("edges", JArr (map savedEdge (edges b)));
        ("savedAt", JStr savedAt)].

(** [onSaveWorkflow] at the time [now] (milliseconds), whose ISO form is
    [savedAt]: the document goes to local storage and to a download. *)
Definition onSaveWorkflow (savedAt : string) (now : Z) (b : Builder)
    : Builder :=
  if negb (nonEmpty (nodes b)) then report Warn "No workflow to save" b
  else
    let workflowData := workflowDocument savedAt b in
    download ("workflow_" ++ decZ now ++ ".json")
      (toString (JSON_stringify workflowData 2))
      (setItem STORAGE_KEY (toString (JSON_stringify workflowData 0)) b).

Definition asString (v : JsVal) : option string :=
  match v with
  | JStr s => Some s
  | _ => None
  end.

Definition asOptString (v : JsVal) : option (option string) :=
  match v with
  | JStr s => Some (Some s)
  | JUndefined => Some None
  | _ => None
  end.

Definition asPosition (v : JsVal) : option (Z * Z) :=
  match v with
  | JObj props =>
      match lookup "x" props, lookup "y" props with
      | JNum x, JNum y => Some (x, y)
      | _, _ => None
      end
  | _ => None
  end.

Definition asConfig (v : JsVal) : option (list (string * JsVal)) :=
  match v with
  | JObj props => Some props
  | _ => None
  end.

(** What reading a document comes to, short of an exception: the graph
    to install, a document without [nodes] or [edges], or values that do
    not have the types of [Node<ToolNodeData>] and [Edge], which the
    records of this model cannot hold. *)
Inductive LoadOutcome : Type :=
| LoadGraph (ns : list Node) (es : list Edge)
| LoadInvalid
| LoadIllTyped.

(** One element of [workflowData.nodes.map(...)]:
    [{ ...node, dragHandle: '.drag-handle', data: { ...node.data,
       config: node.data.config || {}, status: 'pending', onConfigChange,
       onRun: createOnRunCallback(node.data.id || node.id) } }] *)
Definition loadedNode (node : JsVal) : result (option Node) :=
  d <- getProp node "data" ;;
  cfg <- getProp d "config" ;;
  dataId <- getProp d "id" ;;
  nodeId <- getProp node "id" ;;
  type <- getProp node "type" ;;
  pos <- getProp node "position" ;;
  lbl <- getProp d "label" ;;
  tool <- getProp d "toolType" ;;
  out <- getProp d "output" ;;
  session <- getProp d "sessionId" ;;
  Ok (match asString nodeId, asOptString type, asPosition pos,
            asString dataId, asString lbl, asOptString tool,
            asConfig (or_else cfg (JObj [])), asOptString session,
            asString (or_else dataId nodeId)
      with
      | Some nodeId', Some type', Some pos', Some dataId', Some lbl',
        Some tool', Some cfg', Some session', Some runId =>
          Some (mkNode nodeId' type' pos' (Some ".drag-handle")
                  (mkData dataId' lbl' tool' cfg' pending out session'
                     (Some MergeConfig) (Some (RunNode runId))))
      | _, _, _, _, _, _, _, _, _ => None
      end).

Definition loadedEdge (e : JsVal) : option Edge :=
  match e with
  | JObj props =>
      match asString (lookup "id" props), asOptString (lookup "source" props),
            asOptString (lookup "target" props) with
      | Some i, Some s, Some t => Some (mkEdge i s t)
      | _, _, _ => None
      end
  | _ => None
  end.

Fixpoint allSome {A} (l : list (option A)) : option (list A) :=
  match l with
  | [] => Some []
  | Some a :: rest =>
      match allSome rest with
      | Some as' => Some (a :: as')
      | None => None
      end
  | None :: _ => None
  end.

(** The body of the [try] of [reader.onload], after [JSON.parse]. *)
Definition readWorkflow (workflowData : JsVal) : result LoadOutcome :=
  ns <- getProp workflowData "nodes" ;;
  if negb (truthy ns) then Ok LoadInvalid
  else
    es <- getProp workflowData "edges" ;;
    if negb (truthy es) then Ok LoadInvalid
    else
      match ns with
      | JArr items =>
          loaded <- mapM loadedNode items ;;
          Ok (match allSome loaded, es with
              | Some loadedNodes, JArr edgeItems =>
                  match allSome (map loadedEdge edgeItems) with
                  | Some loadedEdges => LoadGraph loadedNodes loadedEdges
                  | None => LoadIllTyped
                  end
              | _, _ => LoadIllTyped
              end)
      | _ => Throw "workflowData.nodes.map is not a function"
      end.

(** [reader.onload] of [onLoadWorkflow], given what [JSON.parse] made of
    the chosen file; [None] when the document is outside the typed
    model. *)
Definition onLoadWorkflow (parsed : result JsVal) (b : Builder)
    : option Builder :=
  match workflowData <- parsed ;; readWorkflow workflowData with
  | Ok (LoadGraph loadedNodes loadedEdges) =>
      Some (setEdges (fun _ => loadedEdges)
              (setNodes (fun _ => loadedNodes) b))
  | Ok LoadInvalid => Some (report Error "Invalid workflow file format" b)
  | Ok LoadIllTyped => None
  | Throw message =>
      Some (report Error ("Error parsing workflow file: " ++ message) b)
  end.

(** * Properties *)

(** ** Stopping a run *)

Definition clearAll (ids : list nat) (b : Builder) : Builder :=
  fold_left (fun acc tid => clearTimeout tid acc) ids b.

(** Clearing timers touches nothing but the list of pending timers. *)
Lemma clearAll_frame (ids : list nat) (b : Builder) :
  clearAll ids b =
  onWindow (fun w =>
    mkWindow (timers (window (clearAll ids b))) (nextTimerId w)
      (nextArrayId w) (console w) (requests w) (localStorage w)
      (downloads w)) b.
Proof.
  revert b. induction ids as [|tid ids IH]; intros b.
  - destruct b as [ns es r sel cb la ra refs c w]. destruct w. reflexivity.
  - unfold clearAll in *. cbn [fold_left]. rewrite IH at 1.
    destruct b as [ns es r sel cb la ra refs c w]. destruct w. reflexivity.
Qed.

Lemma clearAll_timers (ids : list nat) (b : Builder) (t : Timer) :
  In t (timers (window (clearAll ids b))) <->
  In t (timers (window b)) /\ ~ In (timer_id t) ids.
Proof.
  revert b. induction ids as [|tid ids IH]; intros b.
  - cbn. tauto.
  - unfold clearAll in *. cbn [fold_left]. rewrite IH.
    cbn [clearTimeout onWindow window timers]. rewrite filter_In.
    rewrite negb_true_iff, Nat.eqb_neq. cbn [In]. intuition congruence.
Qed.

Lemma nodes_clearAll (ids : list nat) (b : Builder) :
  nodes (clearAll ids b) = nodes b.
Proof. rewrite clearAll_frame. reflexivity. Qed.

Lemma edges_clearAll (ids : list nat) (b : Builder) :
  edges (clearAll ids b) = edges b.
Proof. rewrite clearAll_frame. reflexivity. Qed.

Lemma nodes_onStopWorkflow (b : Builder) :
  nodes (onStopWorkflow b) = map (with_data (set_status pending)) (nodes b).
Proof.
  unfold onStopWorkflow. fold (clearAll (array_items (workflowExecutionRefs b)) b).
  cbn. now rewrite nodes_clearAll.
Qed.

Lemma timers_onStopWorkflow (b : Builder) :
  timers (window (onStopWorkflow b)) =
  timers (window (clearAll (array_items (workflowExecutionRefs b)) b)).
Proof. reflexivity. Qed.

(** C1 (as amended): [onStopWorkflow] resets every node: it sets the
    status of every node to [pending], whatever it was before
    ([success] and [error] included), and leaves the run idle. *)
Theorem onStopWorkflow_resets_every_node (b : Builder) :
  map (fun n => status (data n)) (nodes (onStopWorkflow b))
    = map (fun _ => pending) (nodes b)
  /\ runningWorkflow (onStopWorkflow b) = false.
Proof.
  split; [|reflexivity].
  rewrite nodes_onStopWorkflow, map_map. reflexivity.
Qed.

(** The state in which a run of three nodes is stopped: one node has
    succeeded, one has failed, the third is still running behind its
    timer. *)
Definition interruptedRun : Builder :=
  let b := onRunWorkflow (onApplyPreset basicResearchWorkflow initialBuilder) in
  setNodes
    (fun ns =>
       patchNode "basic_review"
         (fun d => set_output (JObj [("error", JStr "failed")])
                     (set_status error d))
         (patchNode "basic_src"
            (fun d => set_output (JObj [("papers", JArr [])])
                        (set_status success d)) ns))
    b.

(** C1 (counterexample): the nodes that had reached [success] and
    [error] do not keep their status through [onStopWorkflow]. *)
Lemma onStopWorkflow_forgets_terminal_status :
  map (fun n => status (data n)) (nodes interruptedRun)
    = [success; error; running]
  /\ map (fun n => status (data n)) (nodes (onStopWorkflow interruptedRun))
    = [pending; pending; pending].
Proof. split; reflexivity. Qed.

(** What [onStopWorkflow] keeps of a node: everything but its status. *)
Definition sameButStatus (n n' : Node) : Prop :=
  node_id n' = node_id n
  /\ node_type n' = node_type n
  /\ position n' = position n
  /\ dragHandle n' = dragHandle n
  /\ data_id (data n') = data_id (data n)
  /\ label (data n') = label (data n)
  /\ toolType (data n') = toolType (data n)
  /\ config (data n') = config (data n)
  /\ output (data n') = output (data n)
  /\ sessionId (data n') = sessionId (data n)
  /\ onConfigChange (data n') = onConfigChange (data n)
  /\ onRun (data n') = onRun (data n).

Lemma Forall2_map_r {A B} (R : A -> B -> Prop) (f : A -> B) (l : list A) :
  (forall a, R a (f a)) -> Forall2 R l (map f l).
Proof. intros H. induction l; cbn; constructor; auto. Qed.

(** C9: [onStopWorkflow] changes the status of a node and nothing else
    of the graph: node by node, id, type, position, config, tool type,
    output and session id are the ones from before, and the edges are
    the same list. *)
Theorem onStopWorkflow_only_status (b : Builder) :
  Forall2 sameButStatus (nodes b) (nodes (onStopWorkflow b))
  /\ edges (onStopWorkflow b) = edges b.
Proof.
  split.
  - rewrite nodes_onStopWorkflow. apply Forall2_map_r.
    intros n. unfold sameButStatus. cbn. tauto.
  - unfold onStopWorkflow.
    fold (clearAll (array_items (workflowExecutionRefs b)) b).
    cbn. apply edges_clearAll.
Qed.

(** ** Starting a run without an entry point *)

(** A run that finds no root reports it and returns to idle, but by then
    every node has been marked [running]. *)
Lemma onRunWorkflow_no_root (b : Builder) :
  nodes b <> [] -> rootNodes b = [] ->
  onRunWorkflow b =
  setRunningWorkflow false
    (report Warn "No root nodes found in workflow"
       (setNodes (map (with_data (set_status running)))
          (setRunningWorkflow true b))).
Proof.
  intros Hn Hr. unfold onRunWorkflow. rewrite Hr.
  destruct (nodes b) eqn:E; [congruence|]. reflexivity.
Qed.

(** Two nodes that feed each other: no node is without an incoming
    edge. *)
Definition twoCycle : Builder :=
  onApplyPreset
    (mkSubgraph
       [createToolNode "a" ClaimExtractor ClaimExtractor 0 0;
        createToolNode "b" ContradictionChecker ContradictionChecker 400 0]
       [mkEdge "ab" (Some "a") (Some "b"); mkEdge "ba" (Some "b") (Some "a")])
    initialBuilder.

(** C2 (the code at the failing input): on the two-node cycle
    [onRunWorkflow] finds no root, reports it, sets no timer and goes
    back to idle, and both nodes, [pending] before, are left [running]. *)
Example onRunWorkflow_cycle_left_running :
  rootNodes twoCycle = []
  /\ map (fun n => status (data n)) (nodes twoCycle) = [pending; pending]
  /\ map (fun n => status (data n)) (nodes (onRunWorkflow twoCycle))
     = [running; running]
  /\ runningWorkflow (onRunWorkflow twoCycle) = false
  /\ timers (window (onRunWorkflow twoCycle)) = []
  /\ console (window (onRunWorkflow twoCycle))
     = [(Warn, "No root nodes found in workflow")].
Proof. repeat split; reflexivity. Qed.

(** ** Saving and loading *)

(** What the saved form of a node says about its data: the status is
    ["pending"], and there is neither an output nor a session id. *)
Definition savedAsPending (v : JsVal) : Prop :=
  exists d,
    getProp v "data" = Ok d
    /\ getProp d "status" = Ok (JStr "pending")
    /\ getProp d "output" = Ok JUndefined
    /\ getProp d "sessionId" = Ok JUndefined.

Lemma savedNode_pending (n : Node) : savedAsPending (savedNode n).
Proof. eexists. cbn. repeat split; reflexivity. Qed.

(** C10: [onSaveWorkflow] writes a document, to local storage and to a
    download, in which every node is [pending] and has neither output
    nor session id, and leaves the state of the component as it was:
    the live nodes, with their statuses and outputs, and the edges are
    the same lists as before. *)
Theorem onSaveWorkflow_leaves_graph (savedAt : string) (now : Z)
    (b : Builder) :
  let b' := onSaveWorkflow savedAt now b in
  let text space := toString (JSON_stringify (workflowDocument savedAt b) space) in
  nodes b' = nodes b
  /\ edges b' = edges b
  /\ runningWorkflow b' = runningWorkflow b
  /\ selection b' = selection b
  /\ copyBuffer b' = copyBuffer b
  /\ lastAction b' = lastAction b
  /\ redoAction b' = redoAction b
  /\ localStorage (window b')
     = (if nonEmpty (nodes b) then
          (STORAGE_KEY, text 0)
            :: filter (fun kv => negb (String.eqb (fst kv) STORAGE_KEY))
                 (localStorage (window b))
        else localStorage (window b))
  /\ downloads (window b')
     = (if nonEmpty (nodes b) then
          app (downloads (window b))
            [("workflow_" ++ decZ now ++ ".json", text 2)]
        else downloads (window b))
  /\ getProp (workflowDocument savedAt b) "nodes"
     = Ok (JArr (map savedNode (nodes b)))
  /\ Forall savedAsPending (map savedNode (nodes b)).
Proof.
  cbv zeta.
  assert (Hdoc : Forall savedAsPending (map savedNode (nodes b))).
  { rewrite Forall_map, Forall_forall. intros n _. apply savedNode_pending. }
  unfold onSaveWorkflow.
  destruct (nonEmpty (nodes b)); cbn [negb]; repeat split; assumption.
Qed.

(** C8: a document without a [nodes] field or without an [edges] field
    is rejected: the load reports ["Invalid workflow file format"] and
    returns, with the nodes and the edges of the graph as they were. *)
Theorem onLoadWorkflow_rejects_incomplete
    (props : list (string * JsVal)) (b : Builder) :
  lookup "nodes" props = JUndefined \/ lookup "edges" props = JUndefined ->
  exists b',
    onLoadWorkflow (Ok (JObj props)) b = Some b'
    /\ nodes b' = nodes b
    /\ edges b' = edges b
    /\ console (window b')
       = (console (window b) ++ [(Error, "Invalid workflow file format")])%list.
Proof.
  intros H.
  exists (report Error "Invalid workflow file format" b).
  split; [|repeat split].
  unfold onLoadWorkflow, readWorkflow. cbn [bind getProp].
  destruct (truthy (lookup "nodes" props)) eqn:Hn; cbn [negb]; [|reflexivity].
  destruct H as [H|H]; rewrite H in *; [discriminate|]. reflexivity.
Qed.

(** The basic-research preset on the canvas, and a document that has
    nodes and no edges. *)
Lemma onLoadWorkflow_rejects_incomplete_witness :
  let b := onApplyPreset basicResearchWorkflow initialBuilder in
  exists b',
    onLoadWorkflow (Ok (JObj [("nodes", JArr [])])) b = Some b'
    /\ nodes b' = nodes b
    /\ edges b' = edges b
    /\ console (window b')
       = (console (window b) ++ [(Error, "Invalid workflow file format")])%list.
Proof.
  exact (onLoadWorkflow_rejects_incomplete [("nodes", JArr [])]
           (onApplyPreset basicResearchWorkflow initialBuilder)
           (or_intror eq_refl)).
Defined.

(** ** Input adaptation *)

(** A paper as the source finder returns it. *)
Record Paper : Type := mkPaper {
  title : string;
  authors : list string;
  published : string
}.

(** The line the adaptation writes for a paper:
    ["<title>. <authors> (<year>)"], the authors separated by commas. *)
Definition citation (p : Paper) : string :=
  title p ++ ". " ++ String.concat ", " (authors p)
    ++ " (" ++ published p ++ ")".

(** The value [v] is an object that holds the paper [p], among whatever
    other fields. *)
Definition holdsPaper (p : Paper) (v : JsVal) : Prop :=
  exists props,
    v = JObj props
    /\ lookup "title" props = JStr (title p)
    /\ lookup "authors" props = JArr (map JStr (authors p))
    /\ lookup "published" props = JStr (published p).

Lemma join_strings (sep : string) (l : list string) :
  join sep (map JStr l) = String.concat sep l.
Proof. unfold join. rewrite map_map. cbn. now rewrite map_id. Qed.

Lemma paperLine_citation (p : Paper) (v : JsVal) :
  holdsPaper p v -> paperLine v = Ok (citation p).
Proof.
  intros (props & -> & Ht & Ha & Hp). unfold paperLine, citation. cbn.
  rewrite Ht, Ha, Hp, join_strings. cbn. unfold or_else. cbn.
  destruct (published p); reflexivity.
Qed.

Lemma mapM_paperLine (papers : list Paper) (ps : list JsVal) :
  Forall2 holdsPaper papers ps ->
  mapM paperLine ps = Ok (map citation papers).
Proof.
  induction 1 as [|p v papers ps Hp _ IH]; cbn; [reflexivity|].
  now rewrite (paperLine_citation Hp), IH.
Qed.

(** C3 (as amended): for a consumer that is not a literature review,
    when the output of its predecessor holds a list of papers and the
    predecessor is a source finder (or has no tool type), the adapted
    input is the string of the papers' lines
    ["<title>. <authors> (<year>)"] joined by newlines. *)
Theorem source_finder_papers_are_flattened
    (nodeId : string) (currentEdges : list Edge) (currentNodes : list Node)
    (toolTypeForContext : option string) (incomingEdge : Edge)
    (predNode : Node) (papers : list Paper) (ps : list JsVal) :
  find (fun e => equals (target e) nodeId) currentEdges = Some incomingEdge ->
  find (fun n => equals (source incomingEdge) (node_id n)) currentNodes
    = Some predNode ->
  equals toolTypeForContext AILiteratureReview = false ->
  toolType (data predNode) = Some SourceFinder
    \/ noToolType (toolType (data predNode)) = true ->
  getProp (output (data predNode)) "papers" = Ok (JArr ps) ->
  Forall2 holdsPaper papers ps ->
  getInputFromPredecessorNode nodeId currentEdges currentNodes
    toolTypeForContext
  = Ok (JStr (String.concat nl (map citation papers))).
Proof.
  intros He Hn Hctx Hpred Hpapers Hps.
  unfold getInputFromPredecessorNode. rewrite He, Hn. cbv zeta.
  assert (Ht : truthy (output (data predNode)) = true).
  { destruct (output (data predNode)); try discriminate; reflexivity. }
  rewrite Ht. unfold adaptOutput. rewrite Hpapers. cbn [bind].
  rewrite Hctx. cbn [andb truthy].
  assert (Hsf : equals (toolType (data predNode)) SourceFinder
                || noToolType (toolType (data predNode)) = true).
  { destruct Hpred as [-> | ->]; [reflexivity | apply orb_true_r]. }
  rewrite Hsf. unfold flattenPapers.
  now rewrite (mapM_paperLine Hps).
Qed.

Definition paperA : Paper :=
  mkPaper "Attention Is All You Need" ["A. Vaswani"; "N. Shazeer"] "2017".

Definition paperB : Paper :=
  mkPaper "Deep Residual Learning" ["K. He"] "2015-12-10".

Definition paperValue (p : Paper) : JsVal :=
  JObj [("arxiv_id", JStr ""); ("title", JStr (title p));
        ("authors", JArr (map JStr (authors p)));
        ("published", JStr (published p))].

(** The basic-research preset after its source finder has found two
    papers. *)
Definition searchedGraph : Builder :=
  setNodes
    (patchNode "basic_src"
       (fun d =>
          set_output (JObj [("papers", JArr [paperValue paperA;
                                             paperValue paperB])])
            (set_status success d)))
    (onApplyPreset basicResearchWorkflow initialBuilder).

(** ... and after the literature review has answered with its text and
    the papers it reviewed. *)
Definition reviewedGraph : Builder :=
  setNodes
    (patchNode "basic_review"
       (fun d =>
          set_output (JObj [("review", JStr "The field moved to attention.");
                            ("papers", JArr [paperValue paperA;
                                             paperValue paperB])])
            (set_status success d)))
    searchedGraph.

Lemma source_finder_papers_are_flattened_witness :
  getInputFromPredecessorNode "basic_review" (edges searchedGraph)
    (nodes searchedGraph) None
  = Ok (JStr (String.concat nl (map citation [paperA; paperB]))).
Proof.
  apply (@source_finder_papers_are_flattened "basic_review"
           (edges searchedGraph) (nodes searchedGraph) None
           (mkEdge "e1" (Some "basic_src") (Some "basic_review"))
           (nth 0 (nodes searchedGraph)
              (createToolNode "" "" "" 0 0))
           [paperA; paperB] [paperValue paperA; paperValue paperB]);
    try reflexivity.
  - left. reflexivity.
  - repeat constructor; eexists; repeat split; reflexivity.
Defined.

(** C3 (counterexample): the export node of the preset is no literature
    review and the output of its predecessor holds the two papers, but
    the predecessor is the literature review, not a source finder: the
    adapted input is the review text, not the two flattened lines. *)
Lemma papers_of_a_review_are_not_flattened :
  getProp (output (data (nth 1 (nodes reviewedGraph)
                           (createToolNode "" "" "" 0 0)))) "papers"
    = Ok (JArr [paperValue paperA; paperValue paperB])
  /\ getInputFromPredecessorNode "basic_export" (edges reviewedGraph)
       (nodes reviewedGraph) None
     = Ok (JStr "The field moved to attention.")
  /\ flattenPapers (JArr [paperValue paperA; paperValue paperB])
     = Ok (JStr ("Attention Is All You Need. A. Vaswani, N. Shazeer (2017)"
                   ++ nl ++ "Deep Residual Learning. K. He (2015-12-10)")).
Proof. repeat split; reflexivity. Qed.

(** ** The effective input of a tool *)







Section Requests.

Variable server : Request -> FetchOutcome.


Variable nodeId : string.
Variable config : list (string * JsVal).
Variable currentEdges : list Edge.
Variable currentNodes : list Node.

Let run (tool : string) : Exec JsVal :=
  invokeTool server nodeId (Some tool) config currentEdges currentNodes.

Let cfg (k : string) : JsVal := lookup k config.

Let predecessor (ctx : option string) : Exec JsVal :=
  eval (getInputFromPredecessorNode nodeId currentEdges currentNodes ctx).

(** The branches of the [switch], one equation for each tool type. *)


Lemma invokeTool_ClaimExtractor :
  run ClaimExtractor
  = (extractedInput <~ predecessor None ;;
     let inputText :=
       or_else (cfg "prompt")
         (if isString extractedInput then extractedInput else JStr "") in
     if negb (truthy inputText) then
       throw "Claim Extractor requires an input prompt or a connection providing text output."
     else
       fetchApiAndParse server "/api/claim-extractor/extract"
         (JObj [("prompt", inputText); ("model", cfg "model")])).
Proof. reflexivity. Qed.

Lemma invokeTool_ContradictionChecker :
  run ContradictionChecker
  = (extractedInput <~ predecessor None ;;
     let inputText :=
       or_else (cfg "prompt")
         (if isString extractedInput then extractedInput else JStr "") in
     if negb (truthy inputText) then
       throw "Contradiction Checker requires an input prompt or connection with text/claims output."
     else
       fetchApiAndParse server "/api/contradiction-check/check"
         (JObj [("text", inputText); ("modelId", cfg "model")])).
Proof. reflexivity. Qed.






End Requests.

Lemma truthy_or_else (a c : JsVal) :
  truthy (or_else a c) = truthy a || truthy c.
Proof. unfold or_else. destruct (truthy a) eqn:E; [now rewrite E|reflexivity]. Qed.


(** A tool execution service that accepts whatever it is sent. *)
Definition okServer : Request -> FetchOutcome :=
  fun _ => Response true "OK" "{}" (Ok (JObj [])).




(** ** A node without input *)

Lemma patchNode_patchNode (nodeId : string) (f g : ToolNodeData -> ToolNodeData)
    (l : list Node) :
  patchNode nodeId f (patchNode nodeId g l)
  = patchNode nodeId (fun d => f (g d)) l.
Proof.
  unfold patchNode. rewrite map_map. apply map_ext. intros n.
  destruct (String.eqb (node_id n) nodeId) eqn:E; cbn; now rewrite E.
Qed.

Lemma patchNode_ext (nodeId : string) (f g : ToolNodeData -> ToolNodeData)
    (l : list Node) :
  (forall d, f d = g d) -> patchNode nodeId f l = patchNode nodeId g l.
Proof.
  intros H. unfold patchNode. apply map_ext. intros n.
  destruct (String.eqb (node_id n) nodeId); [|reflexivity].
  unfold with_data. now rewrite H.
Qed.

Lemma patchNode_other (nodeId : string) (f : ToolNodeData -> ToolNodeData)
    (l : list Node) (n : Node) :
  In n l -> node_id n <> nodeId -> In n (patchNode nodeId f l).
Proof.
  intros Hin Hne. unfold patchNode. apply in_map_iff. exists n.
  split; [|assumption].
  apply String.eqb_neq in Hne. now rewrite Hne.
Qed.

(** The message of the configuration error of a tool. *)
Definition missingInput (tool : string) : string :=
  if String.eqb tool ClaimExtractor then
    "Claim Extractor requires an input prompt or a connection providing text output."
  else
    "Contradiction Checker requires an input prompt or connection with text/claims output.".

(** C5 (as amended): executing a Claim Extractor or Contradiction
    Checker node that reads nothing from a predecessor and whose own
    [prompt] is empty sends no request; the node ends in [error] with
    the message that the tool requires an input as its output; every
    other node, the edges, the pending timers and the running flag are
    as before, so no other branch is stopped. *)
Theorem missing_input_is_a_configuration_error
    (server : Request -> FetchOutcome) (freshSessionId nodeId tool : string)
    (b : Builder) (node : Node) :
  find (fun n => String.eqb (node_id n) nodeId) (nodes b) = Some node ->
  toolType (data node) = Some tool ->
  tool = ClaimExtractor \/ tool = ContradictionChecker ->
  getInputFromPredecessorNode nodeId (edges b) (nodes b) None = Ok JNull ->
  truthy (lookup "prompt" (config (data node))) = false ->
  let b' := handleToolExecution server freshSessionId nodeId b in
  let session :=
    if truthySession (sessionId (data node)) then sessionId (data node)
    else Some freshSessionId in
  requests (window b') = requests (window b)
  /\ nodes b'
     = patchNode nodeId
         (fun d =>
            set_sessionId session
              (set_output (JObj [("error", JStr (missingInput tool))])
                 (set_status error d)))
         (nodes b)
  /\ (forall n, In n (nodes b) -> node_id n <> nodeId -> In n (nodes b'))
  /\ edges b' = edges b
  /\ timers (window b') = timers (window b)
  /\ runningWorkflow b' = runningWorkflow b.
Proof.
  intros Hfind Htool Hcase Hin Hprompt. cbv zeta.
  set (session := if truthySession (sessionId (data node))
                  then sessionId (data node) else Some freshSessionId).
  set (b1 := if truthySession (sessionId (data node)) then b
             else setNodes (patchNode nodeId (set_sessionId session)) b).
  assert (Hthrow :
            invokeTool server nodeId (toolType (data node))
              (config (data node)) (edges b) (nodes b) b1
            = (Throw (missingInput tool), b1)).
  { rewrite Htool.
    destruct Hcase as [-> | ->];
      [rewrite invokeTool_ClaimExtractor
      |rewrite invokeTool_ContradictionChecker];
      unfold andThen, eval; rewrite Hin; cbv zeta;
      rewrite truthy_or_else, Hprompt; reflexivity. }
  assert (Hrun :
            handleToolExecution server freshSessionId nodeId b
            = setNodes
                (patchNode nodeId (fun d =>
                   set_sessionId session
                     (set_output (JObj [("error", JStr (missingInput tool))])
                        (set_status error d))))
                (report Error
                   ("Error running node " ++ nodeId ++ " (" ++ tool ++ ")")
                   b1)).
  { unfold handleToolExecution. rewrite Hfind. cbv zeta.
    fold session. fold b1. rewrite Hthrow, Htool. reflexivity. }
  assert (Hnodes :
            nodes (handleToolExecution server freshSessionId nodeId b)
            = patchNode nodeId
                (fun d =>
                   set_sessionId session
                     (set_output (JObj [("error", JStr (missingInput tool))])
                        (set_status error d)))
                (nodes b)).
  { rewrite Hrun. unfold b1.
    destruct (truthySession (sessionId (data node))); [reflexivity|].
    unfold report, onWindow, setNodes. cbn [nodes].
    rewrite patchNode_patchNode. apply patchNode_ext.
    intros d. reflexivity. }
  repeat split.
  - rewrite Hrun. unfold b1.
    destruct (truthySession (sessionId (data node))); reflexivity.
  - exact Hnodes.
  - intros n Hn Hne. rewrite Hnodes. now apply patchNode_other.
  - rewrite Hrun. unfold b1.
    destruct (truthySession (sessionId (data node))); reflexivity.
  - rewrite Hrun. unfold b1.
    destruct (truthySession (sessionId (data node))); reflexivity.
  - rewrite Hrun. unfold b1.
    destruct (truthySession (sessionId (data node))); reflexivity.
Qed.

Lemma missing_input_is_a_configuration_error_witness :
  let b := onApplyPreset factCheckWorkflow initialBuilder in
  let b' := handleToolExecution okServer "tool_1" "fact_claim" b in
  requests (window b') = []
  /\ map (fun n => status (data n)) (nodes b')
     = [pending; error; pending; pending]
  /\ map (fun n => output (data n)) (nodes b')
     = [JUndefined;
        JObj [("error", JStr (missingInput ClaimExtractor))];
        JUndefined; JUndefined].
Proof.
  pose proof (@missing_input_is_a_configuration_error okServer "tool_1"
                "fact_claim" ClaimExtractor
                (onApplyPreset factCheckWorkflow initialBuilder)
                (nth 1 (nodes (onApplyPreset factCheckWorkflow initialBuilder))
                   (createToolNode "" "" "" 0 0))
                eq_refl eq_refl (or_introl eq_refl) eq_refl eq_refl) as H.
  cbv zeta in H. destruct H as (Hreq & Hnodes & _).
  cbv zeta. split; [exact Hreq|]. rewrite Hnodes. split; reflexivity.
Defined.

(** C5 (counterexample): an Export TXT node alone on the canvas has no
    predecessor and an empty config; executing it calls the export
    endpoint with an empty content, and the node ends in [success]. *)
Lemma export_without_input_is_sent :
  let b := onDrop ExportTXT (0, 0)%Z initialBuilder in
  let b' := handleToolExecution okServer "tool_1" "ExportTXT_1" b in
  getInputFromPredecessorNode "ExportTXT_1" (edges b) (nodes b) None = Ok JNull
  /\ map (fun n => config (data n)) (nodes b) = [[]]
  /\ requests (window b')
     = [mkRequest "/api/export-tools/txt"
          (JObj [("exportData", JStr "");
                 ("exportFileName", JStr "export.txt")])]
  /\ map (fun n => status (data n)) (nodes b') = [success].
Proof. repeat split; reflexivity. Qed.

(** ** Paste and undo *)

Lemma includes_In (ids : list string) (x : string) :
  includes ids x = true <-> In x ids.
Proof.
  unfold includes. rewrite existsb_exists. split.
  - intros (y & Hy & He). apply String.eqb_eq in He. now subst.
  - intros H. exists x. split; [assumption|apply String.eqb_refl].
Qed.

Lemma includes_false (ids : list string) (x : string) :
  includes ids x = false <-> ~ In x ids.
Proof.
  rewrite <- includes_In. destruct (includes ids x); intuition congruence.
Qed.

Lemma filter_all {A} (f : A -> bool) (l : list A) :
  (forall x, In x l -> f x = true) -> filter f l = l.
Proof.
  induction l as [|a l IH]; cbn; intros H; [reflexivity|].
  rewrite (H a (or_introl eq_refl)). f_equal. apply IH. intros; apply H; now right.
Qed.

Lemma filter_none {A} (f : A -> bool) (l : list A) :
  (forall x, In x l -> f x = false) -> filter f l = [].
Proof.
  induction l as [|a l IH]; cbn; intros H; [reflexivity|].
  rewrite (H a (or_introl eq_refl)). apply IH. intros; apply H; now right.
Qed.

(** Removing by id what was appended gives the list back when no
    element of the list bears one of those ids. *)
Lemma remove_appended {A} (key : A -> string) (l new : list A) :
  (forall x, In x l -> ~ In (key x) (map key new)) ->
  filter (fun x => negb (includes (map key new) (key x))) (l ++ new) = l.
Proof.
  intros H. rewrite filter_app, filter_all, filter_none.
  - apply app_nil_r.
  - intros x Hx. apply negb_false_iff, includes_In. now apply in_map.
  - intros x Hx. apply negb_true_iff, includes_false. now apply H.
Qed.

(** The action a paste records. *)
Lemma pasteBuffer_spec (b : Builder) (buffer : Subgraph) :
  copyBuffer b = Some buffer ->
  exists newNodes newEdges,
    nodes (pasteBuffer b) = (nodes b ++ newNodes)%list
    /\ edges (pasteBuffer b) = (edges b ++ newEdges)%list
    /\ lastAction (pasteBuffer b) = Some (mkAction paste newNodes newEdges)
    /\ redoAction (pasteBuffer b) = redoAction b.
Proof.
  intros Hb. unfold pasteBuffer. rewrite Hb.
  destruct (pasteNodes (idCounter b) [] (sub_nodes buffer))
    as [[newNodes counter] oldToNew].
  destruct (pasteEdges counter oldToNew (sub_edges buffer))
    as [newEdges counter'].
  exists newNodes, newEdges. repeat split.
Qed.

(** X26: when no node of the graph already bears one of the ids the
    paste mints for its nodes, and no edge one of the ids it mints for
    its edges, a paste followed at once by an undo gives back the node
    list and the edge list from before the paste, and the paste action
    has moved from the undo slot to the redo slot. *)
Theorem paste_then_undo_restores (b : Builder) (buffer : Subgraph)
    (a : Action) :
  copyBuffer b = Some buffer ->
  lastAction (pasteBuffer b) = Some a ->
  (forall n, In n (nodes b) -> ~ In (node_id n) (ids_of (action_nodes a))) ->
  (forall e, In e (edges b) ->
     ~ In (edge_id e) (edge_ids_of (action_edges a))) ->
  nodes (undo (pasteBuffer b)) = nodes b
  /\ edges (undo (pasteBuffer b)) = edges b
  /\ action_type a = paste
  /\ lastAction (undo (pasteBuffer b)) = None
  /\ redoAction (undo (pasteBuffer b)) = Some a.
Proof.
  intros Hb Ha Hn He.
  destruct (pasteBuffer_spec b Hb) as (newNodes & newEdges & Pn & Pe & Pa & _).
  rewrite Ha in Pa. injection Pa as ->.
  unfold undo. rewrite Ha. cbn [action_type action_nodes action_edges] in *.
  unfold removeRecorded, setSelection, setLastAction, setRedoAction,
    setEdges, setNodes.
  cbn [nodes edges lastAction redoAction action_nodes action_edges].
  rewrite Pn, Pe. unfold ids_of, edge_ids_of in *.
  rewrite (remove_appended node_id _ _ Hn), (remove_appended edge_id _ _ He).
  repeat split.
Qed.

(** The user selects the nodes with the ids [ids] on the canvas. *)
Definition selectNodes (ids : list string) (b : Builder) : Builder :=
  onSelectionChangeHandler (mkSubgraph (selectedNodes ids b) []) b.

Lemma no_collision {A} (key : A -> string) (l : list A) (ids : list string) :
  forallb (fun x => negb (includes ids (key x))) l = true ->
  forall x, In x l -> ~ In (key x) ids.
Proof.
  rewrite forallb_forall. intros H x Hx.
  apply includes_false, negb_true_iff. now apply H.
Qed.

(** The basic-research preset, selected as a whole and copied. *)
Definition copiedPreset : Builder :=
  copySelection (selectAll (onApplyPreset basicResearchWorkflow initialBuilder)).

Lemma paste_then_undo_restores_witness :
  ids_of (nodes (pasteBuffer copiedPreset))
    = ["basic_src"; "basic_review"; "basic_export";
       "basic_src_1"; "basic_review_2"; "basic_export_3"]
  /\ edge_ids_of (edges (pasteBuffer copiedPreset)) = ["e1"; "e2"; "e_4"; "e_5"]
  /\ nodes (undo (pasteBuffer copiedPreset)) = nodes copiedPreset
  /\ edges (undo (pasteBuffer copiedPreset)) = edges copiedPreset.
Proof.
  split; [reflexivity|]. split; [reflexivity|].
  destruct (lastAction (pasteBuffer copiedPreset)) as [a|] eqn:Ha;
    [|discriminate].
  pose proof (@paste_then_undo_restores copiedPreset
                (mkSubgraph (nodes copiedPreset) (edges copiedPreset)) a
                eq_refl Ha) as H.
  injection Ha as <-.
  destruct H as (Hn & He & _).
  - apply no_collision. reflexivity.
  - apply no_collision. reflexivity.
  - split; assumption.
Defined.

(** A first session: a claim extractor and a source finder are dropped,
    the source finder is copied and pasted, the workflow is saved. *)
Definition firstSession : Builder :=
  pasteBuffer
    (copySelection
       (selectNodes ["SourceFinder_2"]
          (onDrop SourceFinder (300, 0)%Z
             (onDrop ClaimExtractor (0, 0)%Z initialBuilder)))).

Definition savedDocument : JsVal :=
  workflowDocument "2026-11-02T10:00:00.000Z" firstSession.

(** A second session, on a freshly mounted component: the document is
    loaded, two export nodes are dropped, the source finder is copied. *)
Definition secondSession (loaded : Builder) : Builder :=
  copySelection
    (selectNodes ["SourceFinder_2"]
       (onDrop ExportTXT (0, 300)%Z (onDrop ExportDOC (0, 600)%Z loaded))).

Definition reloaded : Builder :=
  match onLoadWorkflow (Ok savedDocument) initialBuilder with
  | Some b => b
  | None => initialBuilder
  end.

(** C7 (the code at the failing input): in the second session the
    counter starts again at 1 and the load does not move it, so the
    paste mints ["SourceFinder_2_3"], the id of a node that came with
    the document; the undo removes every node with that id, and the
    graph it leaves has lost the node that was there before the
    paste. *)
Lemma paste_then_undo_loses_a_node :
  onLoadWorkflow (Ok savedDocument) initialBuilder = Some reloaded
  /\ ids_of (nodes (secondSession reloaded))
     = ["ClaimExtractor_1"; "SourceFinder_2"; "SourceFinder_2_3";
        "ExportDOC_1"; "ExportTXT_2"]
  /\ option_map (fun c => ids_of (sub_nodes c))
       (copyBuffer (secondSession reloaded))
     = Some ["SourceFinder_2"]
  /\ ids_of (nodes (pasteBuffer (secondSession reloaded)))
     = ["ClaimExtractor_1"; "SourceFinder_2"; "SourceFinder_2_3";
        "ExportDOC_1"; "ExportTXT_2"; "SourceFinder_2_3"]
  /\ ids_of (nodes (undo (pasteBuffer (secondSession reloaded))))
     = ["ClaimExtractor_1"; "SourceFinder_2"; "ExportDOC_1"; "ExportTXT_2"].
Proof. repeat apply conj; vm_compute; reflexivity. Qed.

(** ** Unique node ids *)

(** *** The ids the counter mints *)

(** A string without an underscore. *)
Fixpoint plain (s : string) : bool :=
  match s with
  | EmptyString => true
  | String c s' => negb (Ascii.eqb c "_") && plain s'
  end.

Lemma plain_uint (d : Decimal.uint) :
  plain (NilEmpty.string_of_uint d) = true.
Proof. induction d; cbn; auto. Qed.

Lemma plain_decNat (n : nat) : plain (decNat n) = true.
Proof.
  unfold decNat, NilZero.string_of_uint.
  destruct (Nat.to_uint n) eqn:E; [reflexivity| rewrite <- E ..];
    apply plain_uint.
Qed.

Lemma to_uint_not_nil (n : nat) : Nat.to_uint n <> Decimal.Nil.
Proof.
  intros H. pose proof (DecimalNat.Unsigned.of_to n) as Hn.
  rewrite H in Hn. cbn in Hn. subst n. discriminate H.
Qed.

Lemma decNat_inj (n m : nat) : decNat n = decNat m -> n = m.
Proof.
  unfold decNat. intros H.
  apply DecimalNat.Unsigned.to_uint_inj.
  pose proof (NilZero.usu _ (to_uint_not_nil n)) as Hn.
  pose proof (NilZero.usu _ (to_uint_not_nil m)) as Hm.
  rewrite H in Hn. congruence.
Qed.

Lemma not_plain_with_underscore (x d : string) :
  plain (x ++ String "_" d) = false.
Proof.
  induction x as [|c x IH]; cbn; [reflexivity|]. rewrite IH.
  apply andb_false_r.
Qed.

(** The part behind the last underscore is determined by the string. *)
Lemma suffix_unique (x y d1 d2 : string) :
  plain d1 = true -> plain d2 = true ->
  x ++ "_" ++ d1 = y ++ "_" ++ d2 -> d1 = d2.
Proof.
  intros H1 H2. change ("_" ++ d1) with (String "_" d1).
  change ("_" ++ d2) with (String "_" d2). revert y.
  induction x as [|c x IH]; intros [|c' y]; cbn; intros E.
  - now injection E.
  - injection E as _ E. rewrite E, not_plain_with_underscore in H1.
    discriminate.
  - injection E as _ E. rewrite <- E, not_plain_with_underscore in H2.
    discriminate.
  - injection E as _ E. now apply IH with y.
Qed.

Lemma stamp_unique (x y : string) (k c : nat) :
  x ++ "_" ++ decNat k = y ++ "_" ++ decNat c -> k = c.
Proof.
  intros E. apply decNat_inj.
  eapply suffix_unique; [apply plain_decNat | apply plain_decNat | exact E].
Qed.

(** Every way of reading the id [i] as a base, an underscore and a
    counter value gives a value below [c]: the counter has not yet
    reached a value that would mint [i]. *)
Definition stampBelow (c : nat) (i : string) : Prop :=
  forall x k, i = x ++ "_" ++ decNat k -> k < c.

(** The id [i] was minted at a counter value from [lo] up to [hi]. *)
Definition stamped (lo hi : nat) (i : string) : Prop :=
  exists x k, i = x ++ "_" ++ decNat k /\ lo <= k < hi.

Lemma stampBelow_mono (c c' : nat) (i : string) :
  c <= c' -> stampBelow c i -> stampBelow c' i.
Proof. intros Hc H x k E. specialize (H x k E). lia. Qed.

Lemma stamped_below (lo hi : nat) (i : string) :
  stamped lo hi i -> stampBelow hi i.
Proof.
  intros (x & k & -> & Hk) y k' E. apply stamp_unique in E. lia.
Qed.

Lemma stamped_fresh (lo hi : nat) (i : string) :
  stamped lo hi i -> ~ stampBelow lo i.
Proof. intros (x & k & -> & Hk) H. specialize (H x k eq_refl). lia. Qed.

Lemma stamped_widen (lo hi lo' hi' : nat) (i : string) :
  lo' <= lo -> hi <= hi' -> stamped lo hi i -> stamped lo' hi' i.
Proof. intros H1 H2 (x & k & E & Hk). exists x, k. split; [assumption|lia]. Qed.

Lemma stamped_apart (lo mid hi : nat) (i j : string) :
  stamped lo mid i -> stamped mid hi j -> i <> j.
Proof.
  intros (x & k & -> & Hk) (y & k' & -> & Hk') E.
  apply stamp_unique in E. lia.
Qed.

(** *** The invariant of the editor *)

Definition recorded (a : option Action) : list string :=
  match a with
  | Some a' => ids_of (action_nodes a')
  | None => []
  end.

Definition buffered (c : option Subgraph) : list string :=
  match c with
  | Some c' => ids_of (sub_nodes c')
  | None => []
  end.

Definition isCut (a : option Action) : bool :=
  match a with
  | Some a' => match action_type a' with cut => true | paste => false end
  | None => false
  end.

Definition isPaste (a : option Action) : bool :=
  match a with
  | Some a' => match action_type a' with paste => true | cut => false end
  | None => false
  end.

Definition disjoint (l1 l2 : list string) : Prop :=
  forall x, In x l1 -> ~ In x l2.

(** What the editing commands keep true.  The ids of the graph are
    pairwise different; no id in the graph, the copy buffer or the two
    history slots could be minted again by the counter; the nodes a
    recorded cut would put back, and the nodes a recorded redo of a paste
    would put back, are not in the graph, and not the same nodes. *)
Record EditorInv (b : Builder) : Prop := mkEditorInv {
  inv_unique : NoDup (ids_of (nodes b));
  inv_nodes : Forall (stampBelow (idCounter b)) (ids_of (nodes b));
  inv_buffer : Forall (stampBelow (idCounter b)) (buffered (copyBuffer b));
  inv_last : Forall (stampBelow (idCounter b)) (recorded (lastAction b));
  inv_redo : Forall (stampBelow (idCounter b)) (recorded (redoAction b));
  inv_last_unique : NoDup (recorded (lastAction b));
  inv_redo_unique : NoDup (recorded (redoAction b));
  inv_cut_out :
    isCut (lastAction b) = true ->
    disjoint (recorded (lastAction b)) (ids_of (nodes b));
  inv_paste_out :
    isPaste (redoAction b) = true ->
    disjoint (recorded (redoAction b)) (ids_of (nodes b));
  inv_cut_paste :
    isCut (lastAction b) = true -> isPaste (redoAction b) = true ->
    disjoint (recorded (lastAction b)) (recorded (redoAction b))
}.

Ltac fields :=
  cbn [nodes edges copyBuffer lastAction redoAction idCounter selection
       setSelection setEdges setNodes setLastAction setCopyBuffer
       setRedoAction setIdCounter onSelectionChangeHandler
       recorded buffered isCut isPaste
       action_type action_nodes action_edges sub_nodes sub_edges] in *.

Lemma ids_filter_in (f : Node -> bool) (l : list Node) (x : string) :
  In x (ids_of (filter f l)) -> In x (ids_of l).
Proof.
  unfold ids_of. rewrite !in_map_iff. intros (n & E & Hn).
  apply filter_In in Hn. exists n. tauto.
Qed.

Lemma ids_filter_unique (f : Node -> bool) (l : list Node) :
  NoDup (ids_of l) -> NoDup (ids_of (filter f l)).
Proof.
  induction l as [|n l IH]; cbn; intros H; [constructor|].
  apply NoDup_cons_iff in H as [Hn Hl].
  destruct (f n); cbn; [|now apply IH].
  constructor; [|now apply IH].
  intros Hin. apply Hn. now apply ids_filter_in in Hin.
Qed.

Lemma ids_filter_all (P : string -> Prop) (f : Node -> bool) (l : list Node) :
  Forall P (ids_of l) -> Forall P (ids_of (filter f l)).
Proof.
  rewrite !Forall_forall. intros H x Hx. apply H.
  now apply ids_filter_in in Hx.
Qed.

Lemma ids_kept (ids : list string) (l : list Node) (x : string) :
  In x (ids_of (filter (fun n => includes ids (node_id n)) l)) ->
  In x ids /\ In x (ids_of l).
Proof.
  unfold ids_of. rewrite !in_map_iff. intros (n & <- & Hn).
  apply filter_In in Hn as [Hn Hi]. apply includes_In in Hi.
  split; [assumption|]. now exists n.
Qed.

Lemma ids_dropped (ids : list string) (l : list Node) (x : string) :
  In x (ids_of (filter (fun n => negb (includes ids (node_id n))) l)) ->
  ~ In x ids /\ In x (ids_of l).
Proof.
  unfold ids_of. rewrite !in_map_iff. intros (n & <- & Hn).
  apply filter_In in Hn as [Hn Hi].
  apply negb_true_iff, includes_false in Hi.
  split; [assumption|]. now exists n.
Qed.

Lemma disjoint_filter (l1 : list string) (f : Node -> bool) (l : list Node) :
  disjoint l1 (ids_of l) -> disjoint l1 (ids_of (filter f l)).
Proof. intros H x Hx Hf. apply (H x Hx). now apply ids_filter_in in Hf. Qed.

Lemma ids_patchNode (nodeId : string) (f : ToolNodeData -> ToolNodeData)
    (l : list Node) :
  ids_of (patchNode nodeId f l) = ids_of l.
Proof.
  unfold ids_of, patchNode. rewrite map_map. apply map_ext. intros n.
  now destruct (String.eqb (node_id n) nodeId).
Qed.

Lemma EditorInv_initial : EditorInv initialBuilder.
Proof. constructor; cbn; try constructor; intros; discriminate. Qed.

(** The graph shrinks, everything else stays. *)
Lemma EditorInv_remove (b : Builder) (f : Node -> bool)
    (g : list Edge -> list Edge) (s : Subgraph) :
  EditorInv b ->
  EditorInv (setSelection s (setEdges g (setNodes (filter f) b))).
Proof.
  intros [U N B L R LU RU CO PO CP].
  constructor; fields; auto using ids_filter_unique, ids_filter_all,
    disjoint_filter.
Qed.

Lemma EditorInv_onSelectionChangeHandler (sel : Subgraph) (b : Builder) :
  EditorInv b -> EditorInv (onSelectionChangeHandler sel b).
Proof. intros [U N B L R LU RU CO PO CP]. constructor; fields; auto. Qed.

Lemma EditorInv_selectAll (b : Builder) :
  EditorInv b -> EditorInv (selectAll b).
Proof. apply EditorInv_onSelectionChangeHandler. Qed.

Lemma EditorInv_handleDelete (b : Builder) :
  EditorInv b -> EditorInv (handleDelete b).
Proof.
  intros H. unfold handleDelete.
  destruct (nonEmpty (sub_nodes (selection b))); [|assumption].
  now apply EditorInv_remove.
Qed.

Lemma EditorInv_changeConfig (nodeId : string)
    (newConfig : list (string * JsVal)) (b : Builder) :
  EditorInv b -> EditorInv (changeConfig nodeId newConfig b).
Proof.
  intros H. unfold changeConfig.
  destruct (find _ (nodes b)) as [node|]; [|assumption].
  destruct (onConfigChange (data node)) as [[| |]|]; try assumption;
    destruct H as [U N B L R LU RU CO PO CP];
    constructor; fields; rewrite ?ids_patchNode; auto.
Qed.

Lemma EditorInv_copySelection (b : Builder) :
  EditorInv b -> EditorInv (copySelection b).
Proof.
  intros H. unfold copySelection.
  destruct (nonEmpty (sub_nodes (selection b))); [|assumption].
  destruct H as [U N B L R LU RU CO PO CP].
  constructor; fields; auto.
  unfold selectedNodes. now apply ids_filter_all.
Qed.

Lemma fresh_not_in (c hi : nat) (l : list string) (x : string) :
  Forall (stampBelow c) l -> stamped c hi x -> ~ In x l.
Proof.
  rewrite Forall_forall. intros H Hx Hin.
  exact (stamped_fresh Hx (H x Hin)).
Qed.

Lemma stampBelow_all_mono (c c' : nat) (l : list string) :
  c <= c' -> Forall (stampBelow c) l -> Forall (stampBelow c') l.
Proof. intros Hc. apply Forall_impl. intros i. now apply stampBelow_mono. Qed.

Lemma disjoint_app_fresh (c hi : nat) (l g new : list string) :
  Forall (stampBelow c) l -> Forall (stamped c hi) new ->
  disjoint l g -> disjoint l (g ++ new).
Proof.
  intros Hl Hnew Hd x Hx Hin. apply in_app_iff in Hin as [Hin|Hin].
  - exact (Hd x Hx Hin).
  - rewrite Forall_forall in Hnew.
    exact (fresh_not_in Hl (Hnew x Hin) Hx).
Qed.

Lemma ids_app (l1 l2 : list Node) :
  ids_of (l1 ++ l2) = (ids_of l1 ++ ids_of l2)%list.
Proof. apply map_app. Qed.

Lemma EditorInv_onDrop (tool : string) (pos : Z * Z) (b : Builder) :
  EditorInv b -> EditorInv (onDrop tool pos b).
Proof.
  intros H. unfold onDrop. destruct (String.eqb tool ""); [assumption|].
  destruct H as [U N B L R LU RU CO PO CP].
  set (newId := removeSpaces tool ++ "_" ++ decNat (idCounter b)).
  assert (Hnew : Forall (stamped (idCounter b) (S (idCounter b))) [newId]).
  { constructor; [|constructor].
    exists (removeSpaces tool), (idCounter b). split; [reflexivity|lia]. }
  assert (Hle : idCounter b <= S (idCounter b)) by lia.
  constructor; fields; rewrite ?ids_app; cbn [ids_of map node_id];
    eauto using stampBelow_all_mono, disjoint_app_fresh.
  - apply NoDup_app; [assumption|repeat constructor; intros []|].
    intros a Ha [<-|[]]. inversion_clear Hnew as [|? ? Hs _].
    exact (fresh_not_in N Hs Ha).
  - apply Forall_app. split; [eauto using stampBelow_all_mono|].
    inversion_clear Hnew as [|? ? Hs _].
    constructor; [|constructor]. exact (stamped_below Hs).
Qed.

Lemma EditorInv_cutSelection (b : Builder) :
  EditorInv b -> EditorInv (cutSelection b).
Proof.
  intros H. unfold cutSelection.
  destruct (nonEmpty (sub_nodes (selection b))); [|assumption].
  destruct H as [U N B L R LU RU CO PO CP].
  unfold selectedNodes.
  constructor; fields;
    auto using ids_filter_unique, ids_filter_all, disjoint_filter.
  - intros _ x Hx Hg. apply ids_kept in Hx. apply ids_dropped in Hg. tauto.
  - intros _ Hp x Hx Hr. apply ids_kept in Hx. exact (PO Hp x Hr (proj2 Hx)).
Qed.

(** The nodes of a paste carry the counter values from [c] on. *)
Lemma pasteNodes_spec (ns : list Node) :
  forall (c : nat) (m : Remap) (new : list Node) (c' : nat) (m' : Remap),
    pasteNodes c m ns = (new, c', m') ->
    c' = c + List.length ns
    /\ Forall (stamped c c') (ids_of new)
    /\ NoDup (ids_of new).
Proof.
  induction ns as [|n ns IH]; intros c m new c' m'; cbn [pasteNodes].
  - intros [= <- <- <-]. cbn. repeat split; [lia|constructor|constructor].
  - destruct (pasteNodes (S c) _ ns) as [[copies c1] m1] eqn:E.
    intros [= <- <- <-].
    destruct (IH _ _ _ _ _ E) as (Hc & Hs & Hu).
    assert (Hhead : stamped c (S c) (node_id n ++ "_" ++ decNat c)).
    { exists (node_id n), c. split; [reflexivity|lia]. }
    cbn [ids_of map node_id List.length]. repeat split; [lia| |].
    + constructor; [apply (stamped_widen (lo:=c) (hi:=S c)); [lia|lia|assumption]|].
      revert Hs. apply Forall_impl. intros i. apply stamped_widen; lia.
    + constructor; [|assumption].
      intros Hin. fold (ids_of copies) in Hin.
      rewrite Forall_forall in Hs.
      exact (stamped_apart Hhead (Hs _ Hin) eq_refl).
Qed.

Lemma pasteEdges_counter (es : list Edge) :
  forall (c : nat) (m : Remap) (new : list Edge) (c' : nat),
    pasteEdges c m es = (new, c') -> c <= c'.
Proof.
  induction es as [|e es IH]; intros c m new c'; cbn [pasteEdges].
  - intros [= <- <-]. lia.
  - destruct (pasteEdges (S c) m es) as [copies c1] eqn:E.
    intros [= <- <-]. apply IH in E. lia.
Qed.

Lemma EditorInv_pasteBuffer (b : Builder) :
  EditorInv b -> EditorInv (pasteBuffer b).
Proof.
  intros H. unfold pasteBuffer.
  destruct (copyBuffer b) as [buffer|] eqn:Hb; [|assumption].
  destruct (pasteNodes (idCounter b) [] (sub_nodes buffer))
    as [[newNodes c1] oldToNew] eqn:En.
  destruct (pasteEdges c1 oldToNew (sub_edges buffer)) as [newEdges c2] eqn:Ee.
  destruct (pasteNodes_spec _ _ _ En) as (Hc1 & Hs & Hu).
  apply pasteEdges_counter in Ee.
  destruct H as [U N B L R LU RU CO PO CP].
  assert (Hle : idCounter b <= c2) by lia.
  rewrite Hb in B. fields.
  constructor; fields; rewrite ?Hb; fields; rewrite ?ids_app;
    eauto using stampBelow_all_mono, disjoint_app_fresh; try discriminate.
  - apply NoDup_app; [assumption|assumption|].
    intros a Ha Hin. rewrite Forall_forall in Hs.
    exact (fresh_not_in N (Hs a Hin) Ha).
  - apply Forall_app. split; [eauto using stampBelow_all_mono|].
    revert Hs. apply Forall_impl. intros i Hi.
    apply stampBelow_mono with c1; [assumption|]. exact (stamped_below Hi).
  - revert Hs. apply Forall_impl. intros i Hi.
    apply stampBelow_mono with c1; [assumption|]. exact (stamped_below Hi).
Qed.

Lemma disjoint_sym (l1 l2 : list string) : disjoint l1 l2 -> disjoint l2 l1.
Proof. intros H x Hx Hy. exact (H x Hy Hx). Qed.

Lemma disjoint_dropped (ids : list string) (l : list Node) :
  disjoint ids (ids_of (filter (fun n => negb (includes ids (node_id n))) l)).
Proof. intros x Hx Hin. apply ids_dropped in Hin. tauto. Qed.

Lemma EditorInv_undo (b : Builder) : EditorInv b -> EditorInv (undo b).
Proof.
  intros H. unfold undo.
  destruct (lastAction b) as [a|] eqn:Ha; [|assumption].
  destruct H as [U N B L R LU RU CO PO CP].
  rewrite Ha in *. fields.
  destruct (action_type a) eqn:Et.
  - unfold removeRecorded.
    constructor; fields; rewrite ?Et;
      auto using ids_filter_unique, ids_filter_all; try constructor;
      try discriminate.
    intros _. apply disjoint_dropped.
  - unfold insertRecorded.
    constructor; fields; rewrite ?Et, ?ids_app;
      auto; try constructor; try discriminate.
    + apply NoDup_app; [assumption|assumption|].
      apply disjoint_sym, CO. reflexivity.
    + apply Forall_app. now split.
Qed.

Lemma EditorInv_redo (b : Builder) : EditorInv b -> EditorInv (redo b).
Proof.
  intros H. unfold redo.
  destruct (redoAction b) as [a|] eqn:Ha; [|assumption].
  destruct H as [U N B L R LU RU CO PO CP].
  rewrite Ha in *. fields.
  destruct (action_type a) eqn:Et.
  - unfold insertRecorded.
    constructor; fields; rewrite ?Et, ?ids_app;
      auto; try constructor; try discriminate.
    + apply NoDup_app; [assumption|assumption|].
      apply disjoint_sym, PO. reflexivity.
    + apply Forall_app. now split.
  - unfold removeRecorded.
    constructor; fields; rewrite ?Et;
      auto using ids_filter_unique, ids_filter_all; try constructor;
      try discriminate.
    intros _. apply disjoint_dropped.
Qed.

Lemma EditorInv_handleGlobalKey (key : string) (b : Builder) :
  EditorInv b -> EditorInv (handleGlobalKey key b).
Proof.
  intros H. unfold handleGlobalKey.
  repeat match goal with
         | |- context [if ?c then _ else _] => destruct c
         end;
    auto using EditorInv_copySelection, EditorInv_cutSelection,
      EditorInv_pasteBuffer, EditorInv_selectAll, EditorInv_undo,
      EditorInv_redo.
Qed.

(** *** Sequences of editing commands *)

(** What the user does to the graph on the canvas: drop a tool from the
    sidebar, change the selection, press a shortcut (copy, cut, paste,
    select all, undo, redo) or the Delete key, edit a node's config. *)
Inductive Command : Type :=
| Drop (tool : string) (pos : Z * Z)
| Select (sel : Subgraph)
| Shortcut (key : string)
| DeleteKey
| Configure (nodeId : string) (newConfig : list (string * JsVal)).

Definition perform (c : Command) (b : Builder) : Builder :=
  match c with
  | Drop tool pos => onDrop tool pos b
  | Select sel => onSelectionChangeHandler sel b
  | Shortcut key => handleGlobalKey key b
  | DeleteKey => handleDelete b
  | Configure nodeId newConfig => changeConfig nodeId newConfig b
  end.

Definition performAll (cs : list Command) (b : Builder) : Builder :=
  fold_left (fun acc c => perform c acc) cs b.

Lemma EditorInv_perform (c : Command) (b : Builder) :
  EditorInv b -> EditorInv (perform c b).
Proof.
  destruct c; cbn [perform];
    auto using EditorInv_onDrop, EditorInv_onSelectionChangeHandler,
      EditorInv_handleGlobalKey, EditorInv_handleDelete,
      EditorInv_changeConfig.
Qed.

Lemma EditorInv_performAll (cs : list Command) (b : Builder) :
  EditorInv b -> EditorInv (performAll cs b).
Proof.
  revert b. induction cs as [|c cs IH]; intros b H; [assumption|].
  cbn [performAll fold_left]. apply IH. now apply EditorInv_perform.
Qed.

(** *** Starting from a preset *)

Definition isDigit (c : ascii) : bool :=
  let n := nat_of_ascii c in (48 <=? n)%nat && (n <=? 57)%nat.

(** A string of decimal digits. *)
Fixpoint numeral (s : string) : bool :=
  match s with
  | EmptyString => true
  | String c s' => isDigit c && numeral s'
  end.

(** The part of a string behind its last underscore. *)
Fixpoint lastSegment (s : string) : string :=
  match s with
  | EmptyString => ""
  | String c s' =>
      if plain s' then (if Ascii.eqb c "_" then s' else String c s')
      else lastSegment s'
  end.

(** An id the counter cannot have minted, and never will: what stands
    behind its last underscore is not a number. *)
Definition unminted (i : string) : bool := negb (numeral (lastSegment i)).

Lemma numeral_uint (d : Decimal.uint) :
  numeral (NilEmpty.string_of_uint d) = true.
Proof. induction d; cbn; auto. Qed.

Lemma numeral_decNat (n : nat) : numeral (decNat n) = true.
Proof.
  unfold decNat, NilZero.string_of_uint.
  destruct (Nat.to_uint n) eqn:E; [reflexivity| rewrite <- E ..];
    apply numeral_uint.
Qed.

Lemma lastSegment_stamp (x d : string) :
  plain d = true -> lastSegment (x ++ String "_" d) = d.
Proof.
  intros Hd. induction x as [|c x IH]; cbn.
  - now rewrite Hd.
  - now rewrite not_plain_with_underscore.
Qed.

Lemma unminted_stampBelow (c : nat) (i : string) :
  unminted i = true -> stampBelow c i.
Proof.
  intros H x k ->. unfold unminted in H.
  change ("_" ++ decNat k) with (String "_" (decNat k)) in H.
  rewrite lastSegment_stamp, numeral_decNat in H by apply plain_decNat.
  discriminate.
Qed.

Definition presets : list Subgraph :=
  [basicResearchWorkflow; factCheckWorkflow; bibliographyWorkflow;
   literatureReviewWorkflow].

Lemma ids_onApplyPreset (preset : Subgraph) (b : Builder) :
  ids_of (nodes (onApplyPreset preset b)) = ids_of (sub_nodes preset).
Proof. cbn. unfold ids_of. rewrite map_map. reflexivity. Qed.

Lemma EditorInv_preset (preset : Subgraph) :
  In preset presets -> EditorInv (onApplyPreset preset initialBuilder).
Proof.
  intros Hp.
  assert (Hids : NoDup (ids_of (sub_nodes preset))
                 /\ Forall (fun i => unminted i = true)
                      (ids_of (sub_nodes preset))).
  { cbn in Hp. decompose [or] Hp; subst; try contradiction;
      (split; [repeat constructor; cbn; intuition discriminate
              |repeat constructor]). }
  destruct Hids as [Hu Hs].
  constructor; rewrite ?ids_onApplyPreset; cbn [onApplyPreset];
    fields; cbn [initialBuilder]; fields;
    try assumption; try constructor; try discriminate.
  revert Hs. apply Forall_impl. intros i. apply unminted_stampBelow.
Qed.

(** X25: from the empty graph of a freshly mounted component, or from
    one of the presets loaded into it, after any sequence of drops,
    selection changes, copies, cuts, pastes, select-alls, undos, redos,
    deletions of the selection and config edits, no two nodes of the
    graph share an id. *)
Theorem node_ids_unique_under_editing (cs : list Command) :
  NoDup (ids_of (nodes (performAll cs initialBuilder)))
  /\ Forall
       (fun preset =>
          NoDup (ids_of (nodes (performAll cs
                                  (onApplyPreset preset initialBuilder)))))
       presets.
Proof.
  split.
  - apply inv_unique, EditorInv_performAll, EditorInv_initial.
  - apply Forall_forall. intros preset Hp.
    now apply inv_unique, EditorInv_performAll, EditorInv_preset.
Qed.

(** C6 (the code at the failing input): the document of the first
    session holds the node ["ClaimExtractor_1"]; it is loaded into a
    freshly mounted component, whose counter stands at 1 and is not
    moved by the load; the Claim Extractor dropped next is given the id
    ["ClaimExtractor_1"] again. *)
Lemma load_then_drop_duplicates_id :
  let b := onDrop ClaimExtractor (0, 300)%Z reloaded in
  onLoadWorkflow (Ok savedDocument) initialBuilder = Some reloaded
  /\ ids_of (nodes reloaded)
     = ["ClaimExtractor_1"; "SourceFinder_2"; "SourceFinder_2_3"]
  /\ idCounter reloaded = 1
  /\ ids_of (nodes b)
     = ["ClaimExtractor_1"; "SourceFinder_2"; "SourceFinder_2_3";
        "ClaimExtractor_1"].
Proof. repeat apply conj; vm_compute; reflexivity. Qed.

(** The history outlives the graph as well: the basic-research preset
    is loaded, its source finder is cut, the preset is loaded again, and
    the cut is undone; the graph holds two nodes with the id
    ["basic_src"]. *)
Lemma preset_reload_then_undo_duplicates_id :
  let b :=
    undo
      (onApplyPreset basicResearchWorkflow
         (cutSelection
            (selectNodes ["basic_src"]
               (onApplyPreset basicResearchWorkflow initialBuilder)))) in
  ids_of (nodes b) = ["basic_src"; "basic_review"; "basic_export"; "basic_src"]
  /\ ~ NoDup (ids_of (nodes b)).
Proof.
  cbv zeta. split; [vm_compute; reflexivity|].
  intros H. vm_compute in H.
  apply NoDup_cons_iff in H as [H _]. apply H. cbn. tauto.
Qed.

(** * Further properties of the runtime *)

(** ** What executing a node can touch *)

(** The state outside the node list and outside what an execution
    writes in the browser (console, requests, downloads). *)
Definition outside (b : Builder) :=
  (edges b, runningWorkflow b, selection b, copyBuffer b, lastAction b,
   redoAction b, workflowExecutionRefs b, idCounter b,
   timers (window b), nextTimerId (window b), nextArrayId (window b),
   localStorage (window b)).

(** A computation of the [try] block that leaves the nodes and the
    outside alone. *)
Definition quiet {A} (m : Exec A) : Prop :=
  forall b, nodes (snd (m b)) = nodes b /\ outside (snd (m b)) = outside b.

Lemma quiet_ret {A} (a : A) : quiet (ret a).
Proof. intros b. split; reflexivity. Qed.

Lemma quiet_throw {A} (m : string) : quiet (@throw A m).
Proof. intros b. split; reflexivity. Qed.

Lemma quiet_eval {A} (r : result A) : quiet (eval r).
Proof. intros b. split; reflexivity. Qed.

Lemma quiet_report {A} (l : LogLevel) (m : string) (a : A) :
  quiet (exec (report l m) a).
Proof. intros b. split; reflexivity. Qed.

Lemma quiet_download {A} (name content : string) (a : A) :
  quiet (exec (download name content) a).
Proof. intros b. split; reflexivity. Qed.

Lemma quiet_fetch (server : Request -> FetchOutcome) (u : string)
    (payload : JsVal) :
  quiet (fetch server u payload).
Proof. intros b. split; reflexivity. Qed.

Lemma quiet_andThen {A B} (m : Exec A) (k : A -> Exec B) :
  quiet m -> (forall a, quiet (k a)) -> quiet (andThen m k).
Proof.
  intros Hm Hk b. unfold andThen. specialize (Hm b).
  destruct (m b) as [[a|e] b1]; cbn [snd] in *; [|assumption].
  destruct (Hk a b1) as [Hn Ho]. split; [rewrite Hn|rewrite Ho]; tauto.
Qed.

Ltac quiet_step :=
  first
    [ apply quiet_ret | apply quiet_throw | apply quiet_eval
    | apply quiet_report | apply quiet_download | apply quiet_fetch
    | apply quiet_andThen; [|intros ?]
    | match goal with
      | |- quiet (if ?c then _ else _) => destruct c
      | |- quiet (match ?x with _ => _ end) => destruct x
      end ].

Lemma quiet_fetchApiAndParse (server : Request -> FetchOutcome) (u : string)
    (payload : JsVal) :
  quiet (fetchApiAndParse server u payload).
Proof. unfold fetchApiAndParse. repeat quiet_step. Qed.

Lemma quiet_invokeTool (server : Request -> FetchOutcome) (nodeId : string)
    (toolType : option string) (config : list (string * JsVal))
    (es : list Edge) (ns : list Node) :
  quiet (invokeTool server nodeId toolType config es ns).
Proof.
  unfold invokeTool. cbv zeta.
  repeat first [apply quiet_fetchApiAndParse | quiet_step].
Qed.

(** What the last [setNodes] of [handleToolExecution] writes into the
    node, after a result or an exception. *)
Definition finish (session : option string) (r : result JsVal)
    (d : ToolNodeData) : ToolNodeData :=
  match r with
  | Ok responseData =>
      set_sessionId session (set_output responseData (set_status success d))
  | Throw message =>
      set_sessionId session
        (set_output (JObj [("error", JStr message)]) (set_status error d))
  end.

Lemma handleToolExecution_found (server : Request -> FetchOutcome)
    (freshSessionId nodeId : string) (b : Builder) (node : Node) :
  find (fun n => String.eqb (node_id n) nodeId) (nodes b) = Some node ->
  let session :=
    if truthySession (sessionId (data node)) then sessionId (data node)
    else Some freshSessionId in
  let b1 :=
    if truthySession (sessionId (data node)) then b
    else setNodes (patchNode nodeId (set_sessionId session)) b in
  let r :=
    fst (invokeTool server nodeId (toolType (data node)) (config (data node))
           (edges b) (nodes b) b1) in
  nodes (handleToolExecution server freshSessionId nodeId b)
  = patchNode nodeId (finish session r) (nodes b)
  /\ outside (handleToolExecution server freshSessionId nodeId b) = outside b.
Proof.
  intros Hfind. cbv zeta. unfold handleToolExecution. rewrite Hfind. cbv zeta.
  set (session := if truthySession (sessionId (data node))
                  then sessionId (data node) else Some freshSessionId).
  set (b1 := if truthySession (sessionId (data node)) then b
             else setNodes (patchNode nodeId (set_sessionId session)) b).
  destruct (quiet_invokeTool server nodeId (toolType (data node))
              (config (data node)) (edges b) (nodes b) b1) as [Hn Ho].
  assert (Hb1 : outside b1 = outside b
                /\ forall f, (forall d, f (set_sessionId session d) = f d) ->
                     patchNode nodeId f (nodes b1) = patchNode nodeId f (nodes b)).
  { unfold b1. destruct (truthySession (sessionId (data node)));
      (split; [reflexivity|]); intros f Hf; [reflexivity|].
    unfold setNodes. cbn [nodes]. rewrite patchNode_patchNode.
    now apply patchNode_ext. }
  destruct Hb1 as [Ho1 Hp1].
  destruct (invokeTool server nodeId (toolType (data node))
              (config (data node)) (edges b) (nodes b) b1) as [[o|m] b2];
    cbn [fst snd finish] in *.
  - split.
    + unfold setNodes. cbn [nodes]. rewrite Hn. apply Hp1. reflexivity.
    + rewrite <- Ho1, <- Ho. reflexivity.
  - split.
    + unfold setNodes, report, onWindow. cbn [nodes]. rewrite Hn.
      apply Hp1. reflexivity.
    + rewrite <- Ho1, <- Ho. reflexivity.
Qed.

Lemma find_none_no_id (nodeId : string) (l : list Node) :
  find (fun n => String.eqb (node_id n) nodeId) l = None ->
  forall n, In n l -> node_id n <> nodeId.
Proof.
  intros H n Hn E. apply (find_none _ _ H) in Hn.
  apply String.eqb_neq in Hn. contradiction.
Qed.

Lemma patchNode_absent (nodeId : string) (f : ToolNodeData -> ToolNodeData)
    (l : list Node) :
  (forall n, In n l -> node_id n <> nodeId) -> patchNode nodeId f l = l.
Proof.
  intros H. unfold patchNode. rewrite <- (map_id l) at 2.
  apply map_ext_in. intros n Hn. apply H, String.eqb_neq in Hn.
  now rewrite Hn.
Qed.

Lemma patchNode_pointwise (nodeId : string) (f : ToolNodeData -> ToolNodeData)
    (l : list Node) :
  Forall2 (fun n n' =>
             node_id n' = node_id n
             /\ (node_id n <> nodeId -> n' = n)
             /\ (node_id n = nodeId -> n' = with_data f n))
    l (patchNode nodeId f l).
Proof.
  unfold patchNode. apply Forall2_map_r. intros n.
  destruct (String.eqb (node_id n) nodeId) eqn:E.
  - apply String.eqb_eq in E.
    split; [reflexivity|]. split; intros H; [contradiction|reflexivity].
  - apply String.eqb_neq in E.
    split; [reflexivity|]. split; intros H; [reflexivity|contradiction].
Qed.

(** X1: whatever the tool and whatever the service answers, executing
    a node rewrites no other node: position by position the node list
    keeps its ids, and every node with another id is the node from
    before; the edges, the pending timers, the running flag, the
    clipboard and the history are untouched; when no node bears the id,
    the node list is unchanged. *)
Theorem node_execution_is_local (server : Request -> FetchOutcome)
    (freshSessionId nodeId : string) (b : Builder) :
  let b' := handleToolExecution server freshSessionId nodeId b in
  Forall2 (fun n n' =>
             node_id n' = node_id n /\ (node_id n <> nodeId -> n' = n))
    (nodes b) (nodes b')
  /\ outside b' = outside b
  /\ ((forall n, In n (nodes b) -> node_id n <> nodeId) -> nodes b' = nodes b).
Proof.
  cbv zeta.
  assert (H : exists f,
             nodes (handleToolExecution server freshSessionId nodeId b)
             = patchNode nodeId f (nodes b)
             /\ outside (handleToolExecution server freshSessionId nodeId b)
                = outside b).
  { destruct (find (fun n => String.eqb (node_id n) nodeId) (nodes b))
      as [node|] eqn:Hfind.
    - eexists. exact (handleToolExecution_found server freshSessionId _ _ Hfind).
    - unfold handleToolExecution. rewrite Hfind. eexists. split; reflexivity. }
  destruct H as (f & Hn & Ho). rewrite Hn. repeat split.
  - eapply Forall2_impl; [|apply patchNode_pointwise]. cbn. tauto.
  - assumption.
  - intros Habs. now apply patchNode_absent.
Qed.

Lemma handleToolExecution_terminal (server : Request -> FetchOutcome)
    (freshSessionId nodeId : string) (b : Builder) :
  Forall (fun n' =>
            node_id n' = nodeId ->
            isTerminal (status (data n')) = true
            /\ (status (data n') = error ->
                exists message,
                  output (data n') = JObj [("error", JStr message)]))
    (nodes (handleToolExecution server freshSessionId nodeId b)).
Proof.
  apply Forall_forall. intros n' Hin Hid.
  destruct (find (fun n => String.eqb (node_id n) nodeId) (nodes b))
    as [node|] eqn:Hfind.
  - destruct (handleToolExecution_found server freshSessionId _ _ Hfind)
      as [Hn _].
    cbv zeta in Hn. rewrite Hn in Hin. unfold patchNode in Hin.
    apply in_map_iff in Hin as (n & <- & _).
    destruct (String.eqb (node_id n) nodeId) eqn:E;
      [|apply String.eqb_neq in E; contradiction].
    match goal with
    | |- context [finish _ ?r] => destruct r as [o|m]
    end; cbn; split; try reflexivity; try discriminate.
    intros _. now exists m.
  - unfold handleToolExecution in Hin. rewrite Hfind in Hin.
    unfold setNodes, report, onWindow in Hin. cbn [nodes] in Hin.
    rewrite patchNode_absent in Hin by now apply find_none_no_id.
    exact (False_ind _ (@find_none_no_id nodeId (nodes b) Hfind n' Hin Hid)).
Qed.

(** X2: after the execution, every node that bears the executed id is
    in a terminal status, [success] or [error], and an [error] comes
    with an output of the form [{ error: message }]. *)
Theorem node_execution_ends_terminal (server : Request -> FetchOutcome)
    (freshSessionId nodeId : string) (b : Builder) :
  Forall (fun n' =>
            node_id n' = nodeId ->
            isTerminal (status (data n')) = true
            /\ (status (data n') = error ->
                exists message,
                  output (data n') = JObj [("error", JStr message)]))
    (nodes (handleToolExecution server freshSessionId nodeId b)).
Proof. apply handleToolExecution_terminal. Qed.

(** ** A service that fails *)

(** The request did not succeed: the [fetch] was rejected, or the
    response does not have an ok status. *)
Definition failed (o : FetchOutcome) : Prop :=
  match o with
  | NetworkError _ => True
  | Response ok _ _ _ => ok = false
  end.

(** A computation that hands no file to the user. *)
Definition silent {A} (m : Exec A) : Prop :=
  forall b, downloads (window (snd (m b))) = downloads (window b).

(** A computation that ends in an exception, and hands no file to the
    user. *)
Definition fails {A} (m : Exec A) : Prop :=
  forall b, (exists e, fst (m b) = Throw e)
            /\ downloads (window (snd (m b))) = downloads (window b).

Lemma silent_eval {A} (r : result A) : silent (eval r).
Proof. intros b. reflexivity. Qed.

Lemma silent_ret {A} (a : A) : silent (ret a).
Proof. intros b. reflexivity. Qed.

Lemma silent_throw {A} (m : string) : silent (@throw A m).
Proof. intros b. reflexivity. Qed.

Lemma silent_report {A} (l : LogLevel) (m : string) (a : A) :
  silent (exec (report l m) a).
Proof. intros b. reflexivity. Qed.

Lemma fails_throw {A} (m : string) : fails (@throw A m).
Proof. intros b. split; [now exists m|reflexivity]. Qed.

Lemma fails_andThen {A B} (m : Exec A) (k : A -> Exec B) :
  silent m -> (forall a, fails (k a)) -> fails (andThen m k).
Proof.
  intros Hm Hk b. unfold andThen. specialize (Hm b).
  destruct (m b) as [[a|e] b1]; cbn [fst snd] in *.
  - destruct (Hk a b1) as [He Hd]. split; [assumption|congruence].
  - split; [now exists e|assumption].
Qed.

Section FailingService.

Variable server : Request -> FetchOutcome.
Hypothesis server_fails : forall r, failed (server r).

Lemma fails_after_fetch {B} (u : string) (payload : JsVal)
    (k : FetchOutcome -> Exec B) :
  (forall o, failed o -> fails (k o)) ->
  fails (andThen (fetch server u payload) k).
Proof.
  intros Hk b. unfold andThen, fetch.
  destruct (Hk _ (server_fails (mkRequest u payload))
              (send (mkRequest u payload) b)) as [He Hd].
  split; [assumption|]. rewrite Hd. reflexivity.
Qed.

Lemma fails_fetchApiAndParse (u : string) (payload : JsVal) :
  fails (fetchApiAndParse server u payload).
Proof.
  unfold fetchApiAndParse. apply fails_after_fetch.
  intros [m|ok st raw parsed] Ho; [apply fails_throw|].
  cbn in Ho. subst ok. cbn [negb].
  apply fails_andThen.
  - destruct (String.eqb raw ""); [apply silent_ret|].
    destruct parsed; [apply silent_ret|apply silent_throw].
  - intros json. apply fails_andThen; [apply silent_eval|].
    intros err. apply fails_throw.
Qed.

Lemma fails_invokeTool (nodeId : string) (toolType : option string)
    (config : list (string * JsVal)) (es : list Edge) (ns : list Node) :
  fails (invokeTool server nodeId toolType config es ns).
Proof.
  unfold invokeTool. cbv zeta.
  repeat match goal with
         | |- fails (if equals toolType ?t then _ else _) =>
             destruct (equals toolType t)
         end;
    try apply fails_fetchApiAndParse; try apply fails_throw;
    (apply fails_andThen; [apply silent_eval|intros extracted]).
  - destruct (negb _); [apply fails_throw|apply fails_fetchApiAndParse].
  - destruct (negb _); [apply fails_throw|apply fails_fetchApiAndParse].
  - apply fails_fetchApiAndParse.
  - apply fails_andThen; [|intros _; apply fails_fetchApiAndParse].
    destruct (negb _); [apply silent_report|apply silent_ret].
  - apply fails_after_fetch. intros [m|ok st raw p] Ho; [apply fails_throw|].
    cbn in Ho. subst ok. apply fails_throw.
  - apply fails_after_fetch. intros [m|ok st raw p] Ho; [apply fails_throw|].
    cbn in Ho. subst ok. apply fails_throw.
Qed.

(** X3: when every request fails (the network rejects it or the status
    is not ok), executing a node of any tool type leaves it in [error],
    never in [success], and no file is downloaded. *)
Theorem failed_service_is_an_error (freshSessionId nodeId : string)
    (b : Builder) :
  let b' := handleToolExecution server freshSessionId nodeId b in
  Forall (fun n' => node_id n' = nodeId -> status (data n') = error) (nodes b')
  /\ downloads (window b') = downloads (window b).
Proof.
  cbv zeta. unfold handleToolExecution.
  destruct (find (fun n => String.eqb (node_id n) nodeId) (nodes b))
    as [node|] eqn:Hfind.
  - cbv zeta.
    match goal with
    | |- context [invokeTool ?s ?i ?t ?c ?es ?ns ?b1] =>
        destruct (fails_invokeTool i t c es ns b1) as [[e He] Hd];
        destruct (invokeTool s i t c es ns b1) as [r b2]
    end.
    cbn [fst snd] in *. subst r. split.
    + apply Forall_forall. intros n' Hin Hid.
      unfold setNodes, patchNode in Hin. cbn [nodes] in Hin.
      apply in_map_iff in Hin as (n & <- & _).
      destruct (String.eqb (node_id n) nodeId) eqn:E;
        [reflexivity|apply String.eqb_neq in E; contradiction].
    + unfold setNodes, report, onWindow. cbn [window downloads].
      rewrite Hd. now destruct (truthySession (sessionId (data node))).
  - split; [|reflexivity].
    apply Forall_forall. intros n' Hin Hid.
    unfold setNodes, report, onWindow in Hin. cbn [nodes] in Hin.
    rewrite patchNode_absent in Hin by now apply find_none_no_id.
    exact (False_ind _ (@find_none_no_id nodeId (nodes b) Hfind n' Hin Hid)).
Qed.

End FailingService.

(** A service that is down. *)
Definition downServer : Request -> FetchOutcome :=
  fun _ => NetworkError "Failed to fetch".

Lemma failed_service_is_an_error_witness :
  let b := onDrop ExportTXT (0, 0)%Z initialBuilder in
  let b' := handleToolExecution downServer "tool_1" "ExportTXT_1" b in
  map (fun n => status (data n)) (nodes b') = [error]
  /\ downloads (window b') = [].
Proof.
  pose proof (@failed_service_is_an_error downServer (fun _ => I) "tool_1"
                "ExportTXT_1" (onDrop ExportTXT (0, 0)%Z initialBuilder))
    as [_ Hd].
  split; [vm_compute; reflexivity | exact Hd].
Defined.

(** ** Starting a run *)

(** The timers [onRunWorkflow] sets for the roots: one for each, in the
    order of the node list, the first after 500 ms and each next one
    200 ms later. *)
Fixpoint rootTimers (tid index store : nat) (roots : list Node)
    : list Timer :=
  match roots with
  | [] => []
  | node :: rest =>
      mkTimer tid (node_id node) (500 + index * 200) store
        :: rootTimers (S tid) (S index) store rest
  end.

Definition withTimers (f : list Timer -> list Timer) (n : nat) (b : Builder)
    : Builder :=
  onWindow (fun w =>
    mkWindow (f (timers w)) (n + nextTimerId w) (nextArrayId w) (console w)
      (requests w) (localStorage w) (downloads w)) b.

Lemma scheduleRoots_spec (store : nat) (roots : list Node) :
  forall (index : nat) (b : Builder),
    scheduleRoots store index roots b
    = (seq (nextTimerId (window b)) (List.length roots),
       withTimers
         (fun ts =>
            (ts ++ rootTimers (nextTimerId (window b)) index store roots)%list)
         (List.length roots) b).
Proof.
  induction roots as [|node rest IH]; intros index b.
  - destruct b as [ns es r sel cb la ra refs c w]. destruct w.
    cbn. unfold withTimers, onWindow. cbn. now rewrite app_nil_r.
  - cbn [scheduleRoots setTimeout]. rewrite IH.
    cbn [List.length seq rootTimers]. unfold withTimers, onWindow.
    cbn [window timers nextTimerId nextArrayId console requests localStorage
         downloads nodes edges runningWorkflow selection copyBuffer lastAction
         redoAction workflowExecutionRefs idCounter].
    rewrite <- app_assoc. cbn [app].
    now rewrite Nat.add_succ_r.
Qed.

(** X4: on a graph with at least one root, [onRunWorkflow] marks every
    node [running], raises the running flag, and sets exactly one timer
    for each root, in node order, with delays 500, 700, 900, ... ms;
    the ids of these timers, each listed twice, are what the state
    records for the run, in an array of its own. *)
Theorem onRunWorkflow_schedules_roots (b : Builder) :
  rootNodes b <> [] ->
  let b' := onRunWorkflow b in
  let tid := nextTimerId (window b) in
  let store := nextArrayId (window b) in
  let tids := seq tid (List.length (rootNodes b)) in
  runningWorkflow b' = true
  /\ nodes b' = map (with_data (set_status running)) (nodes b)
  /\ edges b' = edges b
  /\ timers (window b')
     = (timers (window b) ++ rootTimers tid 0 store (rootNodes b))%list
  /\ workflowExecutionRefs b' = mkTimeoutArray store (tids ++ tids)%list.
Proof.
  intros Hr. cbv zeta. unfold onRunWorkflow.
  assert (Hn : nonEmpty (nodes b) = true).
  { destruct (nodes b) eqn:E; [|reflexivity].
    unfold rootNodes in Hr. rewrite E in Hr. now contradiction Hr. }
  rewrite Hn. cbn [negb].
  destruct (rootNodes b) as [|r rs] eqn:E; [now contradiction Hr|].
  cbn [nonEmpty negb newArray].
  rewrite scheduleRoots_spec. repeat split.
Qed.

Lemma onRunWorkflow_schedules_roots_witness :
  let b := onApplyPreset basicResearchWorkflow initialBuilder in
  timers (window (onRunWorkflow b)) = [mkTimer 1 "basic_src" 500 1]
  /\ workflowExecutionRefs (onRunWorkflow b) = mkTimeoutArray 1 [1; 1].
Proof.
  assert (Hr : rootNodes (onApplyPreset basicResearchWorkflow initialBuilder)
               <> []) by discriminate.
  pose proof (@onRunWorkflow_schedules_roots
                (onApplyPreset basicResearchWorkflow initialBuilder) Hr) as H.
  cbv zeta in H. destruct H as (_ & _ & _ & Ht & Hw).
  split; [exact Ht | exact Hw].
Defined.

Lemma rootTimers_nodes (tid index store : nat) (roots : list Node) :
  map timer_node (rootTimers tid index store roots) = ids_of roots.
Proof.
  revert tid index. induction roots as [|n rest IH]; intros tid index;
    cbn; [reflexivity|]. f_equal. apply IH.
Qed.

Lemma rootNodes_without_edges (b : Builder) :
  edges b = [] -> rootNodes b = nodes b.
Proof. intros He. unfold rootNodes. rewrite He. now apply filter_all. Qed.

(** X5: on a graph that has nodes and no edges every node is a root:
    [onRunWorkflow] sets one timer for each node, in node order. *)
Theorem onRunWorkflow_without_edges (b : Builder) :
  edges b = [] -> nodes b <> [] ->
  exists new,
    timers (window (onRunWorkflow b)) = (timers (window b) ++ new)%list
    /\ map timer_node new = ids_of (nodes b).
Proof.
  intros He Hn.
  assert (Hr : rootNodes b <> []) by now rewrite rootNodes_without_edges.
  unfold onRunWorkflow.
  destruct (nodes b) as [|n ns] eqn:E; [now contradiction Hn|].
  cbn [nonEmpty negb].
  destruct (rootNodes b) as [|r rs] eqn:Er; [now contradiction Hr|].
  cbn [nonEmpty negb newArray]. rewrite scheduleRoots_spec.
  eexists. split; [reflexivity|].
  rewrite rootTimers_nodes, <- Er, rootNodes_without_edges, E by assumption.
  reflexivity.
Qed.

Lemma onRunWorkflow_without_edges_witness :
  let b := onDrop ExportTXT (0, 0)%Z (onDrop SourceFinder (0, 0)%Z initialBuilder) in
  exists new,
    timers (window (onRunWorkflow b)) = (timers (window b) ++ new)%list
    /\ map timer_node new = ["SourceFinder_1"; "ExportTXT_2"].
Proof.
  apply (@onRunWorkflow_without_edges
           (onDrop ExportTXT (0, 0)%Z
              (onDrop SourceFinder (0, 0)%Z initialBuilder)));
    [reflexivity | discriminate].
Defined.

(** ** Stopping what a run has scheduled *)

Lemma outside_handleToolExecution (server : Request -> FetchOutcome)
    (freshSessionId nodeId : string) (b : Builder) :
  outside (handleToolExecution server freshSessionId nodeId b) = outside b.
Proof.
  destruct (find (fun n => String.eqb (node_id n) nodeId) (nodes b))
    as [node|] eqn:Hfind.
  - exact (proj2 (handleToolExecution_found server freshSessionId _ _ Hfind)).
  - unfold handleToolExecution. now rewrite Hfind.
Qed.

Lemma outside_createOnRunCallback (server : Request -> FetchOutcome)
    (freshSessionId nodeId : string) (b : Builder) :
  outside (createOnRunCallback server freshSessionId nodeId b) = outside b.
Proof. unfold createOnRunCallback. now rewrite outside_handleToolExecution. Qed.

Lemma rootTimers_ids (tid index store : nat) (roots : list Node) (t : Timer) :
  In t (rootTimers tid index store roots) ->
  In (timer_id t) (seq tid (List.length roots)) /\ timer_store t = store.
Proof.
  revert tid index. induction roots as [|n rest IH]; intros tid index;
    cbn; [tauto|].
  intros [<- | H]; [cbn; tauto|].
  apply IH in H. tauto.
Qed.

(** Every timer pending after [onRunWorkflow] was pending before, or
    belongs to the array of the state and is recorded in it. *)
Lemma onRunWorkflow_timers (b : Builder) (t : Timer) :
  In t (timers (window (onRunWorkflow b))) ->
  In t (timers (window b))
  \/ (timer_store t = array_id (workflowExecutionRefs (onRunWorkflow b))
      /\ In (timer_id t)
           (array_items (workflowExecutionRefs (onRunWorkflow b)))).
Proof.
  unfold onRunWorkflow.
  destruct (nonEmpty (nodes b)); cbn [negb]; [|now left].
  destruct (nonEmpty (rootNodes b)); cbn [negb newArray]; [|now left].
  rewrite scheduleRoots_spec.
  unfold withTimers, onWindow, setWorkflowExecutionRefs.
  cbn [window timers workflowExecutionRefs array_id array_items].
  intros H. apply in_app_iff in H as [H|H]; [now left|right].
  apply rootTimers_ids in H as [Hi Hs]. split; [assumption|].
  apply in_app_iff. now left.
Qed.

Lemma nodes_onRunWorkflow (b : Builder) :
  map node_id (nodes (onRunWorkflow b)) = map node_id (nodes b).
Proof.
  unfold onRunWorkflow.
  destruct (nonEmpty (nodes b)); cbn [negb]; [|reflexivity].
  destruct (nonEmpty (rootNodes b)); cbn [negb newArray].
  - rewrite scheduleRoots_spec. cbn. now rewrite map_map.
  - cbn. now rewrite map_map.
Qed.

(** X6: a stop right after a run leaves no timer the run has set (every
    timer still pending was pending before the run), every node
    [pending], and the run idle. *)
Theorem stop_after_run (b : Builder) :
  let b' := onStopWorkflow (onRunWorkflow b) in
  (forall t, In t (timers (window b')) -> In t (timers (window b)))
  /\ map (fun n => (node_id n, status (data n))) (nodes b')
     = map (fun n => (node_id n, pending)) (nodes b)
  /\ runningWorkflow b' = false.
Proof.
  cbv zeta. repeat apply conj.
  - intros t Ht. rewrite timers_onStopWorkflow in Ht.
    apply clearAll_timers in Ht as [Ht Hn].
    apply onRunWorkflow_timers in Ht as [Ht|[_ Ht]]; [assumption|contradiction].
  - rewrite nodes_onStopWorkflow, map_map. cbn.
    rewrite <- (map_map node_id (fun i => (i, pending))).
    rewrite nodes_onRunWorkflow. now rewrite map_map.
  - reflexivity.
Qed.

(** Every pending timer belongs to the array the state holds, and is
    recorded in it. *)
Definition tracked (b : Builder) : Prop :=
  forall t, In t (timers (window b)) ->
    timer_store t = array_id (workflowExecutionRefs b)
    /\ In (timer_id t) (array_items (workflowExecutionRefs b)).

Lemma tracked_outside (b b' : Builder) :
  outside b' = outside b -> tracked b -> tracked b'.
Proof.
  unfold outside, tracked. intros [= _ _ _ _ _ _ Hr _ Ht _ _ _] H.
  now rewrite Hr, Ht.
Qed.

Lemma tracked_onRunWorkflow (b : Builder) :
  timers (window b) = [] -> tracked (onRunWorkflow b).
Proof.
  intros Hb t Ht. apply onRunWorkflow_timers in Ht as [Ht|Ht]; [|assumption].
  rewrite Hb in Ht. contradiction.
Qed.

Lemma tracked_clearTimeout (tid : nat) (b : Builder) :
  tracked b -> tracked (clearTimeout tid b).
Proof.
  intros H t Ht. cbn in Ht. apply filter_In in Ht as [Ht _]. now apply H.
Qed.

Lemma tracked_executeNode (nodeId : string) (delay : nat) (b : Builder) :
  tracked b ->
  let store := array_id (workflowExecutionRefs b) in
  let b' := pushStore store (fst (executeNode store nodeId delay b))
              (snd (executeNode store nodeId delay b)) in
  tracked b' /\ array_id (workflowExecutionRefs b') = store.
Proof.
  intros H. cbv zeta.
  destruct b as [ns es r sel cb la ra [aid items] c w].
  unfold tracked, executeNode, setTimeout, pushStore in *. cbn in *.
  rewrite Nat.eqb_refl. cbn. rewrite Nat.eqb_refl. cbn.
  split; [|reflexivity].
  intros t Ht. apply in_app_iff in Ht as [Ht|[<-|[]]]; cbn.
  - destruct (H t Ht) as [Hs Hi]. split; [assumption|].
    rewrite !in_app_iff. tauto.
  - split; [reflexivity|]. rewrite !in_app_iff. cbn. tauto.
Qed.

Lemma executeNode_push_frame (store tid0 : nat) (nodeId : string)
    (delay : nat) (b : Builder) :
  let b' := pushStore store (fst (executeNode store nodeId delay b))
              (snd (executeNode store nodeId delay b)) in
  nodes b' = nodes b /\ edges b' = edges b
  /\ runningWorkflow b' = runningWorkflow b.
Proof.
  cbv zeta. unfold executeNode, setTimeout, pushStore. cbn.
  repeat match goal with
         | |- context [if ?c then _ else _] => destruct c
         end; repeat split.
Qed.

Section Callback.

Variable server : Request -> FetchOutcome.
Variable toolSessionId workflowSessionId : string.

Lemma queueChildren_frame (store : nat) (children snapshot : list Node) :
  forall b,
    nodes (queueChildren store children snapshot b) = nodes b
    /\ edges (queueChildren store children snapshot b) = edges b
    /\ runningWorkflow (queueChildren store children snapshot b)
       = runningWorkflow b.
Proof.
  unfold queueChildren.
  induction children as [|child rest IH]; intros b; cbn [fold_left];
    [repeat split|].
  destruct (find _ snapshot) as [c|]; [|apply IH].
  destruct (Status_eqb (status (data c)) running); [|apply IH].
  destruct (executeNode store (node_id child) 50 b) as [tid acc'] eqn:E.
  destruct (executeNode_push_frame store 0 (node_id child) 50 b)
    as (Hn & He & Hr).
  rewrite E in Hn, He, Hr. cbn [fst snd] in Hn, He, Hr.
  destruct (IH (pushStore store tid acc')) as (Hn' & He' & Hr').
  repeat split; congruence.
Qed.

Lemma tracked_queueChildren (store : nat) (children snapshot : list Node) :
  forall b,
    tracked b -> array_id (workflowExecutionRefs b) = store ->
    tracked (queueChildren store children snapshot b).
Proof.
  unfold queueChildren.
  induction children as [|child rest IH]; intros b H Hb; cbn [fold_left];
    [assumption|].
  destruct (find _ snapshot) as [c|]; [|now apply IH].
  destruct (Status_eqb (status (data c)) running); [|now apply IH].
  destruct (tracked_executeNode (node_id child) 50 H) as [Ht Hs].
  rewrite Hb in Ht, Hs.
  destruct (executeNode store (node_id child) 50 b) as [tid acc'].
  cbn [fst snd] in Ht, Hs. now apply IH.
Qed.

Lemma outside_runHandler (h : RunHandler) (b : Builder) :
  outside (runHandler server toolSessionId h b) = outside b.
Proof. destruct h; [apply outside_createOnRunCallback|reflexivity]. Qed.

(** The state after the node's [onRun], before its children are
    queued. *)
Definition afterOnRun (t : Timer) (b : Builder) : Builder :=
  match find (fun n => String.eqb (node_id n) (timer_node t)) (nodes b) with
  | Some node =>
      match onRun (data node) with
      | Some h =>
          runHandler server toolSessionId h
            (if truthySession (sessionId (data node)) then b
             else
               setNodes
                 (patchNode (timer_node t)
                    (set_sessionId (Some workflowSessionId)))
                 b)
      | None => b
      end
  | None => b
  end.

Lemma outside_afterOnRun (t : Timer) (b : Builder) :
  outside (afterOnRun t b) = outside b.
Proof.
  unfold afterOnRun.
  destruct (find _ (nodes b)) as [node|]; [|reflexivity].
  destruct (onRun (data node)) as [h|]; [|reflexivity].
  rewrite outside_runHandler.
  now destruct (truthySession (sessionId (data node))).
Qed.

Lemma timerCallback_unfold (t : Timer) (b : Builder) :
  timerCallback server toolSessionId workflowSessionId t b
  = let b1 := afterOnRun t b in
    let b2 :=
      queueChildren (timer_store t) (childNodes (timer_node t) b1)
        (nodes b1) b1 in
    if forallb (fun n => isTerminal (status (data n))) (nodes b2) then
      setNodes
        (map (with_data (fun d =>
           if Status_eqb (status d) running then set_status pending d else d)))
        (setRunningWorkflow false b2)
    else if negb (existsb (fun n => Status_eqb (status (data n)) running)
                    (nodes b2))
    then
      setRunningWorkflow false
        (report Warn "Workflow appears stuck or partially complete." b2)
    else b2.
Proof. reflexivity. Qed.

End Callback.

(** The pending timers and the recorded timer ids. *)
Definition schedule (b : Builder) := (timers (window b), workflowExecutionRefs b).

Lemma tracked_schedule (b b' : Builder) :
  schedule b' = schedule b -> tracked b -> tracked b'.
Proof.
  unfold schedule, tracked. intros [= Ht Hr] H. now rewrite Hr, Ht.
Qed.

Lemma schedule_pasteBuffer (b : Builder) :
  schedule (pasteBuffer b) = schedule b.
Proof.
  unfold pasteBuffer. destruct (copyBuffer b) as [buffer|]; [|reflexivity].
  destruct (pasteNodes _ _ _) as [[newNodes c1] m].
  destruct (pasteEdges _ _ _) as [newEdges c2]. reflexivity.
Qed.

Lemma schedule_perform (c : Command) (b : Builder) :
  schedule (perform c b) = schedule b.
Proof.
  destruct c as [tool pos|sel|key| |nodeId newConfig]; cbn [perform].
  - unfold onDrop. now destruct (String.eqb tool "").
  - reflexivity.
  - unfold handleGlobalKey.
    repeat match goal with
           | |- context [if String.eqb key ?k then _ else _] =>
               destruct (String.eqb key k)
           end; try reflexivity.
    + unfold copySelection. now destruct (nonEmpty _).
    + unfold cutSelection. now destruct (nonEmpty _).
    + apply schedule_pasteBuffer.
    + unfold undo. destruct (lastAction b) as [a|]; [|reflexivity].
      now destruct (action_type a).
    + unfold redo. destruct (redoAction b) as [a|]; [|reflexivity].
      now destruct (action_type a).
  - unfold handleDelete. now destruct (nonEmpty _).
  - unfold changeConfig. destruct (find _ _) as [node|]; [|reflexivity].
    now destruct (onConfigChange (data node)) as [[| |]|].
Qed.

Lemma tracked_stop (b : Builder) :
  tracked b -> timers (window (onStopWorkflow b)) = [].
Proof.
  intros H. rewrite timers_onStopWorkflow.
  destruct (timers (window (clearAll _ b))) as [|t ts] eqn:E; [reflexivity|].
  assert (Ht : In t (timers (window
                       (clearAll (array_items (workflowExecutionRefs b)) b))))
    by (rewrite E; now left).
  apply clearAll_timers in Ht as [Ht Hn].
  destruct (H t Ht) as [_ Hi]. contradiction.
Qed.

(** *** Callbacks that wait while other things happen *)

Lemma nth_error_parts {A} (k : nat) :
  forall (l : list A) (c : A),
    nth_error l k = Some c -> l = (firstn k l ++ c :: skipn (S k) l)%list.
Proof.
  induction k as [|k IH]; intros [|a l] c; cbn; try discriminate.
  - now intros [= ->].
  - intros H. f_equal. now apply IH.
Qed.

(** The array the state holds is the same object. *)
Definition sameArray (b b' : Builder) : Prop :=
  array_id (workflowExecutionRefs b') = array_id (workflowExecutionRefs b).

Lemma sameArray_outside (b b' : Builder) :
  outside b' = outside b -> sameArray b b'.
Proof.
  unfold outside, sameArray. intros [= _ _ _ _ _ _ Hr _ _ _ _ _].
  now rewrite Hr.
Qed.

Lemma sameArray_executeNode (store : nat) (nodeId : string) (delay : nat)
    (b : Builder) :
  sameArray b
    (pushStore store (fst (executeNode store nodeId delay b))
       (snd (executeNode store nodeId delay b))).
Proof.
  destruct b as [ns es r sel cb la ra [aid items] c w].
  unfold sameArray, executeNode, setTimeout, pushStore. cbn.
  destruct (aid =? store)%nat eqn:E; cbn; [|now rewrite E].
  rewrite Nat.eqb_refl. cbn. symmetry. now apply Nat.eqb_eq.
Qed.

Lemma sameArray_queueChildren (store : nat) (children snapshot : list Node) :
  forall b, sameArray b (queueChildren store children snapshot b).
Proof.
  unfold queueChildren.
  induction children as [|child rest IH]; intros b; cbn [fold_left];
    [reflexivity|].
  destruct (find _ snapshot) as [c|]; [|apply IH].
  destruct (Status_eqb (status (data c)) running); [|apply IH].
  pose proof (sameArray_executeNode store (node_id child) 50 b) as H.
  destruct (executeNode store (node_id child) 50 b) as [tid acc'].
  cbn [fst snd] in H. unfold sameArray in *. now rewrite IH.
Qed.

Lemma childrenAndEnd_array (t : Timer) (b : Builder) :
  sameArray b (childrenAndEnd t b).
Proof.
  unfold childrenAndEnd. cbv zeta.
  pose proof (sameArray_queueChildren (timer_store t)
                (childNodes (timer_node t) b) (nodes b) b) as H.
  repeat match goal with
         | |- context [if ?c then _ else _] => destruct c
         end; exact H.
Qed.

Lemma tracked_childrenAndEnd (t : Timer) (b : Builder) :
  tracked b -> timer_store t = array_id (workflowExecutionRefs b) ->
  tracked (childrenAndEnd t b).
Proof.
  intros H Hs. unfold childrenAndEnd. cbv zeta.
  pose proof (@tracked_queueChildren (timer_store t)
                (childNodes (timer_node t) b) (nodes b) b H (eq_sym Hs)) as H2.
  repeat match goal with
         | |- context [if ?c then _ else _] => destruct c
         end; exact H2.
Qed.

Lemma outside_callOnRun (t : Timer) (h : RunHandler) (b : Builder) :
  outside (fst (callOnRun t h b)) = outside b.
Proof. now destruct h. Qed.

Lemma callOnRun_timer (t : Timer) (h : RunHandler) (b : Builder) :
  exists p, snd (callOnRun t h b) = FromTimer t p.
Proof. destruct h; eexists; reflexivity. Qed.

Section Ticks.

Variable server : Request -> FetchOutcome.
Variable toolSessionId workflowSessionId : string.

Lemma outside_callbackStarts (t : Timer) (b : Builder) :
  outside (fst (callbackStarts workflowSessionId t b)) = outside b.
Proof.
  unfold callbackStarts.
  destruct (find _ (nodes b)) as [node|]; [|reflexivity].
  destruct (onRun (data node)) as [h|]; [|reflexivity].
  destruct (truthySession (sessionId (data node))); [|reflexivity].
  apply outside_callOnRun.
Qed.

Lemma callbackStarts_timer (t : Timer) (b : Builder) :
  exists p, snd (callbackStarts workflowSessionId t b) = FromTimer t p.
Proof.
  unfold callbackStarts.
  destruct (find _ (nodes b)) as [node|]; [|eexists; reflexivity].
  destruct (onRun (data node)) as [h|]; [|eexists; reflexivity].
  destruct (truthySession (sessionId (data node))); [|eexists; reflexivity].
  apply callOnRun_timer.
Qed.

(** A callback that nothing interrupts is [timerCallback]: [fire] is
    the timer firing and its callback resuming three times in a row. *)
Lemma fire_uninterrupted (tid : nat) (b : Builder) (t : Timer) :
  find (fun t => (timer_id t =? tid)%nat) (timers (window b)) = Some t ->
  fire server toolSessionId workflowSessionId tid b
  = uninterrupted server toolSessionId
      (snd (callbackStarts workflowSessionId t (clearTimeout tid b)))
      (fst (callbackStarts workflowSessionId t (clearTimeout tid b))).
Proof.
  intros Hf. unfold fire. rewrite Hf.
  unfold timerCallback, callbackStarts, uninterrupted.
  destruct (find _ (nodes (clearTimeout tid b))) as [node|]; [|reflexivity].
  destruct (onRun (data node)) as [[i|]|]; [| |reflexivity];
    destruct (truthySession (sessionId (data node))); reflexivity.
Qed.

(** What can happen while a run is under way: a callback of the run
    takes a step, the user edits the graph, the user presses the Run
    button of a node. *)
Inductive Tick : Type :=
| Callback (p : Progress)
| Edits (c : Command)
| RunButton (nodeId : string).

Definition tick (e : Tick) (m : Machine) : Machine :=
  match e with
  | Callback p => advance server toolSessionId workflowSessionId p m
  | Edits c => mkMachine (perform c (browser m)) (awaiting m)
  | RunButton nodeId => runButton nodeId m
  end.

Definition tickAll (es : list Tick) (m : Machine) : Machine :=
  fold_left (fun acc e => tick e acc) es m.

(** Every pending timer is recorded in the array the state holds, and
    every callback in flight will push onto that array. *)
Definition trackedMachine (m : Machine) : Prop :=
  tracked (browser m)
  /\ forall t p, In (FromTimer t p) (awaiting m) ->
       timer_store t = array_id (workflowExecutionRefs (browser m)).

Lemma trackedMachine_timerFires (tid : nat) (m : Machine) :
  trackedMachine m -> trackedMachine (timerFires workflowSessionId tid m).
Proof.
  intros [Ht Hc]. unfold timerFires.
  destruct (find _ (timers (window (browser m)))) as [t|] eqn:Hf;
    [|now split].
  apply find_some in Hf as [Hin _]. destruct (Ht t Hin) as [Hs _].
  pose proof (outside_callbackStarts t (clearTimeout tid (browser m))) as Ho.
  destruct (callbackStarts_timer t (clearTimeout tid (browser m))) as [p Hp].
  destruct (callbackStarts workflowSessionId t (clearTimeout tid (browser m)))
    as [b' c]. cbn [fst snd] in Ho, Hp. subst c.
  assert (Ha : sameArray (browser m) b') by now apply sameArray_outside in Ho.
  split; cbn [browser awaiting].
  - exact (tracked_outside Ho (tracked_clearTimeout tid Ht)).
  - intros t' p' Hin'. rewrite Ha.
    apply in_app_iff in Hin' as [Hin'|[[= <- _]|[]]];
      [now apply (Hc t' p')|assumption].
Qed.

Lemma trackedMachine_resume (c : InFlight) (b : Builder) :
  tracked b ->
  (forall t p, c = FromTimer t p ->
     timer_store t = array_id (workflowExecutionRefs b)) ->
  let b' := fst (resume server toolSessionId c b) in
  tracked b' /\ sameArray b b'
  /\ forall c' t p,
       snd (resume server toolSessionId c b) = Some c' ->
       c' = FromTimer t p -> exists p0, c = FromTimer t p0.
Proof.
  intros Ht Hs. cbv zeta.
  destruct c as [t [h|i|]|i]; cbn [resume].
  - pose proof (outside_callOnRun t h b) as Ho.
    destruct (callOnRun_timer t h b) as [p Hp].
    destruct (callOnRun t h b) as [b' c']. cbn [fst snd] in *. subst c'.
    split; [exact (tracked_outside Ho Ht)|].
    split; [now apply sameArray_outside|].
    intros c' t' p' [= <-] [= <- _]. now eexists.
  - pose proof (outside_handleToolExecution server toolSessionId i b) as Ho.
    split; [exact (tracked_outside Ho Ht)|].
    split; [now apply sameArray_outside|].
    intros c' t' p' [= <-] [= <- _]. now eexists.
  - split; [apply tracked_childrenAndEnd; [assumption|now apply (Hs t AwaitChildren)]|].
    split; [apply childrenAndEnd_array|]. intros c' t' p' [=].
  - pose proof (outside_handleToolExecution server toolSessionId i b) as Ho.
    split; [exact (tracked_outside Ho Ht)|].
    split; [now apply sameArray_outside|]. intros c' t' p' [=].
Qed.

Lemma trackedMachine_resumes (k : nat) (m : Machine) :
  trackedMachine m -> trackedMachine (resumes server toolSessionId k m).
Proof.
  intros [Ht Hc]. unfold resumes.
  destruct (nth_error (awaiting m) k) as [c|] eqn:Hk; [|now split].
  pose proof (nth_error_parts k (awaiting m) Hk) as Hl.
  assert (Hin : In c (awaiting m)) by (eapply nth_error_In; eassumption).
  destruct (@trackedMachine_resume c (browser m) Ht) as (Ht' & Ha & Hn).
  { intros t p ->. now apply (Hc t p). }
  destruct (resume server toolSessionId c (browser m)) as [b' next].
  cbn [fst snd] in Ht', Ha, Hn.
  split; cbn [browser awaiting]; [assumption|].
  intros t p Hp. rewrite Ha.
  rewrite !in_app_iff in Hp. destruct Hp as [Hp|[Hp|Hp]].
  - apply (Hc t p). rewrite Hl, in_app_iff. now left.
  - destruct next as [c'|]; [|contradiction]. destruct Hp as [->|[]].
    destruct (Hn _ t p eq_refl eq_refl) as [p0 ->]. now apply (Hc t p0).
  - apply (Hc t p). rewrite Hl, in_app_iff. right. now right.
Qed.

Lemma trackedMachine_tick (e : Tick) (m : Machine) :
  trackedMachine m -> trackedMachine (tick e m).
Proof.
  destruct e as [[tid|k]|c|nodeId]; cbn [tick advance].
  - apply trackedMachine_timerFires.
  - apply trackedMachine_resumes.
  - intros [Ht Hc]. pose proof (schedule_perform c (browser m)) as Hs.
    split; cbn [browser awaiting];
      [exact (tracked_schedule Hs Ht)|].
    intros t p Hp. unfold schedule in Hs. injection Hs as _ Hr.
    rewrite Hr. now apply (Hc t p).
  - intros [Ht Hc]. unfold runButton.
    destruct (find _ (nodes (browser m))) as [node|]; [|now split].
    destruct (onRun (data node)) as [[i|]|]; try now split.
    split; cbn [browser awaiting].
    + intros t Hin. exact (Ht t Hin).
    + intros t p Hp. apply in_app_iff in Hp as [Hp|[[=]|[]]].
      now apply (Hc t p).
Qed.

Lemma trackedMachine_tickAll (es : list Tick) :
  forall m, trackedMachine m -> trackedMachine (tickAll es m).
Proof.
  induction es as [|e es IH]; intros m H; [assumption|].
  cbn [tickAll fold_left]. apply IH. now apply trackedMachine_tick.
Qed.

(** X7: a run that starts with no timer pending and no callback in
    flight can be stopped at any later moment.  Whichever timers have
    fired, however far their callbacks have got through their waits,
    whichever children they have queued, whatever the user has edited
    or run by hand in between: right after [onStopWorkflow] no timer
    is pending. *)
Theorem stop_cancels_the_whole_run (b : Builder) (es : list Tick) :
  timers (window b) = [] ->
  timers (window
            (onStopWorkflow
               (browser (tickAll es (mkMachine (onRunWorkflow b) [])))))
  = [].
Proof.
  intros Hb. apply tracked_stop.
  apply trackedMachine_tickAll.
  split; cbn [browser awaiting]; [now apply tracked_onRunWorkflow|].
  intros t p [].
Qed.

End Ticks.

Lemma stop_cancels_the_whole_run_witness :
  let b := onApplyPreset basicResearchWorkflow initialBuilder in
  let es := [Callback (TimerFires 1); Callback (Resumes 0);
             Edits (Drop ExportDOC (0, 0)%Z); Callback (Resumes 0);
             Callback (Resumes 0)] in
  let m := tickAll okServer "tool_1" "workflow_1" es
             (mkMachine (onRunWorkflow b) []) in
  map timer_node (timers (window (browser m))) = ["basic_review"]
  /\ awaiting m = []
  /\ timers (window (onStopWorkflow (browser m))) = [].
Proof.
  split; [vm_compute; reflexivity|]. split; [vm_compute; reflexivity|].
  exact (@stop_cancels_the_whole_run okServer "tool_1" "workflow_1"
           (onApplyPreset basicResearchWorkflow initialBuilder)
           [Callback (TimerFires 1); Callback (Resumes 0);
            Edits (Drop ExportDOC (0, 0)%Z); Callback (Resumes 0);
            Callback (Resumes 0)] eq_refl).
Defined.

(** The premise that no callback is in flight cannot be dropped.
    [onStopWorkflow] clears the ids in the array the state holds, and a
    callback pushes onto the array of the run that set its timer.  On
    the basic-research preset: Run; the timer of the source finder
    fires and its callback waits for the service; Stop; Run again, with
    no timer pending; the service answers and the callback queues the
    review, which the second Run has marked [running], onto the array
    of the first run; Stop.  The timer of the review is still pending,
    and when it fires the review is sent to the service. *)
Definition onBrowser (f : Builder -> Builder) (m : Machine) : Machine :=
  mkMachine (f (browser m)) (awaiting m).

Definition stoppedTwice : Machine :=
  let steps := advanceAll okServer "tool_1" "workflow_1" in
  let waiting :=
    steps [TimerFires 1; Resumes 0]
      (mkMachine
         (onRunWorkflow (onApplyPreset basicResearchWorkflow initialBuilder))
         []) in
  let rerun := onBrowser onRunWorkflow (onBrowser onStopWorkflow waiting) in
  onBrowser onStopWorkflow (steps [Resumes 0; Resumes 0] rerun).

Lemma stop_misses_a_callback_in_flight :
  timers (window (browser stoppedTwice)) = [mkTimer 3 "basic_review" 50 1]
  /\ awaiting stoppedTwice = []
  /\ runningWorkflow (browser stoppedTwice) = false
  /\ List.length (requests (window (browser stoppedTwice))) = 1
  /\ List.length
       (requests
          (window
             (browser
                (advanceAll okServer "tool_1" "workflow_1"
                   [TimerFires 3; Resumes 0; Resumes 0] stoppedTwice))))
     = 2.
Proof. repeat apply conj; vm_compute; reflexivity. Qed.

(** ** What a timer's callback does *)

(** The timers set for queued children: consecutive ids, 50 ms each. *)
Fixpoint childTimers (tid store : nat) (children : list Node) : list Timer :=
  match children with
  | [] => []
  | child :: rest =>
      mkTimer tid (node_id child) 50 store :: childTimers (S tid) store rest
  end.

(** The children the loop queues: those a node of the snapshot with the
    same id shows as [running]. *)
Definition stillRunning (snapshot : list Node) (child : Node) : bool :=
  match find (fun n => String.eqb (node_id n) (node_id child)) snapshot with
  | Some childNodeData => Status_eqb (status (data childNodeData)) running
  | None => false
  end.

Lemma executeNode_push_timers (store : nat) (nodeId : string) (delay : nat)
    (b : Builder) :
  let b' := pushStore store (fst (executeNode store nodeId delay b))
              (snd (executeNode store nodeId delay b)) in
  timers (window b')
  = (timers (window b)
       ++ [mkTimer (nextTimerId (window b)) nodeId delay store])%list
  /\ nextTimerId (window b') = S (nextTimerId (window b)).
Proof.
  cbv zeta. unfold executeNode, setTimeout, pushStore. cbn.
  repeat match goal with
         | |- context [if ?c then _ else _] => destruct c
         end; split; reflexivity.
Qed.

Lemma queueChildren_timers (store : nat) (children snapshot : list Node) :
  forall b,
    timers (window (queueChildren store children snapshot b))
    = (timers (window b)
         ++ childTimers (nextTimerId (window b)) store
              (filter (stillRunning snapshot) children))%list.
Proof.
  unfold queueChildren.
  induction children as [|child rest IH]; intros b; cbn [fold_left filter].
  - cbn. now rewrite app_nil_r.
  - unfold stillRunning at 1.
    destruct (find _ snapshot) as [c|]; [|apply IH].
    destruct (Status_eqb (status (data c)) running); [|apply IH].
    destruct (executeNode_push_timers store (node_id child) 50 b) as [Ht Hn].
    destruct (executeNode store (node_id child) 50 b) as [tid acc'].
    cbn [fst snd] in Ht, Hn.
    rewrite IH, Ht, Hn, <- app_assoc. reflexivity.
Qed.

Section CallbackProperties.

Variable server : Request -> FetchOutcome.
Variable toolSessionId workflowSessionId : string.

Let callback := timerCallback server toolSessionId workflowSessionId.
Let executed := afterOnRun server toolSessionId workflowSessionId.

Lemma timers_afterOnRun (t : Timer) (b : Builder) :
  timers (window (executed t b)) = timers (window b)
  /\ nextTimerId (window (executed t b)) = nextTimerId (window b).
Proof.
  pose proof (outside_afterOnRun server toolSessionId workflowSessionId t b)
    as Ho.
  unfold outside in Ho. injection Ho as _ _ _ _ _ _ _ _ Ht Hn _ _.
  now split.
Qed.

(** X8: the callback of a timer queues one new timer of 50 ms for each
    outgoing edge of its node whose target exists and is still [running]
    once the node has been executed, in edge order, and no other timer;
    a target reached by two edges is queued twice. *)
Theorem callback_queues_running_children (t : Timer) (b : Builder) :
  timers (window (callback t b))
  = (timers (window b)
       ++ childTimers (nextTimerId (window b)) (timer_store t)
            (filter (stillRunning (nodes (executed t b)))
               (childNodes (timer_node t) (executed t b))))%list.
Proof.
  unfold callback. rewrite timerCallback_unfold. cbv zeta. fold executed.
  destruct (timers_afterOnRun t b) as [Ht Hn].
  rewrite <- Ht, <- Hn, <- queueChildren_timers.
  repeat match goal with
         | |- context [if ?c then _ else _] => destruct c
         end; reflexivity.
Qed.

(** X9: after a callback the running flag is up only if some node is
    [running]: when every node is terminal, or none is running any
    more, the callback has set the run idle. *)
Theorem callback_keeps_flag_honest (t : Timer) (b : Builder) :
  runningWorkflow (callback t b) = false
  \/ existsb (fun n => Status_eqb (status (data n)) running)
       (nodes (callback t b)) = true.
Proof.
  unfold callback. rewrite timerCallback_unfold. cbv zeta.
  destruct (forallb _ _); [now left|].
  destruct (existsb _ _) eqn:E; cbn [negb]; [now right|now left].
Qed.

Lemma terminal_not_reset (l : list Node) (i : string) :
  Forall (fun n => node_id n = i -> isTerminal (status (data n)) = true) l ->
  Forall (fun n => node_id n = i -> isTerminal (status (data n)) = true)
    (map (with_data (fun d =>
       if Status_eqb (status d) running then set_status pending d else d)) l).
Proof.
  intros H. rewrite Forall_map. revert H. apply Forall_impl.
  intros n Hn Hi. specialize (Hn Hi).
  destruct n as [? ? ? ? [? ? ? ? st ? ? ? ?]]. cbn in *.
  destruct st; cbn in *; congruence.
Qed.

(** X10: when the timer's node exists and its [onRun] is the closure
    made for this node, the callback leaves the node in a terminal
    status: it has been executed, and the end of the callback does not
    reset it. *)
Theorem callback_executes_its_node (t : Timer) (b : Builder) (node : Node) :
  find (fun n => String.eqb (node_id n) (timer_node t)) (nodes b)
    = Some node ->
  onRun (data node) = Some (RunNode (timer_node t)) ->
  Forall (fun n =>
            node_id n = timer_node t -> isTerminal (status (data n)) = true)
    (nodes (callback t b)).
Proof.
  intros Hf Hr. unfold callback. rewrite timerCallback_unfold. cbv zeta.
  assert (H1 : Forall (fun n => node_id n = timer_node t ->
                         isTerminal (status (data n)) = true)
                 (nodes (executed t b))).
  { unfold executed, afterOnRun. rewrite Hf, Hr. cbn [runHandler].
    unfold createOnRunCallback.
    eapply Forall_impl; [|apply handleToolExecution_terminal].
    cbn. intros n Hn Hi. exact (proj1 (Hn Hi)). }
  fold executed.
  destruct (queueChildren_frame (timer_store t)
              (childNodes (timer_node t) (executed t b))
              (nodes (executed t b)) (executed t b)) as (Hn & _ & _).
  repeat match goal with
         | |- context [if ?c then _ else _] => destruct c
         end;
    unfold setNodes, setRunningWorkflow, report, onWindow; cbn [nodes];
    rewrite Hn; [now apply terminal_not_reset|assumption|assumption].
Qed.

End CallbackProperties.

Lemma callback_executes_its_node_witness :
  let b := clearTimeout 1
             (onRunWorkflow (onApplyPreset basicResearchWorkflow initialBuilder)) in
  let t := mkTimer 1 "basic_src" 500 1 in
  Forall (fun n =>
            node_id n = "basic_src" -> isTerminal (status (data n)) = true)
    (nodes (timerCallback okServer "tool_1" "workflow_1" t b)).
Proof.
  exact (@callback_executes_its_node okServer "tool_1" "workflow_1"
           (mkTimer 1 "basic_src" 500 1)
           (clearTimeout 1
              (onRunWorkflow
                 (onApplyPreset basicResearchWorkflow initialBuilder)))
           (with_data (set_status running)
              (nth 0 (nodes (onApplyPreset basicResearchWorkflow initialBuilder))
                 (createToolNode "" "" "" 0 0)))
           eq_refl eq_refl).
Defined.

(** ** A run that has settled *)

Lemma reset_terminal (l : list Node) :
  forallb (fun n => isTerminal (status (data n))) l = true ->
  map (with_data (fun d =>
         if Status_eqb (status d) running then set_status pending d else d)) l
  = l.
Proof.
  intros H. rewrite <- (map_id l) at 2. apply map_ext_in. intros n Hn.
  rewrite forallb_forall in H. specialize (H n Hn).
  destruct n as [? ? ? ? [? ? ? ? st ? ? ? ?]]. cbn in H.
  destruct st; try discriminate H; reflexivity.
Qed.

(** What an execution writes into a node: a terminal status, and the
    same [onRun] closure. *)
Definition settles (F : ToolNodeData -> ToolNodeData) : Prop :=
  forall d, isTerminal (status (F d)) = true /\ onRun (F d) = onRun d.

Lemma settles_finish (session : option string) (r : result JsVal)
    (G : ToolNodeData -> ToolNodeData) :
  (forall d, onRun (G d) = onRun d) ->
  settles (fun d => finish session r (G d)).
Proof. intros HG d. destruct r; cbn; split; try reflexivity; apply HG. Qed.

Section Settling.

Variable server : Request -> FetchOutcome.
Variable toolSessionId workflowSessionId : string.

Lemma handleToolExecution_settles (nodeId : string) (b : Builder) :
  exists F,
    nodes (handleToolExecution server toolSessionId nodeId b)
    = patchNode nodeId F (nodes b)
    /\ settles F.
Proof.
  destruct (find (fun n => String.eqb (node_id n) nodeId) (nodes b))
    as [node|] eqn:Hfind.
  - destruct (handleToolExecution_found server toolSessionId _ _ Hfind)
      as [Hn _].
    cbv zeta in Hn. eexists. split; [exact Hn|].
    apply (settles_finish _ _ (fun d => d)). reflexivity.
  - unfold handleToolExecution. rewrite Hfind. eexists. split; [reflexivity|].
    intros d. split; reflexivity.
Qed.

Lemma queueChildren_nextTimerId (store : nat) (children snapshot : list Node) :
  forall b,
    nextTimerId (window (queueChildren store children snapshot b))
    = nextTimerId (window b)
      + List.length (filter (stillRunning snapshot) children).
Proof.
  unfold queueChildren.
  induction children as [|child rest IH]; intros b; cbn [fold_left filter].
  - cbn. lia.
  - unfold stillRunning at 1.
    destruct (find _ snapshot) as [c|]; [|apply IH].
    destruct (Status_eqb (status (data c)) running); [|apply IH].
    destruct (executeNode_push_timers store (node_id child) 50 b) as [Ht Hn].
    destruct (executeNode store (node_id child) 50 b) as [tid acc'].
    cbn [fst snd] in Ht, Hn. rewrite IH, Hn. cbn [List.length]. lia.
Qed.

End Settling.

Definition terminal (n : Node) : Prop := isTerminal (status (data n)) = true.

Definition isRunning (n : Node) : Prop := status (data n) = running.

(** A timer is pending for the node [i]. *)
Definition hasTimer (b : Builder) (i : string) : Prop :=
  exists t, In t (timers (window b)) /\ timer_node t = i.

(** No edge targets [i]. *)
Definition isRootId (es : list Edge) (i : string) : bool :=
  negb (existsb (fun e => equals (target e) i) es).

(** Every node's [onRun] is the closure made for that node, as [onDrop],
    [onApplyPreset] and [onLoadWorkflow] wire it. *)
Definition wired (l : list Node) : Prop :=
  forall n, In n l -> onRun (data n) = Some (RunNode (node_id n)).

Lemma NoDup_map_filter {A B} (key : A -> B) (f : A -> bool) (l : list A) :
  NoDup (map key l) -> NoDup (map key (filter f l)).
Proof.
  induction l as [|a l IH]; cbn; intros H; [constructor|].
  apply NoDup_cons_iff in H as [Ha Hl].
  destruct (f a); cbn; [|now apply IH].
  constructor; [|now apply IH].
  intros Hin. apply Ha. apply in_map_iff in Hin as (x & E & Hx).
  apply filter_In in Hx as [Hx _]. apply in_map_iff. now exists x.
Qed.

Lemma NoDup_map_same {A B} (key : A -> B) (l : list A) (x y : A) :
  NoDup (map key l) -> In x l -> In y l -> key x = key y -> x = y.
Proof.
  induction l as [|a l IH]; cbn; intros H Hx Hy E; [contradiction|].
  apply NoDup_cons_iff in H as [Ha Hl].
  destruct Hx as [<-|Hx], Hy as [<-|Hy]; auto.
  - exfalso. apply Ha. rewrite E. now apply in_map.
  - exfalso. apply Ha. rewrite <- E. now apply in_map.
Qed.

Lemma find_by_id (l : list Node) (c : Node) (p : Node -> bool) :
  NoDup (ids_of l) -> In c l ->
  (forall n, p n = true <-> node_id n = node_id c) ->
  find p l = Some c.
Proof.
  intros Hu Hc Hp.
  destruct (find p l) as [x|] eqn:E.
  - apply find_some in E as [Hx Hpx]. apply Hp in Hpx.
    f_equal. exact (NoDup_map_same node_id l x c Hu Hx Hc Hpx).
  - apply (find_none _ _ E) in Hc.
    assert (p c = true) by now apply Hp. congruence.
Qed.

Lemma childNodes_In (b : Builder) (e : Edge) (i : string) (c : Node) :
  NoDup (ids_of (nodes b)) -> In e (edges b) -> In c (nodes b) ->
  source e = Some i -> target e = Some (node_id c) ->
  In c (childNodes i b).
Proof.
  intros Hu He Hc Hs Ht. unfold childNodes. apply in_flat_map.
  exists e. split.
  - apply filter_In. split; [assumption|]. rewrite Hs. apply String.eqb_refl.
  - rewrite (@find_by_id (nodes b) c _ Hu Hc); [now left|].
    intros n. rewrite Ht. cbn. rewrite String.eqb_eq. split; congruence.
Qed.

Lemma stillRunning_In (l : list Node) (c : Node) :
  NoDup (ids_of l) -> In c l -> isRunning c -> stillRunning l c = true.
Proof.
  intros Hu Hc Hr. unfold stillRunning. rewrite (@find_by_id l c _ Hu Hc).
  - now rewrite Hr.
  - intros n. apply String.eqb_eq.
Qed.

Lemma childTimers_ids (tid store : nat) (cs : list Node) :
  map timer_id (childTimers tid store cs) = seq tid (List.length cs).
Proof.
  revert tid. induction cs as [|c cs IH]; intros tid; cbn; [reflexivity|].
  now rewrite IH.
Qed.

Lemma childTimers_In (tid store : nat) (cs : list Node) (c : Node) :
  In c cs ->
  exists t, In t (childTimers tid store cs) /\ timer_node t = node_id c.
Proof.
  revert tid. induction cs as [|x cs IH]; intros tid; cbn; [contradiction|].
  intros [<-|H].
  - eexists. split; [now left|reflexivity].
  - destruct (IH (S tid) H) as (t & Ht & E). exists t. split; [now right|assumption].
Qed.

Lemma rootTimers_In (tid index store : nat) (roots : list Node) (n : Node) :
  In n roots ->
  exists t, In t (rootTimers tid index store roots)
            /\ timer_node t = node_id n.
Proof.
  revert tid index. induction roots as [|x rs IH]; intros tid index; cbn;
    [contradiction|].
  intros [<-|H].
  - eexists. split; [now left|reflexivity].
  - destruct (IH (S tid) (S index) H) as (t & Ht & E).
    exists t. split; [now right|assumption].
Qed.

Lemma rootTimers_timer_ids (tid index store : nat) (roots : list Node) :
  map timer_id (rootTimers tid index store roots)
  = seq tid (List.length roots).
Proof.
  revert tid index. induction roots as [|x rs IH]; intros tid index; cbn;
    [reflexivity|]. now rewrite IH.
Qed.

(** [onRunWorkflow] on a graph that has nodes. *)
Lemma onRunWorkflow_started (b : Builder) :
  nodes b <> [] ->
  nodes (onRunWorkflow b) = map (with_data (set_status running)) (nodes b)
  /\ edges (onRunWorkflow b) = edges b
  /\ timers (window (onRunWorkflow b))
     = (timers (window b)
          ++ rootTimers (nextTimerId (window b)) 0 (nextArrayId (window b))
               (rootNodes b))%list
  /\ nextTimerId (window (onRunWorkflow b))
     = List.length (rootNodes b) + nextTimerId (window b).
Proof.
  intros Hn. unfold onRunWorkflow.
  destruct (nodes b) as [|n ns] eqn:E; [now contradiction Hn|].
  cbn [nonEmpty negb].
  destruct (rootNodes b) as [|r rs] eqn:Er; cbn [nonEmpty negb newArray].
  - destruct b as [? ? ? ? ? ? ? ? ? w]. destruct w. cbn in *.
    rewrite app_nil_r, E. repeat split.
  - rewrite scheduleRoots_spec.
    destruct b as [? ? ? ? ? ? ? ? ? w]. destruct w. cbn in *.
    rewrite E. repeat split.
Qed.

(** *** What a call in flight is still going to do *)

(** The node whose tool a call in flight will still execute. *)
Definition runs (c : InFlight) : option string :=
  match c with
  | FromTimer _ (AwaitSession (RunNode i)) => Some i
  | FromTimer _ (AwaitSession RunNothing) => None
  | FromTimer _ (AwaitTool i) => Some i
  | FromTimer _ AwaitChildren => None
  | ByHand i => Some i
  end.

(** The node whose children a call in flight will still queue. *)
Definition queues (c : InFlight) : option string :=
  match c with
  | FromTimer t _ => Some (timer_node t)
  | ByHand _ => None
  end.

(** The tool of the node [i] will be executed: a timer is pending for
    it, or a callback has begun and not executed it yet. *)
Definition willRun (m : Machine) (i : string) : Prop :=
  hasTimer (browser m) i \/ exists c, In c (awaiting m) /\ runs c = Some i.

(** The children of the node [i] will be looked at. *)
Definition willQueue (m : Machine) (i : string) : Prop :=
  exists c, In c (awaiting m) /\ queues c = Some i.

(** A callback in flight of a run on wired nodes executes the node of
    its timer. *)
Definition coherent (c : InFlight) : Prop :=
  match c with
  | FromTimer t (AwaitSession h) => h = RunNode (timer_node t)
  | FromTimer t (AwaitTool i) => i = timer_node t
  | FromTimer _ AwaitChildren => True
  | ByHand _ => False
  end.

(** What holds while the callbacks of a run take their steps: every
    node is running or terminal; every root is terminal or will be
    executed; every running child of a terminal node will be executed,
    or the children of that node will still be looked at. *)
Record RunInv (m : Machine) : Prop := mkRunInv {
  run_ids : NoDup (ids_of (nodes (browser m)));
  run_wired : wired (nodes (browser m));
  run_status :
    forall n, In n (nodes (browser m)) -> isRunning n \/ terminal n;
  run_timer_ids : NoDup (map timer_id (timers (window (browser m))));
  run_timer_bound :
    forall t, In t (timers (window (browser m))) ->
      timer_id t < nextTimerId (window (browser m));
  run_coherent : forall c, In c (awaiting m) -> coherent c;
  run_roots :
    forall n, In n (nodes (browser m)) ->
      isRootId (edges (browser m)) (node_id n) = true ->
      terminal n \/ willRun m (node_id n);
  run_children :
    forall e p c, In e (edges (browser m)) ->
      In p (nodes (browser m)) -> In c (nodes (browser m)) ->
      source e = Some (node_id p) -> target e = Some (node_id c) ->
      terminal p -> isRunning c ->
      willRun m (node_id c) \/ willQueue m (node_id p)
}.

Lemma RunInv_onRunWorkflow (b : Builder) :
  NoDup (ids_of (nodes b)) -> wired (nodes b) -> timers (window b) = [] ->
  RunInv (mkMachine (onRunWorkflow b) []).
Proof.
  intros Hu Hw Ht.
  assert (D : nodes b = [] \/ nodes b <> [])
    by (destruct (nodes b); [left|right]; congruence).
  destruct D as [E|D].
  - assert (Hn : nodes (onRunWorkflow b) = []
                 /\ timers (window (onRunWorkflow b)) = []).
    { unfold onRunWorkflow. rewrite E. cbn [nonEmpty negb].
      destruct b as [? ? ? ? ? ? ? ? ? w]. destruct w. cbn in *. now subst. }
    destruct Hn as [Hn Hn'].
    constructor; cbn [browser awaiting]; rewrite ?Hn, ?Hn'; unfold wired;
      intros; try contradiction; apply NoDup_nil.
  - destruct (@onRunWorkflow_started b D) as (N & Ed & T & Nx).
    rewrite Ht in T. cbn [app] in T.
    constructor; cbn [browser awaiting]; rewrite ?N, ?Ed, ?T, ?Nx.
    + unfold ids_of in *. rewrite map_map. exact Hu.
    + intros n Hin. apply in_map_iff in Hin as (m & <- & Hm).
      exact (Hw m Hm).
    + intros n Hin. apply in_map_iff in Hin as (m & <- & Hm). now left.
    + rewrite rootTimers_timer_ids. apply seq_NoDup.
    + intros t Hin. apply (in_map timer_id) in Hin.
      rewrite rootTimers_timer_ids in Hin. apply in_seq in Hin. lia.
    + intros c [].
    + intros n Hin Hroot. right. left.
      apply in_map_iff in Hin as (m & <- & Hm).
      unfold hasTimer. cbn [browser]. rewrite T.
      apply (@rootTimers_In _ _ _ _ m).
      unfold rootNodes. apply filter_In. split; [exact Hm|exact Hroot].
    + intros e p c _ Hp _ _ _ Htm _.
      apply in_map_iff in Hp as (m & <- & _). discriminate Htm.
Qed.

Lemma patched_node (i : string) (G : ToolNodeData -> ToolNodeData)
    (l : list Node) (n' : Node) :
  In n' (patchNode i G l) ->
  exists n, In n l /\ node_id n' = node_id n
            /\ (node_id n <> i -> n' = n)
            /\ (node_id n = i -> n' = with_data G n).
Proof.
  unfold patchNode. intros H. apply in_map_iff in H as (n & <- & Hn).
  exists n. split; [assumption|].
  destruct (String.eqb (node_id n) i) eqn:E.
  - apply String.eqb_eq in E. split; [reflexivity|].
    split; [intros C; contradiction|reflexivity].
  - apply String.eqb_neq in E. split; [reflexivity|].
    split; [reflexivity|intros C; contradiction].
Qed.

(** A step that writes a session id into the node [i] or marks it
    [running], and in the latter case leaves a call that will execute
    it. *)
Lemma RunInv_mark (m m' : Machine) (i : string)
    (G : ToolNodeData -> ToolNodeData) :
  RunInv m ->
  nodes (browser m') = patchNode i G (nodes (browser m)) ->
  edges (browser m') = edges (browser m) ->
  (forall d, onRun (G d) = onRun d) ->
  ((forall d, status (G d) = status d)
   \/ (forall d, status (G d) = running) /\ willRun m' i) ->
  NoDup (map timer_id (timers (window (browser m')))) ->
  (forall t, In t (timers (window (browser m'))) ->
     timer_id t < nextTimerId (window (browser m'))) ->
  (forall c, In c (awaiting m') -> coherent c) ->
  (forall n, In n (nodes (browser m)) ->
     willRun m (node_id n) -> willRun m' (node_id n)) ->
  (forall p, willQueue m p -> willQueue m' p) ->
  RunInv m'.
Proof.
  intros I N E HG Hst Hu Hb Hc Hrun Hq.
  assert (P : forall n', In n' (nodes (browser m')) ->
            exists n, In n (nodes (browser m))
              /\ node_id n' = node_id n
              /\ onRun (data n') = onRun (data n)
              /\ (status (data n') = status (data n)
                  \/ isRunning n' /\ willRun m' (node_id n))).
  { intros n' Hn'. rewrite N in Hn'.
    destruct (patched_node _ _ _ _ Hn') as (n & Hn & Hid & Hmiss & Hhit).
    exists n. split; [assumption|]. split; [assumption|].
    destruct (string_dec (node_id n) i) as [D|D].
    - rewrite (Hhit D). cbn [data with_data]. split; [apply HG|].
      destruct Hst as [Hst|[Hst Hw]]; [left; apply Hst|right].
      split; [apply Hst|now rewrite D].
    - rewrite (Hmiss D). split; [reflexivity|now left]. }
  constructor.
  - rewrite N, ids_patchNode. apply I.
  - intros n' Hn'. destruct (P n' Hn') as (n & Hn & Hid & Hr & _).
    rewrite Hr, Hid. now apply (run_wired I).
  - intros n' Hn'. destruct (P n' Hn') as (n & Hn & _ & _ & [Hs|[Hs _]]);
      [|now left].
    unfold isRunning, terminal. rewrite Hs. exact (run_status I n Hn).
  - assumption.
  - assumption.
  - assumption.
  - intros n' Hn' Hroot. rewrite E in Hroot.
    destruct (P n' Hn') as (n & Hn & Hid & _ & Hs). rewrite Hid in *.
    destruct Hs as [Hs|[_ Hw]]; [|now right].
    destruct (run_roots I n Hn Hroot) as [R|R].
    + left. unfold terminal. now rewrite Hs.
    + right. now apply Hrun.
  - intros e p' c' He Hp' Hc' Hs Ht Hterm Hr. rewrite E in He.
    destruct (P p' Hp') as (p & Hp & Hpid & _ & Hps).
    destruct (P c' Hc') as (c & Hcn & Hcid & _ & Hcs).
    rewrite Hpid in *. rewrite Hcid in *.
    destruct Hcs as [Hcs|[_ Hw]]; [|now left].
    destruct Hps as [Hps|[Hps _]];
      [|unfold terminal in Hterm; rewrite Hps in Hterm; discriminate].
    assert (Tp : terminal p) by (unfold terminal; now rewrite <- Hps).
    assert (Rc : isRunning c) by (unfold isRunning; now rewrite <- Hcs).
    destruct (@run_children m I e p c He Hp Hcn Hs Ht Tp Rc) as [R|R].
    + left. now apply Hrun.
    + right. now apply Hq.
Qed.

(** The step in which the tool of the node [i] is executed: the node
    ends terminal, and its children will still be looked at. *)
Lemma RunInv_tool (m m' : Machine) (i : string)
    (F : ToolNodeData -> ToolNodeData) :
  RunInv m ->
  nodes (browser m') = patchNode i F (nodes (browser m)) ->
  edges (browser m') = edges (browser m) ->
  settles F ->
  NoDup (map timer_id (timers (window (browser m')))) ->
  (forall t, In t (timers (window (browser m'))) ->
     timer_id t < nextTimerId (window (browser m'))) ->
  (forall c, In c (awaiting m') -> coherent c) ->
  (forall n, In n (nodes (browser m)) -> node_id n <> i ->
     willRun m (node_id n) -> willRun m' (node_id n)) ->
  (forall p, willQueue m p -> willQueue m' p) ->
  willQueue m' i ->
  RunInv m'.
Proof.
  intros I N E HF Hu Hb Hc Hrun Hq Hqi.
  assert (P : forall n', In n' (nodes (browser m')) ->
            exists n, In n (nodes (browser m))
              /\ node_id n' = node_id n
              /\ onRun (data n') = onRun (data n)
              /\ (node_id n <> i /\ n' = n
                  \/ node_id n = i /\ terminal n')).
  { intros n' Hn'. rewrite N in Hn'.
    destruct (patched_node _ _ _ _ Hn') as (n & Hn & Hid & Hmiss & Hhit).
    exists n. split; [assumption|]. split; [assumption|].
    destruct (string_dec (node_id n) i) as [D|D].
    - rewrite (Hhit D). cbn [data with_data]. split; [apply HF|].
      right. split; [assumption|]. apply HF.
    - rewrite (Hmiss D). split; [reflexivity|now left]. }
  constructor.
  - rewrite N, ids_patchNode. apply I.
  - intros n' Hn'. destruct (P n' Hn') as (n & Hn & Hid & Hr & _).
    rewrite Hr, Hid. now apply (run_wired I).
  - intros n' Hn'.
    destruct (P n' Hn') as (n & Hn & _ & _ & [[_ ->]|[_ Ht]]);
      [exact (run_status I n Hn)|now right].
  - assumption.
  - assumption.
  - assumption.
  - intros n' Hn' Hroot. rewrite E in Hroot.
    destruct (P n' Hn') as (n & Hn & Hid & _ & [[D ->]|[_ Ht]]);
      [|now left].
    destruct (run_roots I n Hn Hroot) as [R|R]; [now left|right].
    now apply Hrun.
  - intros e p' c' He Hp' Hc' Hs Ht Hterm Hr. rewrite E in He.
    destruct (P c' Hc') as (c & Hcn & Hcid & _ & [[Dc ->]|[_ Tc]]).
    2: { unfold terminal in Tc. rewrite Hr in Tc. discriminate. }
    destruct (P p' Hp') as (p & Hp & Hpid & _ & [[Dp ->]|[Dp _]]).
    + destruct (@run_children m I e p c He Hp Hcn Hs Ht Hterm Hr) as [R|R].
      * left. now apply Hrun.
      * right. now apply Hq.
    + right. rewrite Hpid, Dp. assumption.
Qed.

Lemma childrenAndEnd_shape (t : Timer) (b : Builder) :
  let queued :=
    filter (stillRunning (nodes b)) (childNodes (timer_node t) b) in
  nodes (childrenAndEnd t b) = nodes b
  /\ edges (childrenAndEnd t b) = edges b
  /\ timers (window (childrenAndEnd t b))
     = (timers (window b)
          ++ childTimers (nextTimerId (window b)) (timer_store t) queued)%list
  /\ nextTimerId (window (childrenAndEnd t b))
     = nextTimerId (window b) + List.length queued.
Proof.
  cbv zeta. unfold childrenAndEnd. cbv zeta.
  set (b2 := queueChildren (timer_store t) (childNodes (timer_node t) b)
               (nodes b) b).
  destruct (queueChildren_frame (timer_store t)
              (childNodes (timer_node t) b) (nodes b) b) as (Hn & He & _).
  fold b2 in Hn, He.
  pose proof (queueChildren_timers (timer_store t)
                (childNodes (timer_node t) b) (nodes b) b) as Ht.
  pose proof (queueChildren_nextTimerId (timer_store t)
                (childNodes (timer_node t) b) (nodes b) b) as Hx.
  fold b2 in Ht, Hx.
  destruct (forallb _ (nodes b2)) eqn:Hall.
  - unfold setNodes, setRunningWorkflow. cbn [nodes edges window].
    rewrite (reset_terminal _ Hall). repeat split; assumption.
  - destruct (negb _); unfold setRunningWorkflow, report, onWindow;
      cbn [nodes edges window timers nextTimerId]; repeat split; assumption.
Qed.

Section RunInvariant.

Variable server : Request -> FetchOutcome.
Variable toolSessionId workflowSessionId : string.

(** The beginning of a callback on wired nodes. *)
Lemma callbackStarts_shape (t : Timer) (b : Builder) :
  wired (nodes b) ->
  exists G,
    nodes (fst (callbackStarts workflowSessionId t b))
    = patchNode (timer_node t) G (nodes b)
    /\ (forall d, onRun (G d) = onRun d)
    /\ ((forall d, status (G d) = status d)
        \/ (forall d, status (G d) = running)
           /\ runs (snd (callbackStarts workflowSessionId t b))
              = Some (timer_node t))
    /\ coherent (snd (callbackStarts workflowSessionId t b))
    /\ queues (snd (callbackStarts workflowSessionId t b))
       = Some (timer_node t)
    /\ ((exists n, In n (nodes b) /\ node_id n = timer_node t) ->
        runs (snd (callbackStarts workflowSessionId t b))
        = Some (timer_node t)).
Proof.
  intros Hw. unfold callbackStarts.
  destruct (find (fun n => String.eqb (node_id n) (timer_node t)) (nodes b))
    as [node|] eqn:Hf.
  - destruct (find_some _ _ Hf) as [Hin Hid]. apply String.eqb_eq in Hid.
    rewrite (Hw node Hin), Hid.
    destruct (truthySession (sessionId (data node))); cbn.
    + exists (set_status running). repeat split. right. now split.
    + exists (set_sessionId (Some workflowSessionId)). repeat split.
      now left.
  - exists (fun d => d). cbn. split.
    + symmetry. apply patchNode_absent.
      exact (@find_none_no_id (timer_node t) (nodes b) Hf).
    + repeat split; [now left|].
      intros (n & Hn & Hid). apply (find_none _ _ Hf) in Hn.
      apply String.eqb_neq in Hn. contradiction.
Qed.

Lemma RunInv_timerFires (tid : nat) (m : Machine) :
  RunInv m -> RunInv (timerFires workflowSessionId tid m).
Proof.
  intros I. unfold timerFires.
  destruct (find (fun t => (timer_id t =? tid)%nat)
              (timers (window (browser m)))) as [t|] eqn:Hf; [|assumption].
  destruct (find_some _ _ Hf) as [Ht Htid]. apply Nat.eqb_eq in Htid.
  set (b0 := clearTimeout tid (browser m)).
  assert (Hw0 : wired (nodes b0)) by exact (run_wired I).
  destruct (@callbackStarts_shape t b0 Hw0)
    as (G & N & HG & Hst & Hco & Hq & Hex).
  pose proof (outside_callbackStarts workflowSessionId t b0) as Ho.
  destruct (callbackStarts workflowSessionId t b0) as [b' c].
  cbn [fst snd] in *.
  unfold outside in Ho. injection Ho as He _ _ _ _ _ _ _ HT HX _ _.
  assert (Hnew : In c (awaiting m ++ [c])%list)
    by (apply in_or_app; right; now left).
  apply (@RunInv_mark m (mkMachine b' (awaiting m ++ [c])%list)
           (timer_node t) G I); cbn [browser awaiting].
  - exact N.
  - exact He.
  - exact HG.
  - destruct Hst as [Hs|[Hs Hr]]; [now left|right].
    split; [exact Hs|]. right. now exists c.
  - rewrite HT. apply NoDup_map_filter, I.
  - intros x Hx. rewrite HT in Hx. rewrite HX.
    apply filter_In in Hx as [Hx _]. exact (run_timer_bound I x Hx).
  - intros x Hx. apply in_app_iff in Hx as [Hx|[<-|[]]];
      [now apply (run_coherent I)|exact Hco].
  - intros n Hn [(x & Hx & Hxn)|(x & Hx & Hxr)].
    + destruct (Nat.eq_dec (timer_id x) tid) as [D|D].
      * assert (x = t)
          by (apply (NoDup_map_same timer_id (timers (window (browser m)))
                       x t (run_timer_ids I) Hx Ht); congruence).
        subst x. right. exists c. split; [assumption|].
        rewrite <- Hxn. apply Hex. exists n. split; [exact Hn|now symmetry].
      * left. exists x. split; [|assumption]. cbn [browser]. rewrite HT.
        apply filter_In. split; [assumption|].
        now apply negb_true_iff, Nat.eqb_neq.
    + right. exists x. split; [apply in_or_app; now left|assumption].
  - intros p (x & Hx & Hxq). exists x.
    split; [apply in_or_app; now left|assumption].
Qed.

Lemma RunInv_resumes (k : nat) (m : Machine) :
  RunInv m -> RunInv (resumes server toolSessionId k m).
Proof.
  intros I. unfold resumes.
  destruct (nth_error (awaiting m) k) as [c|] eqn:Hk; [|assumption].
  pose proof (nth_error_parts k (awaiting m) Hk) as Hl.
  assert (Hin : In c (awaiting m)) by (eapply nth_error_In; eassumption).
  pose proof (run_coherent I c Hin) as Hco.
  set (l1 := firstn k (awaiting m)) in *.
  set (l2 := skipn (S k) (awaiting m)) in *.
  assert (Hkeep : forall x next,
             In x (awaiting m) -> x = c \/ In x (l1 ++ next ++ l2)%list).
  { intros x next Hx. rewrite Hl in Hx.
    apply in_app_iff in Hx as [Hx|[Hx|Hx]]; rewrite !in_app_iff; auto. }
  assert (Hrest : forall x next,
             In x (l1 ++ next ++ l2)%list -> In x next \/ In x (awaiting m)).
  { intros x next Hx. rewrite Hl. rewrite !in_app_iff in *. cbn. tauto. }
  destruct c as [t [h|i|]|i]; cbn [resume coherent] in *.
  - (* the 10 ms are over: [onRun] is called *)
    subst h. cbn [callOnRun].
    set (c' := FromTimer t (AwaitTool (timer_node t))).
    assert (Hc' : In c' (l1 ++ [c'] ++ l2)%list)
      by (rewrite !in_app_iff; right; left; now left).
    apply (@RunInv_mark m (mkMachine _ (l1 ++ [c'] ++ l2)%list)
             (timer_node t) (set_status running) I); cbn [browser awaiting];
      try reflexivity; try apply I.
    + right. split; [reflexivity|]. right. now exists c'.
    + intros x Hx. destruct (Hrest x _ Hx) as [[<-|[]]|Hx'];
        [reflexivity|now apply (run_coherent I)].
    + intros n Hn [Ht|(x & Hx & Hr)]; [now left|right].
      destruct (Hkeep x [c'] Hx) as [->|Hx']; [now exists c'|now exists x].
    + intros p (x & Hx & Hq).
      destruct (Hkeep x [c'] Hx) as [->|Hx']; [now exists c'|now exists x].
  - (* the tool of the node is executed *)
    subst i.
    destruct (handleToolExecution_settles server toolSessionId (timer_node t)
                (browser m)) as (F & N & HF).
    pose proof (outside_handleToolExecution server toolSessionId
                  (timer_node t) (browser m)) as Ho.
    unfold outside in Ho. injection Ho as He _ _ _ _ _ _ _ HT HX _ _.
    set (c' := FromTimer t AwaitChildren).
    assert (Hc' : In c' (l1 ++ [c'] ++ l2)%list)
      by (rewrite !in_app_iff; right; left; now left).
    apply (@RunInv_tool m (mkMachine _ (l1 ++ [c'] ++ l2)%list)
             (timer_node t) F I); cbn [browser awaiting];
      try assumption.
    + rewrite HT. apply I.
    + intros x Hx. rewrite HT in Hx. rewrite HX.
      exact (run_timer_bound I x Hx).
    + intros x Hx. destruct (Hrest x _ Hx) as [[<-|[]]|Hx'];
        [exact Logic.I|now apply (run_coherent I)].
    + intros n Hn D [(x & Hx & Hxn)|(x & Hx & Hr)].
      * left. exists x. cbn [browser]. rewrite HT. now split.
      * right. destruct (Hkeep x [c'] Hx) as [->|Hx']; [|now exists x].
        cbn in Hr. congruence.
    + intros p (x & Hx & Hq).
      destruct (Hkeep x [c'] Hx) as [->|Hx']; [now exists c'|now exists x].
    + now exists c'.
  - (* the children are queued and the callback returns *)
    pose proof (childrenAndEnd_shape t (browser m)) as Hshape.
    cbv zeta in Hshape. destruct Hshape as (N & E & T & X).
    set (m' := mkMachine (childrenAndEnd t (browser m)) (l1 ++ [] ++ l2)%list).
    assert (Hrun : forall j, willRun m j -> willRun m' j).
    { intros j [(x & Hx & Hj)|(x & Hx & Hr)].
      - left. exists x. cbn [browser m']. rewrite T.
        split; [apply in_or_app; now left|assumption].
      - right. exists x. split; [|assumption].
        destruct (Hkeep x [] Hx) as [->|Hx']; [discriminate Hr|exact Hx']. }
    constructor; cbn [browser awaiting m'].
    + rewrite N. apply I.
    + rewrite N. apply I.
    + rewrite N. apply I.
    + rewrite T, map_app, childTimers_ids.
      apply NoDup_app; [apply I|apply seq_NoDup|].
      intros a Ha Hb. apply in_map_iff in Ha as (x & <- & Hx).
      apply (run_timer_bound I) in Hx. apply in_seq in Hb. lia.
    + intros x Hx. rewrite T in Hx. rewrite X.
      apply in_app_or in Hx as [Hx|Hx];
        [apply (run_timer_bound I) in Hx; lia|].
      apply (in_map timer_id) in Hx. rewrite childTimers_ids in Hx.
      apply in_seq in Hx. lia.
    + intros x Hx. destruct (Hrest x _ Hx) as [[]|Hx'].
      now apply (run_coherent I).
    + intros n Hn Hroot. rewrite N in Hn. rewrite E in Hroot.
      destruct (run_roots I n Hn Hroot) as [R|R]; [now left|right].
      now apply Hrun.
    + intros e p d He Hp Hd Hs Htg Hterm Hr.
      rewrite N in Hp, Hd. rewrite E in He.
      destruct (@run_children m I e p d He Hp Hd Hs Htg Hterm Hr)
        as [R|(x & Hx & Hq)]; [left; now apply Hrun|].
      destruct (Hkeep x [] Hx) as [->|Hx']; [|right; now exists x].
      cbn in Hq. injection Hq as Hq. left. left.
      assert (Hin' : In d (filter (stillRunning (nodes (browser m)))
                             (childNodes (timer_node t) (browser m)))).
      { apply filter_In. split.
        - apply (@childNodes_In (browser m) e (timer_node t) d (run_ids I));
            try assumption. now rewrite Hq.
        - apply stillRunning_In; [apply I|assumption|assumption]. }
      destruct (childTimers_In (nextTimerId (window (browser m)))
                  (timer_store t) _ _ Hin') as (y & Hy & Hyn).
      exists y. unfold m'. cbn [browser]. rewrite T.
      split; [apply in_or_app; now right|assumption].
  - contradiction.
Qed.

Lemma RunInv_advance (p : Progress) (m : Machine) :
  RunInv m -> RunInv (advance server toolSessionId workflowSessionId p m).
Proof.
  destruct p; cbn [advance]; [apply RunInv_timerFires|apply RunInv_resumes].
Qed.

Lemma RunInv_advanceAll (ps : list Progress) :
  forall m, RunInv m ->
    RunInv (advanceAll server toolSessionId workflowSessionId ps m).
Proof.
  induction ps as [|p ps IH]; intros m I; [exact I|].
  cbn [advanceAll fold_left]. apply IH. now apply RunInv_advance.
Qed.

End RunInvariant.

(** The nodes a run gets to: the roots, and the targets of the edges
    that leave a node it gets to. *)
Inductive reaches (b : Builder) : Node -> Prop :=
| reaches_root (n : Node) :
    In n (nodes b) -> isRootId (edges b) (node_id n) = true -> reaches b n
| reaches_step (e : Edge) (p c : Node) :
    reaches b p -> In e (edges b) -> In c (nodes b) ->
    source e = Some (node_id p) -> target e = Some (node_id c) ->
    reaches b c.

Lemma reaches_In (b : Builder) (n : Node) : reaches b n -> In n (nodes b).
Proof. now intros [m Hm _|e p c _ _ Hc _ _]. Qed.

Lemma RunInv_quiescent (m : Machine) :
  RunInv m -> timers (window (browser m)) = [] -> awaiting m = [] ->
  forall n, reaches (browser m) n -> terminal n.
Proof.
  intros I Ht Ha.
  assert (Hno : forall i, ~ willRun m i).
  { intros i [(t & Hin & _)|(c & Hin & _)];
      [rewrite Ht in Hin|rewrite Ha in Hin]; contradiction. }
  assert (Hnq : forall i, ~ willQueue m i).
  { intros i (c & Hin & _). rewrite Ha in Hin. contradiction. }
  induction 1 as [n Hn Hroot|e p c Hp IH He Hc Hs Htg].
  - destruct (run_roots I n Hn Hroot) as [R|R]; [exact R|].
    now apply Hno in R.
  - destruct (run_status I c Hc) as [R|R]; [|exact R]. exfalso.
    destruct (@run_children m I e p c He (reaches_In Hp) Hc Hs Htg IH R)
      as [W|W]; [now apply Hno in W|now apply Hnq in W].
Qed.

(** The timers [tids] fire one after the other. *)
Definition fireAll (server : Request -> FetchOutcome)
    (toolSessionId workflowSessionId : string) (tids : list nat)
    (b : Builder) : Builder :=
  fold_left (fun acc tid => fire server toolSessionId workflowSessionId tid acc)
    tids b.

(** X11: a run settles every node it reaches.  Start from pairwise
    different node ids, every node wired to its own [onRun], no timer
    pending and no callback in flight; press Run and let the callbacks
    of the run take their steps in any order, each waiting as long as
    it does.  Whenever no timer is pending and no callback is in flight
    any more, each root is [success] or [error], and so is every node
    an edge chain leads to from a root.  (A callback whose service
    never answers stays in flight, and nothing is said then.) *)
Theorem run_settles_reachable_nodes (server : Request -> FetchOutcome)
    (toolSessionId workflowSessionId : string) (ps : list Progress)
    (b : Builder) (n : Node) :
  NoDup (ids_of (nodes b)) -> wired (nodes b) -> timers (window b) = [] ->
  let m :=
    advanceAll server toolSessionId workflowSessionId ps
      (mkMachine (onRunWorkflow b) []) in
  timers (window (browser m)) = [] -> awaiting m = [] ->
  reaches (browser m) n ->
  isTerminal (status (data n)) = true.
Proof.
  intros Hu Hw Ht m Hq Ha Hr.
  apply (@RunInv_quiescent m); try assumption.
  apply RunInv_advanceAll. now apply RunInv_onRunWorkflow.
Qed.

Lemma basicResearch_unique_and_wired :
  let b := onApplyPreset basicResearchWorkflow initialBuilder in
  NoDup (ids_of (nodes b)) /\ wired (nodes b).
Proof.
  split.
  - vm_compute. repeat constructor; cbn; intuition discriminate.
  - intros n Hn. vm_compute in Hn.
    destruct Hn as [<-|[<-|[<-|[]]]]; reflexivity.
Qed.

(** The steps of the three callbacks of a run of the basic-research
    preset, one callback after the other. *)
Definition threeCallbacks : list Progress :=
  [TimerFires 1; Resumes 0; Resumes 0; Resumes 0;
   TimerFires 2; Resumes 0; Resumes 0; Resumes 0;
   TimerFires 3; Resumes 0; Resumes 0; Resumes 0].

Lemma basicResearch_run_reaches_export :
  let b := onApplyPreset basicResearchWorkflow initialBuilder in
  let m := advanceAll okServer "tool_1" "workflow_1" threeCallbacks
             (mkMachine (onRunWorkflow b) []) in
  reaches (browser m)
    (nth 2 (nodes (browser m)) (createToolNode "" "" "" 0 0)).
Proof.
  cbv zeta.
  set (b' := browser _).
  set (d := createToolNode "" "" "" 0 0).
  assert (H0 : reaches b' (nth 0 (nodes b') d)).
  { apply reaches_root; [vm_compute; now left|vm_compute; reflexivity]. }
  assert (H1 : reaches b' (nth 1 (nodes b') d)).
  { apply (@reaches_step b' (nth 0 (edges b') (mkEdge "" None None))
             (nth 0 (nodes b') d)); [exact H0| | | |].
    - vm_compute. now left.
    - vm_compute. right. now left.
    - vm_compute. reflexivity.
    - vm_compute. reflexivity. }
  apply (@reaches_step b' (nth 1 (edges b') (mkEdge "" None None))
           (nth 1 (nodes b') d)); [exact H1| | | |].
  - vm_compute. right. now left.
  - vm_compute. right. right. now left.
  - vm_compute. reflexivity.
  - vm_compute. reflexivity.
Qed.

Lemma run_settles_reachable_nodes_witness :
  let b := onApplyPreset basicResearchWorkflow initialBuilder in
  let m := advanceAll okServer "tool_1" "workflow_1" threeCallbacks
             (mkMachine (onRunWorkflow b) []) in
  timers (window b) = []
  /\ timers (window (browser m)) = []
  /\ awaiting m = []
  /\ isTerminal
       (status (data (nth 2 (nodes (browser m))
                        (createToolNode "" "" "" 0 0)))) = true.
Proof.
  cbv zeta.
  assert (Ht : timers (window
                 (browser
                    (advanceAll okServer "tool_1" "workflow_1" threeCallbacks
                       (mkMachine
                          (onRunWorkflow
                             (onApplyPreset basicResearchWorkflow
                                initialBuilder)) [])))) = [])
    by (vm_compute; reflexivity).
  assert (Ha : awaiting
                 (advanceAll okServer "tool_1" "workflow_1" threeCallbacks
                    (mkMachine
                       (onRunWorkflow
                          (onApplyPreset basicResearchWorkflow
                             initialBuilder)) [])) = [])
    by (vm_compute; reflexivity).
  split; [reflexivity|]. split; [exact Ht|]. split; [exact Ha|].
  exact (@run_settles_reachable_nodes okServer "tool_1" "workflow_1"
           threeCallbacks
           (onApplyPreset basicResearchWorkflow initialBuilder) _
           (proj1 basicResearch_unique_and_wired)
           (proj2 basicResearch_unique_and_wired)
           eq_refl Ht Ha basicResearch_run_reaches_export).
Defined.

(** ** The input of a node with several predecessors *)

Lemma find_first {A} (p : A -> bool) (before after : list A) (x : A) :
  forallb (fun y => negb (p y)) before = true -> p x = true ->
  find p (before ++ x :: after) = Some x.
Proof.
  induction before as [|y ys IH]; cbn; intros Hb Hx.
  - now rewrite Hx.
  - apply andb_prop in Hb as [Hy Hb]. apply negb_true_iff in Hy.
    rewrite Hy. now apply IH.
Qed.

(** X12: a node with several incoming edges reads its input through
    the first edge of the edge list that targets it; the edges behind
    that one, and with them every other predecessor, are never looked
    at. *)
Theorem only_first_incoming_edge_counts (nodeId : string)
    (before after : list Edge) (e : Edge) (currentNodes : list Node)
    (toolTypeForContext : option string) :
  forallb (fun x => negb (equals (target x) nodeId)) before = true ->
  equals (target e) nodeId = true ->
  getInputFromPredecessorNode nodeId (before ++ e :: after)%list currentNodes
    toolTypeForContext
  = getInputFromPredecessorNode nodeId [e] currentNodes toolTypeForContext.
Proof.
  intros Hb He. unfold getInputFromPredecessorNode.
  rewrite (find_first (fun x => equals (target x) nodeId) before after e Hb He).
  cbn [find]. now rewrite He.
Qed.

(** An export node fed by the review and, through a later edge, by the
    source finder. *)
Definition twoInputs : list Edge :=
  [mkEdge "e1" (Some "basic_src") (Some "basic_review");
   mkEdge "e2" (Some "basic_review") (Some "basic_export");
   mkEdge "e3" (Some "basic_src") (Some "basic_export")].

Lemma only_first_incoming_edge_counts_witness :
  getInputFromPredecessorNode "basic_export" twoInputs (nodes reviewedGraph)
    None
  = getInputFromPredecessorNode "basic_export"
      [mkEdge "e2" (Some "basic_review") (Some "basic_export")]
      (nodes reviewedGraph) None
  /\ getInputFromPredecessorNode "basic_export" twoInputs
       (nodes reviewedGraph) None
     = Ok (JStr "The field moved to attention.").
Proof.
  split; [|vm_compute; reflexivity].
  exact (@only_first_incoming_edge_counts "basic_export"
           [mkEdge "e1" (Some "basic_src") (Some "basic_review")]
           [mkEdge "e3" (Some "basic_src") (Some "basic_export")]
           (mkEdge "e2" (Some "basic_review") (Some "basic_export"))
           (nodes reviewedGraph) None eq_refl eq_refl).
Defined.

(** ** A node of an unknown tool *)

Definition knownTools : list string :=
  [SourceFinder; ClaimExtractor; ContradictionChecker; AILiteratureReview;
   ReferenceManagement; ExportTXT; ExportDOC].

Definition isKnownTool (t : option string) : bool :=
  existsb (equals t) knownTools.

Lemma invokeTool_unknown (server : Request -> FetchOutcome) (nodeId : string)
    (t : option string) (config : list (string * JsVal)) (es : list Edge)
    (ns : list Node) (b : Builder) :
  isKnownTool t = false ->
  invokeTool server nodeId t config es ns b
  = (Throw ("Unknown or unhandled tool type: "
              ++ match t with Some t' => t' | None => "undefined" end), b).
Proof.
  unfold isKnownTool, knownTools. cbn [existsb]. intros H.
  repeat (apply orb_false_elim in H as [? H]).
  unfold invokeTool.
  repeat match goal with
         | E : equals t _ = false |- _ => rewrite E; clear E
         end.
  reflexivity.
Qed.

(** X13: a node whose tool is none of the seven the switch knows is
    never sent to the service: its execution posts no request and
    downloads nothing, and the node ends in [error] with the message
    "Unknown or unhandled tool type" and the tool's name as its
    output. *)
Theorem unknown_tool_is_an_error (server : Request -> FetchOutcome)
    (freshSessionId nodeId : string) (b : Builder) (node : Node) :
  find (fun n => String.eqb (node_id n) nodeId) (nodes b) = Some node ->
  isKnownTool (toolType (data node)) = false ->
  let b' := handleToolExecution server freshSessionId nodeId b in
  requests (window b') = requests (window b)
  /\ downloads (window b') = downloads (window b)
  /\ Forall (fun n =>
               node_id n = nodeId ->
               status (data n) = error
               /\ output (data n)
                  = JObj [("error",
                           JStr ("Unknown or unhandled tool type: "
                                   ++ match toolType (data node) with
                                      | Some t => t
                                      | None => "undefined"
                                      end))])
       (nodes b').
Proof.
  intros Hf Hu. cbv zeta. unfold handleToolExecution. rewrite Hf. cbv zeta.
  rewrite (@invokeTool_unknown server nodeId (toolType (data node))
             (config (data node)) (edges b) (nodes b) _ Hu).
  split; [|split].
  - now destruct (truthySession (sessionId (data node))).
  - now destruct (truthySession (sessionId (data node))).
  - unfold setNodes, report, onWindow. cbn [nodes].
    apply Forall_forall. intros n Hn. unfold patchNode in Hn at 1.
    apply in_map_iff in Hn as (m & <- & _).
    destruct (String.eqb (node_id m) nodeId) eqn:E; intros Hid.
    + split; reflexivity.
    + apply String.eqb_neq in E. contradiction.
Qed.

(** A node the chat panel made for a tool the builder does not have. *)
Definition summarizerGraph : Builder :=
  setNodes
    (fun _ =>
       [mkNode "n1" (Some "toolNode") (0, 0)%Z (Some ".drag-handle")
          (mkData "n1" "Summarizer" (Some "Summarizer") [] pending JUndefined
             None (Some ReplaceConfig) (Some (RunNode "n1")))])
    initialBuilder.

Lemma unknown_tool_is_an_error_witness :
  let b' := handleToolExecution okServer "tool_1" "n1" summarizerGraph in
  requests (window b') = []
  /\ downloads (window b') = []
  /\ Forall (fun n =>
               node_id n = "n1" ->
               status (data n) = error
               /\ output (data n)
                  = JObj [("error",
                           JStr "Unknown or unhandled tool type: Summarizer")])
       (nodes b').
Proof.
  exact (@unknown_tool_is_an_error okServer "tool_1" "n1" summarizerGraph
           (nth 0 (nodes summarizerGraph) (createToolNode "" "" "" 0 0))
           eq_refl eq_refl).
Defined.

(** ** What a saved document leaves out *)

(** The fields of a node's data that [onSaveWorkflow] writes. *)
Definition savedFields (d : ToolNodeData) :=
  (data_id d, label d, toolType d, config d).

Lemma savedNode_with_data (f : ToolNodeData -> ToolNodeData) (n : Node) :
  savedFields (f (data n)) = savedFields (data n) ->
  savedNode (with_data f n) = savedNode n.
Proof.
  unfold savedFields, savedNode. cbn. now intros [= -> -> -> ->].
Qed.

Lemma savedNode_patchNode (nodeId : string)
    (f : ToolNodeData -> ToolNodeData) (l : list Node) :
  (forall d, savedFields (f d) = savedFields d) ->
  map savedNode (patchNode nodeId f l) = map savedNode l.
Proof.
  intros H. unfold patchNode. rewrite map_map. apply map_ext. intros n.
  destruct (String.eqb (node_id n) nodeId); [|reflexivity].
  apply savedNode_with_data, H.
Qed.

Lemma savedNode_map (f : ToolNodeData -> ToolNodeData) (l : list Node) :
  (forall d, savedFields (f d) = savedFields d) ->
  map savedNode (map (with_data f) l) = map savedNode l.
Proof.
  intros H. rewrite map_map. apply map_ext. intros n.
  apply savedNode_with_data, H.
Qed.

Lemma savedFields_finish (session : option string) (r : result JsVal)
    (d : ToolNodeData) :
  savedFields (finish session r d) = savedFields d.
Proof. now destruct r. Qed.

(** X14: results are not persisted.  The document [onSaveWorkflow]
    builds is the same before and after a node is executed, before and
    after Run is pressed and before and after Stop: statuses, outputs
    and session ids never reach the saved file. *)
Theorem saved_document_ignores_results (server : Request -> FetchOutcome)
    (freshSessionId nodeId savedAt : string) (b : Builder) :
  workflowDocument savedAt
    (handleToolExecution server freshSessionId nodeId b)
  = workflowDocument savedAt b
  /\ workflowDocument savedAt (onRunWorkflow b) = workflowDocument savedAt b
  /\ workflowDocument savedAt (onStopWorkflow b) = workflowDocument savedAt b.
Proof.
  split; [|split].
  - assert (H : exists f,
               nodes (handleToolExecution server freshSessionId nodeId b)
               = patchNode nodeId f (nodes b)
               /\ (forall d, savedFields (f d) = savedFields d)
               /\ edges (handleToolExecution server freshSessionId nodeId b)
                  = edges b).
    { destruct (find (fun n => String.eqb (node_id n) nodeId) (nodes b))
        as [node|] eqn:Hfind.
      - destruct (handleToolExecution_found server freshSessionId _ _ Hfind)
          as [Hn Ho].
        eexists. split; [exact Hn|]. split.
        + intros d. apply savedFields_finish.
        + unfold outside in Ho. now injection Ho.
      - unfold handleToolExecution. rewrite Hfind.
        eexists. split; [reflexivity|]. split; reflexivity. }
    destruct H as (f & Hn & Hf & He).
    unfold workflowDocument. now rewrite Hn, He, savedNode_patchNode.
  - unfold workflowDocument.
    destruct (nodes b) as [|n ns] eqn:E.
    + unfold onRunWorkflow. rewrite E. cbn [nonEmpty negb].
      unfold report, onWindow. cbn [nodes edges]. now rewrite E.
    + assert (D : nodes b <> []) by congruence.
      destruct (@onRunWorkflow_started b D) as (N & Ed & _).
      rewrite N, Ed, E. now rewrite savedNode_map.
  - unfold workflowDocument.
    assert (He : edges (onStopWorkflow b) = edges b).
    { unfold onStopWorkflow.
      fold (clearAll (array_items (workflowExecutionRefs b)) b).
      cbn. now rewrite edges_clearAll. }
    rewrite nodes_onStopWorkflow, He. now rewrite savedNode_map.
Qed.

(** ** Deleting, cutting and the history *)

Definition endpointsIn (ids : list string) (e : Edge) : bool :=
  includes_opt ids (source e) && includes_opt ids (target e).

(** Every edge joins two nodes of the graph. *)
Definition closedGraph (b : Builder) : Prop :=
  forall e, In e (edges b) -> endpointsIn (ids_of (nodes b)) e = true.

Lemma endpoint_survives (ids : list string) (l : list Node)
    (x : option string) :
  includes_opt (ids_of l) x = true -> includes_opt ids x = false ->
  includes_opt
    (ids_of (filter (fun n => negb (includes ids (node_id n))) l)) x = true.
Proof.
  destruct x as [s|]; cbn; [|discriminate].
  rewrite !includes_In, includes_false. unfold ids_of. rewrite !in_map_iff.
  intros (n & <- & Hn) Hs. exists n. split; [reflexivity|].
  apply filter_In. split; [assumption|].
  now apply negb_true_iff, includes_false.
Qed.

Lemma closedGraph_remove (ids : list string) (s : Subgraph) (b : Builder) :
  closedGraph b ->
  closedGraph
    (setSelection s
       (setEdges
          (filter (fun e => negb (includes_opt ids (source e))
                            && negb (includes_opt ids (target e))))
          (setNodes (filter (fun n => negb (includes ids (node_id n)))) b))).
Proof.
  intros Hc e He. fields.
  apply filter_In in He as [He Hk]. apply andb_prop in Hk as [Hs Ht].
  apply negb_true_iff in Hs, Ht.
  apply Hc, andb_prop in He as [Hs' Ht'].
  unfold endpointsIn. now rewrite !endpoint_survives.
Qed.

(** X15: the Delete key takes the edges of the deleted nodes along.
    When every edge joins two nodes of the graph before the key is
    pressed, every edge that is left joins two nodes that are left; no
    node that is left bears a selected id; and the deletion is not
    recorded: the undo slot, the redo slot and the copy buffer are as
    before, so a later undo cannot bring the nodes back. *)
Theorem delete_keeps_edges_closed (b : Builder) :
  closedGraph b ->
  let b' := handleDelete b in
  closedGraph b'
  /\ (nonEmpty (sub_nodes (selection b)) = true ->
      forall n, In n (nodes b') ->
        ~ In (node_id n) (ids_of (sub_nodes (selection b))))
  /\ lastAction b' = lastAction b
  /\ redoAction b' = redoAction b
  /\ copyBuffer b' = copyBuffer b.
Proof.
  intros Hc. cbv zeta. unfold handleDelete.
  destruct (nonEmpty (sub_nodes (selection b))) eqn:E.
  - split; [now apply closedGraph_remove|]. split; [|repeat split].
    intros _ n Hn. fields. apply filter_In in Hn as [_ Hn].
    now apply negb_true_iff, includes_false in Hn.
  - split; [assumption|]. split; [discriminate|repeat split].
Qed.

Lemma delete_keeps_edges_closed_witness :
  let b := onSelectionChangeHandler
             (mkSubgraph [createToolNode "basic_review" "" "" 0 0] [])
             (onApplyPreset basicResearchWorkflow initialBuilder) in
  closedGraph (handleDelete b)
  /\ ids_of (nodes (handleDelete b)) = ["basic_src"; "basic_export"]
  /\ edges (handleDelete b) = [].
Proof.
  split; [|split; reflexivity].
  refine (proj1 (@delete_keeps_edges_closed
                   (onSelectionChangeHandler
                      (mkSubgraph [createToolNode "basic_review" "" "" 0 0] [])
                      (onApplyPreset basicResearchWorkflow initialBuilder)) _)).
  intros e He. vm_compute in He.
  destruct He as [<-|[<-|[]]]; reflexivity.
Defined.

Lemma filter_partition {A} (f : A -> bool) (l : list A) :
  Permutation (filter (fun x => negb (f x)) l ++ filter f l)%list l.
Proof.
  induction l as [|a l IH]; cbn; [constructor|].
  destruct (f a); cbn.
  - apply Permutation_sym, Permutation_cons_app, Permutation_sym, IH.
  - now constructor.
Qed.

(** X16: cutting the selection and undoing the cut.  The nodes come
    back, behind the nodes that were not cut, so the node list is a
    permutation of the one before.  An edge comes back only when both
    its ends were selected: an edge between a cut node and a node that
    stayed is removed by the cut and not restored by the undo. *)
Theorem cut_then_undo (b : Builder) :
  nonEmpty (sub_nodes (selection b)) = true ->
  let ids := ids_of (sub_nodes (selection b)) in
  let b' := undo (cutSelection b) in
  Permutation (nodes b') (nodes b)
  /\ nodes b'
     = (filter (fun n => negb (includes ids (node_id n))) (nodes b)
          ++ filter (fun n => includes ids (node_id n)) (nodes b))%list
  /\ (forall e,
        In e (edges b') <->
        In e (edges b)
        /\ includes_opt ids (source e) = includes_opt ids (target e)).
Proof.
  intros Hsel. cbv zeta. unfold cutSelection. rewrite Hsel.
  unfold undo. fields. unfold insertRecorded, selectedNodes, selectedEdges.
  fields.
  split; [apply (filter_partition (fun n =>
                   includes (ids_of (sub_nodes (selection b))) (node_id n)))|].
  split; [reflexivity|].
  intros e. rewrite in_app_iff, !filter_In.
  destruct (includes_opt _ (source e)), (includes_opt _ (target e)); cbn;
    intuition congruence.
Qed.

Lemma cut_then_undo_witness :
  let b := onSelectionChangeHandler
             (mkSubgraph [createToolNode "basic_src" "" "" 0 0;
                          createToolNode "basic_review" "" "" 0 0] [])
             (onApplyPreset basicResearchWorkflow initialBuilder) in
  ids_of (nodes (undo (cutSelection b)))
  = ["basic_export"; "basic_src"; "basic_review"]
  /\ edge_ids_of (edges (undo (cutSelection b))) = ["e1"]
  /\ Permutation (nodes (undo (cutSelection b))) (nodes b).
Proof.
  split; [reflexivity|]. split; [reflexivity|].
  exact (proj1 (@cut_then_undo
                  (onSelectionChangeHandler
                     (mkSubgraph [createToolNode "basic_src" "" "" 0 0;
                                  createToolNode "basic_review" "" "" 0 0] [])
                     (onApplyPreset basicResearchWorkflow initialBuilder))
                  eq_refl)).
Defined.

(** X17: redo takes back an undone cut.  With pairwise different edge
    ids, cut, undo, redo leaves the nodes, the edges, the copy buffer
    and the undo slot as the cut alone left them, and the redo slot
    empty. *)
Theorem cut_undo_redo (b : Builder) :
  nonEmpty (sub_nodes (selection b)) = true ->
  NoDup (edge_ids_of (edges b)) ->
  let b1 := cutSelection b in
  let b3 := redo (undo b1) in
  nodes b3 = nodes b1 /\ edges b3 = edges b1
  /\ lastAction b3 = lastAction b1 /\ copyBuffer b3 = copyBuffer b1
  /\ selection b3 = selection b1 /\ redoAction b3 = None.
Proof.
  intros Hsel Hu. cbv zeta. unfold cutSelection. rewrite Hsel.
  unfold undo. fields. unfold redo. fields.
  unfold insertRecorded, removeRecorded, selectedNodes, selectedEdges.
  fields.
  set (ids := ids_of (sub_nodes (selection b))).
  split; [|split; [|repeat split]].
  - apply (remove_appended node_id). intros x Hx Hin.
    apply filter_In in Hx as [_ Hx].
    apply negb_true_iff, includes_false in Hx. apply Hx.
    apply in_map_iff in Hin as (y & E & Hy).
    apply filter_In in Hy as [_ Hy]. apply includes_In in Hy. congruence.
  - apply (remove_appended edge_id). intros x Hx Hin.
    apply filter_In in Hx as [Hx Hk].
    apply in_map_iff in Hin as (y & E & Hy).
    apply filter_In in Hy as [Hy Hc].
    assert (y = x)
      by exact (NoDup_map_same edge_id (edges b) y x Hu Hy Hx E).
    subst y. destruct (includes_opt ids (source x)); discriminate.
Qed.

Lemma cut_undo_redo_witness :
  let b := onSelectionChangeHandler
             (mkSubgraph [createToolNode "basic_src" "" "" 0 0;
                          createToolNode "basic_review" "" "" 0 0] [])
             (onApplyPreset basicResearchWorkflow initialBuilder) in
  ids_of (nodes (redo (undo (cutSelection b)))) = ["basic_export"]
  /\ nodes (redo (undo (cutSelection b))) = nodes (cutSelection b).
Proof.
  split; [reflexivity|].
  refine (proj1 (@cut_undo_redo
                   (onSelectionChangeHandler
                      (mkSubgraph [createToolNode "basic_src" "" "" 0 0;
                                   createToolNode "basic_review" "" "" 0 0] [])
                      (onApplyPreset basicResearchWorkflow initialBuilder))
                   eq_refl _)).
  vm_compute. repeat constructor; cbn; intuition discriminate.
Defined.

(** ** What a paste makes of the copy buffer *)

(** The copy of the buffered node [n] minted at the counter value [c]. *)
Definition copyOf (c : nat) (n : Node) : Node :=
  let newId := node_id n ++ "_" ++ decNat c in
  mkNode newId (node_type n) (fst (position n) + 40, snd (position n) + 40)%Z
    (Some ".drag-handle") (set_data_id newId (data n)).

Lemma pasteNodes_nth (ns : list Node) :
  forall (c : nat) (m : Remap) (new : list Node) (c' : nat) (m' : Remap),
    pasteNodes c m ns = (new, c', m') ->
    forall i n, nth_error ns i = Some n ->
      nth_error new i = Some (copyOf (c + i) n).
Proof.
  induction ns as [|x ns IH]; intros c m new c' m'; cbn [pasteNodes].
  - intros _ [|i] n; discriminate.
  - destruct (pasteNodes (S c) _ ns) as [[copies c1] m1] eqn:E.
    intros [= <- <- <-] [|i] n; cbn [nth_error].
    + intros [= <-]. now rewrite Nat.add_0_r.
    + intros Hn. rewrite (IH _ _ _ _ _ E i n Hn).
      now rewrite Nat.add_succ_r.
Qed.

(** The table [oldToNew] after the nodes have been copied: with
    pairwise different ids in the buffer, each buffered id is mapped to
    the id of its copy, and no other key is touched. *)
Lemma pasteNodes_remap (ns : list Node) :
  forall (c : nat) (m : Remap) (new : list Node) (c' : nat) (m' : Remap),
    NoDup (ids_of ns) ->
    pasteNodes c m ns = (new, c', m') ->
    (forall i n, nth_error ns i = Some n ->
       remapGet m' (node_id n) = Some (node_id (copyOf (c + i) n)))
    /\ (forall k, ~ In k (ids_of ns) -> remapGet m' k = remapGet m k).
Proof.
  induction ns as [|x ns IH]; intros c m new c' m' Hu; cbn [pasteNodes].
  - intros [= <- <- <-]. split; [intros [|i] n; discriminate|reflexivity].
  - destruct (pasteNodes (S c) _ ns) as [[copies c1] m1] eqn:E.
    intros [= <- <- <-]. cbn [ids_of map] in Hu.
    apply NoDup_cons_iff in Hu as [Hx Hu].
    destruct (IH _ _ _ _ _ Hu E) as [Hin Hout]. split.
    + intros [|i] n; cbn [nth_error].
      * intros [= <-]. rewrite (Hout _ Hx). cbn [remapGet].
        rewrite String.eqb_refl, Nat.add_0_r. reflexivity.
      * intros Hn. rewrite (Hin i n Hn). now rewrite Nat.add_succ_r.
    + intros k Hk. cbn [ids_of map] in Hk.
      rewrite Hout by (intros C; apply Hk; now right).
      cbn [remapGet]. destruct (String.eqb (node_id x) k) eqn:Ek;
        [|reflexivity].
      apply String.eqb_eq in Ek. exfalso. apply Hk. now left.
Qed.

Lemma pasteEdges_nth (es : list Edge) :
  forall (c : nat) (m : Remap) (new : list Edge) (c' : nat),
    pasteEdges c m es = (new, c') ->
    forall k e, nth_error es k = Some e ->
      nth_error new k
      = Some (mkEdge ("e_" ++ decNat (c + k)) (remapEndpoint m (source e))
                (remapEndpoint m (target e))).
Proof.
  induction es as [|x es IH]; intros c m new c'; cbn [pasteEdges].
  - intros _ [|k] e; discriminate.
  - destruct (pasteEdges (S c) m es) as [copies c1] eqn:E.
    intros [= <- <-] [|k] e; cbn [nth_error].
    + intros [= <-]. now rewrite Nat.add_0_r.
    + intros He. rewrite (IH _ _ _ _ E k e He). now rewrite Nat.add_succ_r.
Qed.

(** X18: a paste rewires the copied edges to the copies.  With
    pairwise different node ids in the copy buffer, the i-th buffered
    node is appended as a copy 40 units to the right and below, whose
    id is the old id, an underscore and the counter value; the k-th
    buffered edge is appended under a fresh id, and where it started or
    ended at the i-th buffered node it now starts or ends at that
    node's copy. *)
Theorem paste_rewires_edges (b : Builder) (buffer : Subgraph) (i k : nat)
    (n : Node) (e : Edge) :
  copyBuffer b = Some buffer ->
  NoDup (ids_of (sub_nodes buffer)) ->
  nth_error (sub_nodes buffer) i = Some n ->
  nth_error (sub_edges buffer) k = Some e ->
  exists e',
    nth_error (nodes (pasteBuffer b)) (List.length (nodes b) + i)
    = Some (copyOf (idCounter b + i) n)
    /\ nth_error (edges (pasteBuffer b)) (List.length (edges b) + k)
       = Some e'
    /\ edge_id e'
       = "e_" ++ decNat (idCounter b + List.length (sub_nodes buffer) + k)
    /\ (source e = Some (node_id n) ->
        source e' = Some (node_id (copyOf (idCounter b + i) n)))
    /\ (target e = Some (node_id n) ->
        target e' = Some (node_id (copyOf (idCounter b + i) n))).
Proof.
  intros Hb Hu Hn He. unfold pasteBuffer. rewrite Hb.
  destruct (pasteNodes (idCounter b) [] (sub_nodes buffer))
    as [[newNodes c1] oldToNew] eqn:En.
  destruct (pasteEdges c1 oldToNew (sub_edges buffer)) as [newEdges c2] eqn:Ee.
  destruct (pasteNodes_spec _ _ _ En) as (Hc1 & _ & _).
  destruct (@pasteNodes_remap _ _ _ _ _ _ Hu En) as [Hmap _].
  pose proof (@pasteNodes_nth _ _ _ _ _ _ En i n Hn) as Hcopy.
  pose proof (@pasteEdges_nth _ _ _ _ _ Ee k e He) as Hedge.
  fields. eexists.
  split; [|split; [|split; [|split]]].
  - rewrite nth_error_app2 by lia.
    now replace (List.length (nodes b) + i - List.length (nodes b)) with i
      by lia.
  - rewrite nth_error_app2 by lia.
    replace (List.length (edges b) + k - List.length (edges b)) with k by lia.
    exact Hedge.
  - cbn. now rewrite Hc1.
  - intros Hs. cbn [source]. rewrite Hs. exact (Hmap i n Hn).
  - intros Ht. cbn [target]. rewrite Ht. exact (Hmap i n Hn).
Qed.

Lemma paste_rewires_edges_witness :
  exists e',
    nth_error (nodes (pasteBuffer copiedPreset)) 4
    = Some (copyOf 2 (nth 1 (nodes copiedPreset) (createToolNode "" "" "" 0 0)))
    /\ nth_error (edges (pasteBuffer copiedPreset)) 3 = Some e'
    /\ edge_id e' = "e_5"
    /\ source e' = Some "basic_review_2".
Proof.
  destruct (@paste_rewires_edges copiedPreset
              (mkSubgraph (nodes copiedPreset) (edges copiedPreset)) 1 1
              (nth 1 (nodes copiedPreset) (createToolNode "" "" "" 0 0))
              (nth 1 (edges copiedPreset) (mkEdge "" None None))
              eq_refl (proj1 basicResearch_unique_and_wired) eq_refl eq_refl)
    as (e' & Hn & He & Hid & Hs & _).
  exists e'. split; [exact Hn|]. split; [exact He|].
  split; [exact Hid|]. exact (Hs eq_refl).
Defined.

(** ** Workflows from the chat panel *)




(** ** Editing the config of a node *)

Lemma lookup_assign_same (props : list (string * JsVal)) (k : string)
    (v : JsVal) :
  lookup k (assign props k v) = v.
Proof.
  induction props as [|[k' v'] rest IH]; cbn.
  - now rewrite String.eqb_refl.
  - destruct (String.eqb k' k) eqn:E; cbn.
    + now rewrite String.eqb_refl.
    + now rewrite E.
Qed.

Lemma lookup_assign_other (props : list (string * JsVal)) (k k' : string)
    (v : JsVal) :
  k <> k' -> lookup k' (assign props k v) = lookup k' props.
Proof.
  intros Hne. induction props as [|[k0 v0] rest IH]; cbn.
  - apply String.eqb_neq in Hne. now rewrite Hne.
  - destruct (String.eqb k0 k) eqn:E; cbn.
    + apply String.eqb_eq in E. subst k0.
      apply String.eqb_neq in Hne. now rewrite Hne.
    + destruct (String.eqb k0 k'); [reflexivity|exact IH].
Qed.

(** [{ ...a, ...b }] reads as [b] where [b] has the key, and as [a]
    elsewhere. *)
Lemma lookup_spread (new : list (string * JsVal)) :
  forall a,
    (forall k, ~ In k (map fst new) -> lookup k (spread a new) = lookup k a)
    /\ (NoDup (map fst new) ->
        forall k v, In (k, v) new -> lookup k (spread a new) = v).
Proof.
  unfold spread.
  induction new as [|[k0 v0] new IH]; intros a; cbn [fold_left map fst snd].
  - split; [reflexivity|]. intros _ k v [].
  - destruct (IH (assign a k0 v0)) as [Hout Hin]. split.
    + intros k Hk. rewrite Hout by (intros C; apply Hk; now right).
      apply lookup_assign_other. intros C. apply Hk. now left.
    + intros Hu k v Hkv. apply NoDup_cons_iff in Hu as [Hk0 Hu].
      destruct Hkv as [[= <- <-]|Hkv].
      * rewrite (Hout _ Hk0). apply lookup_assign_same.
      * now apply Hin.
Qed.

(** X20: editing the config of a dropped, preset or loaded node merges.
    For a node whose [onConfigChange] is the merging handler and a new
    config with pairwise different keys: every node keeps its id and
    its place, a node with another id is untouched, and the node itself
    reads the new value under every key of the new config, its old
    value under every other key, and keeps its status and its output;
    the edges are untouched. *)
Theorem config_merge_keeps_other_fields (nodeId : string)
    (newConfig : list (string * JsVal)) (b : Builder) (node : Node) :
  find (fun n => String.eqb (node_id n) nodeId) (nodes b) = Some node ->
  onConfigChange (data node) = Some MergeConfig ->
  NoDup (map fst newConfig) ->
  let b' := changeConfig nodeId newConfig b in
  Forall2 (fun n n' =>
             node_id n' = node_id n
             /\ (node_id n <> nodeId -> n' = n)
             /\ (node_id n = nodeId ->
                 (forall k v, In (k, v) newConfig ->
                    lookup k (config (data n')) = v)
                 /\ (forall k, ~ In k (map fst newConfig) ->
                       lookup k (config (data n'))
                       = lookup k (config (data n)))
                 /\ status (data n') = status (data n)
                 /\ output (data n') = output (data n)))
    (nodes b) (nodes b')
  /\ edges b' = edges b.
Proof.
  intros Hf Hm Hu. cbv zeta. unfold changeConfig. rewrite Hf, Hm.
  unfold setNodes. cbn [nodes edges]. split; [|reflexivity].
  eapply Forall2_impl; [|apply patchNode_pointwise].
  cbn beta. intros n n' (Hid & Hmiss & Hhit).
  split; [assumption|]. split; [assumption|].
  intros E. rewrite (Hhit E). cbn [data with_data config set_config].
  destruct (lookup_spread newConfig (config (data n))) as [Hout Hin].
  split; [exact (Hin Hu)|]. split; [exact Hout|]. split; reflexivity.
Qed.

Lemma config_merge_keeps_other_fields_witness :
  let b := changeConfig "basic_src" [("prompt", JStr "transformers")]
             (onApplyPreset basicResearchWorkflow initialBuilder) in
  let b' := changeConfig "basic_src" [("model", JStr "gpt")] b in
  Forall2 (fun n n' =>
             node_id n' = node_id n
             /\ (node_id n <> "basic_src" -> n' = n)
             /\ (node_id n = "basic_src" ->
                 (forall k v, In (k, v) [("model", JStr "gpt")] ->
                    lookup k (config (data n')) = v)
                 /\ (forall k, ~ In k (map fst [("model", JStr "gpt")]) ->
                       lookup k (config (data n'))
                       = lookup k (config (data n)))
                 /\ status (data n') = status (data n)
                 /\ output (data n') = output (data n)))
    (nodes b) (nodes b')
  /\ edges b' = edges b.
Proof.
  refine (@config_merge_keeps_other_fields "basic_src"
            [("model", JStr "gpt")]
            (changeConfig "basic_src" [("prompt", JStr "transformers")]
               (onApplyPreset basicResearchWorkflow initialBuilder))
            (nth 0 (nodes (changeConfig "basic_src"
                             [("prompt", JStr "transformers")]
                             (onApplyPreset basicResearchWorkflow
                                initialBuilder)))
               (createToolNode "" "" "" 0 0))
            eq_refl eq_refl _).
  repeat constructor. intros [].
Defined.

(** ** Loading a document *)

(** What [onLoadWorkflow] makes of every node it reads. *)
Definition freshlyLoaded (n : Node) : Prop :=
  status (data n) = pending
  /\ dragHandle n = Some ".drag-handle"
  /\ onConfigChange (data n) = Some MergeConfig
  /\ (onRun (data n) = Some (RunNode (data_id (data n)))
      \/ data_id (data n) = "" /\ onRun (data n) = Some (RunNode (node_id n))).

Lemma loadedNode_shape (v : JsVal) (n : Node) :
  loadedNode v = Ok (Some n) -> freshlyLoaded n.
Proof.
  unfold loadedNode.
  repeat match goal with
         | |- context [bind (getProp ?x ?k) _] =>
             destruct (getProp x k); cbn [bind]; [|discriminate]
         end.
  repeat match goal with
         | |- context [match asString ?x with _ => _ end] =>
             let E := fresh "E" in
             destruct (asString x) eqn:E; [|discriminate]
         | |- context [match asOptString ?x with _ => _ end] =>
             destruct (asOptString x); [|discriminate]
         | |- context [match asPosition ?x with _ => _ end] =>
             destruct (asPosition x); [|discriminate]
         | |- context [match asConfig ?x with _ => _ end] =>
             destruct (asConfig x); [|discriminate]
         end.
  intros [= <-]. unfold freshlyLoaded. cbn.
  repeat split.
  destruct a1 as [| | | |dataId| |]; try discriminate E0.
  destruct a2 as [| | | |nodeId| |]; try discriminate E.
  cbn in E, E0. injection E as <-. injection E0 as <-.
  unfold or_else in E2. cbn [truthy] in E2.
  destruct (String.eqb dataId "") eqn:Es; cbn in E2; injection E2 as <-.
  - right. apply String.eqb_eq in Es. now subst.
  - now left.
Qed.

Lemma loaded_all_shape (items : list JsVal) :
  forall loaded ns,
    mapM loadedNode items = Ok loaded -> allSome loaded = Some ns ->
    Forall freshlyLoaded ns.
Proof.
  induction items as [|v items IH]; intros loaded ns; cbn [mapM].
  - intros [= <-] [= <-]. constructor.
  - destruct (loadedNode v) as [o|] eqn:Ev; cbn [bind]; [|discriminate].
    destruct (mapM loadedNode items) as [os|]; cbn [bind]; [|discriminate].
    intros [= <-]. cbn [allSome].
    destruct o as [n|]; [|discriminate].
    destruct (allSome os) as [ns'|] eqn:Eo; [|discriminate].
    intros [= <-]. constructor.
    + now apply (loadedNode_shape v).
    + now apply (IH os).
Qed.

(** X21: loading a file replaces the graph and nothing else.  Whatever
    the file holds, when [onLoadWorkflow] hands back a state, the
    pending timers, the run flag and the recorded timer ids, the id
    counter, the copy buffer and the undo and redo slots are those from
    before: a run in progress is not stopped and its timers will fire
    on the loaded graph.  Either the graph is unchanged and an error is
    logged, or every node of the new graph is [pending], has the drag
    handle and the merging config handler, and runs under the id of its
    data, or under its own id when that one is empty. *)
Theorem load_replaces_only_the_graph (parsed : result JsVal)
    (b b' : Builder) :
  onLoadWorkflow parsed b = Some b' ->
  timers (window b') = timers (window b)
  /\ runningWorkflow b' = runningWorkflow b
  /\ workflowExecutionRefs b' = workflowExecutionRefs b
  /\ idCounter b' = idCounter b
  /\ copyBuffer b' = copyBuffer b
  /\ lastAction b' = lastAction b
  /\ redoAction b' = redoAction b
  /\ (nodes b' = nodes b /\ edges b' = edges b
      /\ List.length (console (window b'))
         = S (List.length (console (window b)))
      \/ Forall freshlyLoaded (nodes b') /\ console (window b') = console (window b)).
Proof.
  unfold onLoadWorkflow.
  destruct parsed as [workflowData|m]; cbn [bind].
  2: { intros [= <-]. repeat split. left. repeat split.
       cbn. rewrite length_app. cbn. lia. }
  destruct (readWorkflow workflowData) as [[ns es| |]|m] eqn:E;
    intros [= <-]; repeat split.
  - right. split; [|reflexivity]. cbn [nodes setEdges setNodes].
    revert E. unfold readWorkflow.
    destruct (getProp workflowData "nodes") as [nsv|]; cbn [bind];
      [|discriminate].
    destruct (negb (truthy nsv)); [discriminate|].
    destruct (getProp workflowData "edges") as [esv|]; cbn [bind];
      [|discriminate].
    destruct (negb (truthy esv)); [discriminate|].
    destruct nsv as [| | | | |items|]; try discriminate.
    destruct (mapM loadedNode items) as [loaded|] eqn:El; cbn [bind];
      [|discriminate].
    destruct (allSome loaded) as [loadedNodes|] eqn:Ea; [|discriminate].
    destruct esv as [| | | | |edgeItems|]; try discriminate.
    destruct (allSome (map loadedEdge edgeItems)); [|discriminate].
    intros [= <- _]. exact (@loaded_all_shape items loaded loadedNodes El Ea).
  - left. repeat split. cbn. rewrite length_app. cbn. lia.
  - left. repeat split. cbn. rewrite length_app. cbn. lia.
Qed.

Lemma load_replaces_only_the_graph_witness :
  let running :=
    onRunWorkflow (onApplyPreset basicResearchWorkflow initialBuilder) in
  let b' := match onLoadWorkflow (Ok savedDocument) running with
            | Some b' => b'
            | None => running
            end in
  List.length (timers (window b')) = 1
  /\ runningWorkflow b' = true
  /\ Forall (fun n => status (data n) = pending) (nodes b').
Proof.
  cbv zeta.
  set (running := onRunWorkflow
                    (onApplyPreset basicResearchWorkflow initialBuilder)).
  destruct (onLoadWorkflow (Ok savedDocument) running) as [b'|] eqn:E.
  - destruct (@load_replaces_only_the_graph (Ok savedDocument) running b' E)
      as (Ht & Hr & _ & _ & _ & _ & _ & Hg).
    rewrite Ht, Hr. split; [reflexivity|]. split; [reflexivity|].
    destruct Hg as [(_ & _ & Hc)|[Hg _]].
    + exfalso. revert E Hc. vm_compute. intros [= <-]. discriminate.
    + revert Hg. apply Forall_impl. intros n Hn. apply Hn.
  - exfalso. revert E. vm_compute. discriminate.
Defined.

(** ** Timers that outlive the graph *)

Lemma childNodes_empty (nodeId : string) (b : Builder) :
  nodes b = [] -> childNodes nodeId b = [].
Proof.
  intros H. unfold childNodes. rewrite H.
  induction (filter _ (edges b)) as [|e es IH]; cbn; [reflexivity|exact IH].
Qed.

Section EmptyCanvas.

Variable server : Request -> FetchOutcome.
Variable toolSessionId workflowSessionId : string.

(** What a timer finds when the canvas has been cleared. *)
Definition idle (b : Builder) :=
  (nodes b, edges b, runningWorkflow b, requests (window b),
   downloads (window b)).

Lemma fire_on_empty (tid : nat) (b : Builder) :
  nodes b = [] -> runningWorkflow b = false ->
  idle (fire server toolSessionId workflowSessionId tid b) = idle b.
Proof.
  intros Hn Hr. unfold fire.
  destruct (find _ (timers (window b))) as [t|]; [|reflexivity].
  rewrite timerCallback_unfold. cbv zeta.
  assert (H1 : afterOnRun server toolSessionId workflowSessionId t
                 (clearTimeout tid b) = clearTimeout tid b).
  { unfold afterOnRun. cbn [clearTimeout onWindow nodes]. now rewrite Hn. }
  rewrite H1, childNodes_empty by exact Hn.
  cbn [queueChildren fold_left clearTimeout onWindow nodes].
  rewrite Hn. cbn [forallb]. unfold idle. cbn. now rewrite Hn, Hr.
Qed.

Lemma fireAll_on_empty (tids : list nat) :
  forall b, nodes b = [] -> runningWorkflow b = false ->
    idle (fireAll server toolSessionId workflowSessionId tids b) = idle b.
Proof.
  induction tids as [|tid tids IH]; intros b Hn Hr; [reflexivity|].
  cbn [fireAll fold_left].
  pose proof (fire_on_empty tid b Hn Hr) as H.
  fold (fireAll server toolSessionId workflowSessionId tids
          (fire server toolSessionId workflowSessionId tid b)).
  rewrite IH, H; [reflexivity| |].
  - unfold idle in H. injection H as H _ _ _ _. now rewrite H.
  - unfold idle in H. injection H as _ _ H _ _. now rewrite H.
Qed.

(** X22: timers that are still pending when the canvas is cleared do
    nothing.  After [onClearWorkflow] the graph is empty and the run
    flag is down, and whichever timers fire afterwards, the graph stays
    empty, the flag stays down, and no request is posted and no file
    downloaded beyond those from before. *)
Theorem cleared_canvas_stays_empty (tids : list nat) (b : Builder) :
  let b' :=
    fireAll server toolSessionId workflowSessionId tids (onClearWorkflow b) in
  nodes b' = [] /\ edges b' = [] /\ runningWorkflow b' = false
  /\ requests (window b') = requests (window b)
  /\ downloads (window b') = downloads (window b).
Proof.
  cbv zeta.
  assert (H0 : idle (onClearWorkflow b)
               = ([], [], false, requests (window b), downloads (window b))).
  { unfold onClearWorkflow, idle. cbn [nodes edges setEdges setNodes].
    destruct (runningWorkflow b) eqn:Hr.
    - unfold onStopWorkflow.
      fold (clearAll (array_items (workflowExecutionRefs b)) b).
      rewrite (clearAll_frame (array_items (workflowExecutionRefs b)) b).
      reflexivity.
    - cbn. now rewrite Hr. }
  pose proof (fireAll_on_empty tids (onClearWorkflow b) eq_refl) as H.
  assert (Hr : runningWorkflow (onClearWorkflow b) = false)
    by (unfold idle in H0; now injection H0).
  specialize (H Hr). rewrite H0 in H. unfold idle in H.
  injection H as -> -> -> -> ->. repeat split.
Qed.

End EmptyCanvas.

(** ** The traffic of one execution *)

(** A computation that posts at most [n] requests, behind those
    already posted. *)
Definition sends {A} (n : nat) (m : Exec A) : Prop :=
  forall b, exists rs,
    requests (window (snd (m b))) = (requests (window b) ++ rs)%list
    /\ List.length rs <= n.

Lemma sends_none {A} (m : Exec A) :
  (forall b, requests (window (snd (m b))) = requests (window b)) ->
  sends 0 m.
Proof.
  intros H b. exists []. rewrite app_nil_r. split; [apply H|constructor].
Qed.

Lemma sends_ret {A} (a : A) : sends 0 (ret a).
Proof. now apply sends_none. Qed.

Lemma sends_throw {A} (m : string) : sends 0 (@throw A m).
Proof. now apply sends_none. Qed.

Lemma sends_eval {A} (r : result A) : sends 0 (eval r).
Proof. now apply sends_none. Qed.

Lemma sends_report {A} (l : LogLevel) (m : string) (a : A) :
  sends 0 (exec (report l m) a).
Proof. now apply sends_none. Qed.

Lemma sends_download {A} (name content : string) (a : A) :
  sends 0 (exec (download name content) a).
Proof. now apply sends_none. Qed.

Lemma sends_fetch (server : Request -> FetchOutcome) (u : string)
    (payload : JsVal) :
  sends 1 (fetch server u payload).
Proof. intros b. exists [mkRequest u payload]. split; [reflexivity|constructor]. Qed.

Lemma sends_andThen {A B} (n k : nat) (m : Exec A) (f : A -> Exec B) :
  sends n m -> (forall a, sends k (f a)) -> sends (n + k) (andThen m f).
Proof.
  intros Hm Hf b. unfold andThen. destruct (Hm b) as (rs & E & L).
  destruct (m b) as [[a|e] b1]; cbn [snd] in *.
  - destruct (Hf a b1) as (rs' & E' & L'). exists (rs ++ rs')%list.
    rewrite E', E, app_assoc, length_app. split; [reflexivity|lia].
  - exists rs. split; [assumption|lia].
Qed.

Ltac sends_nothing :=
  repeat first
    [ apply sends_ret | apply sends_throw | apply sends_eval
    | apply sends_report | apply sends_download
    | apply (@sends_andThen _ _ 0 0); [|intros ?]
    | match goal with
      | |- sends 0 (if ?c then _ else _) => destruct c
      | |- sends 0 (match ?x with _ => _ end) => destruct x
      end ].

Lemma sends_after_fetch {B} (server : Request -> FetchOutcome) (u : string)
    (payload : JsVal) (k : FetchOutcome -> Exec B) :
  (forall o, sends 0 (k o)) -> sends 1 (andThen (fetch server u payload) k).
Proof. intros H. apply (@sends_andThen _ _ 1 0); [apply sends_fetch|exact H]. Qed.

Lemma sends_fetchApiAndParse (server : Request -> FetchOutcome) (u : string)
    (payload : JsVal) :
  sends 1 (fetchApiAndParse server u payload).
Proof.
  unfold fetchApiAndParse. apply sends_after_fetch. intros o. sends_nothing.
Qed.

Lemma sends_after_input {A B} (r : result A) (k : A -> Exec B) :
  (forall a, sends 1 (k a)) -> sends 1 (andThen (eval r) k).
Proof. intros H. apply (@sends_andThen _ _ 0 1); [apply sends_eval|exact H]. Qed.

Lemma sends_weaken {A} (m : Exec A) : sends 0 m -> sends 1 m.
Proof.
  intros H b. destruct (H b) as (rs & E & L). exists rs. split; [assumption|lia].
Qed.

Ltac sends_one :=
  first
    [ apply sends_fetchApiAndParse
    | solve [apply sends_weaken; sends_nothing]
    | solve [apply sends_after_fetch; intros ?; sends_nothing]
    | apply sends_after_input; intros ?; sends_one
    | apply (@sends_andThen _ _ 0 1); [solve [sends_nothing]|intros ?; sends_one]
    | match goal with
      | |- sends 1 (if ?c then _ else _) => destruct c; sends_one
      end ].

Lemma sends_invokeTool (server : Request -> FetchOutcome) (nodeId : string)
    (toolType : option string) (config : list (string * JsVal))
    (es : list Edge) (ns : list Node) :
  sends 1 (invokeTool server nodeId toolType config es ns).
Proof. unfold invokeTool. cbv zeta. sends_one. Qed.

Lemma silent_fetch (server : Request -> FetchOutcome) (u : string)
    (payload : JsVal) :
  silent (fetch server u payload).
Proof. intros b. reflexivity. Qed.

Lemma silent_andThen {A B} (m : Exec A) (k : A -> Exec B) :
  silent m -> (forall a, silent (k a)) -> silent (andThen m k).
Proof.
  intros Hm Hk b. unfold andThen. specialize (Hm b).
  destruct (m b) as [[a|e] b1]; cbn [snd] in *; [|assumption].
  now rewrite (Hk a b1).
Qed.

Ltac silent_step :=
  repeat first
    [ apply silent_ret | apply silent_throw | apply silent_eval
    | apply silent_report | apply silent_fetch
    | apply silent_andThen; [|intros ?]
    | match goal with
      | |- silent (if ?c then _ else _) => destruct c
      | |- silent (match ?x with _ => _ end) => destruct x
      end ].

Lemma silent_fetchApiAndParse (server : Request -> FetchOutcome) (u : string)
    (payload : JsVal) :
  silent (fetchApiAndParse server u payload).
Proof. unfold fetchApiAndParse. silent_step. Qed.

Lemma silent_invokeTool (server : Request -> FetchOutcome) (nodeId : string)
    (toolType : option string) (config : list (string * JsVal))
    (es : list Edge) (ns : list Node) :
  equals toolType ExportTXT = false ->
  silent (invokeTool server nodeId toolType config es ns).
Proof.
  intros Hx. unfold invokeTool. cbv zeta. rewrite Hx.
  repeat match goal with
         | |- silent (if equals toolType ?t then _ else _) =>
             destruct (equals toolType t)
         end;
    repeat first [apply silent_fetchApiAndParse | progress silent_step].
Qed.

(** X23: one execution, at most one request.  Whatever the tool, the
    config, the predecessor and the answer of the service, executing a
    node posts at most one request, behind those posted before; and
    unless the node is an Export TXT node, no file is handed to the
    user. *)
Theorem one_request_per_execution (server : Request -> FetchOutcome)
    (freshSessionId nodeId : string) (b : Builder) :
  let b' := handleToolExecution server freshSessionId nodeId b in
  (exists rs,
     requests (window b') = (requests (window b) ++ rs)%list
     /\ List.length rs <= 1)
  /\ (forall node,
        find (fun n => String.eqb (node_id n) nodeId) (nodes b) = Some node ->
        equals (toolType (data node)) ExportTXT = false ->
        downloads (window b') = downloads (window b)).
Proof.
  cbv zeta. unfold handleToolExecution.
  destruct (find (fun n => String.eqb (node_id n) nodeId) (nodes b))
    as [node|] eqn:Hf.
  2: { split; [|intros ? [=]]. exists []. rewrite app_nil_r.
       split; [reflexivity|cbn; lia]. }
  cbv zeta.
  set (b1 := if truthySession (sessionId (data node)) then b else _).
  assert (Hb1 : requests (window b1) = requests (window b)
                /\ downloads (window b1) = downloads (window b))
    by (subst b1; now destruct (truthySession (sessionId (data node)))).
  destruct Hb1 as [Hr1 Hd1].
  pose proof (sends_invokeTool server nodeId (toolType (data node))
                (config (data node)) (edges b) (nodes b) b1) as Hs.
  split.
  - destruct Hs as (rs & E & L). exists rs. split; [|assumption].
    rewrite <- Hr1, <- E.
    now destruct (invokeTool _ _ _ _ _ _ b1) as [[r|e] b2].
  - intros node' [= <-] Hx.
    pose proof (@silent_invokeTool server nodeId (toolType (data node))
                  (config (data node)) (edges b) (nodes b) Hx b1) as Hd.
    rewrite <- Hd1, <- Hd.
    now destruct (invokeTool _ _ _ _ _ _ b1) as [[r|e] b2].
Qed.

(** ** Typing into a field of a node's panel *)

Lemma keys_assign (props : list (string * JsVal)) (k : string) (v : JsVal)
    (x : string) :
  In x (map fst (assign props k v)) -> x = k \/ In x (map fst props).
Proof.
  induction props as [|[k0 v0] rest IH]; cbn.
  - intros [<-|[]]. now left.
  - destruct (String.eqb k0 k) eqn:E; cbn.
    + apply String.eqb_eq in E. subst k0. tauto.
    + intros [<-|H]; [tauto|]. apply IH in H. tauto.
Qed.

Lemma keys_assign_unique (props : list (string * JsVal)) (k : string)
    (v : JsVal) :
  NoDup (map fst props) -> NoDup (map fst (assign props k v)).
Proof.
  induction props as [|[k0 v0] rest IH]; cbn; intros Hu.
  - repeat constructor. intros [].
  - apply NoDup_cons_iff in Hu as [Hk Hu].
    destruct (String.eqb k0 k) eqn:E; cbn.
    + apply String.eqb_eq in E. subst k0. now constructor.
    + apply String.eqb_neq in E. constructor; [|now apply IH].
      intros C. apply keys_assign in C as [C|C]; [congruence|contradiction].
Qed.

Lemma lookup_bound (props : list (string * JsVal)) (k : string) :
  In k (map fst props) -> In (k, lookup k props) props.
Proof.
  induction props as [|[k0 v0] rest IH]; cbn; [contradiction|].
  destruct (String.eqb k0 k) eqn:E.
  - apply String.eqb_eq in E. subst k0. now left.
  - apply String.eqb_neq in E. intros [C|C]; [contradiction|].
    right. now apply IH.
Qed.

Lemma key_assigned (props : list (string * JsVal)) (k : string) (v : JsVal) :
  In k (map fst (assign props k v)).
Proof.
  induction props as [|[k0 v0] rest IH]; cbn; [now left|].
  destruct (String.eqb k0 k); cbn; [now left|now right].
Qed.

(** Spreading an object over itself with one field set reads like the
    object with that field set. *)
Lemma lookup_spread_assign (c : list (string * JsVal)) (f k : string)
    (v : JsVal) :
  NoDup (map fst c) ->
  lookup k (spread c (assign c f v)) = lookup k (assign c f v).
Proof.
  intros Hu.
  destruct (lookup_spread (assign c f v) c) as [Hout Hin].
  destruct (in_dec string_dec k (map fst (assign c f v))) as [Hk|Hk].
  - apply Hin; [now apply keys_assign_unique|now apply lookup_bound].
  - rewrite (Hout _ Hk). symmetry. apply lookup_assign_other.
    intros ->. apply Hk, key_assigned.
Qed.

(** X24: typing into a field of a node's panel sets that field and
    nothing else, under the merging handler of dropped, preset and
    loaded nodes and under the replacing handler of chat nodes alike.
    For the node the state holds under its id, with pairwise different
    keys in its config: afterwards the node reads the typed value under
    the field and its old value under every other key, keeps its status
    and its output, and every node with another id is untouched. *)
Theorem panel_edit_sets_one_field (node : Node) (fieldName : string)
    (value : JsVal) (b : Builder) :
  find (fun n => String.eqb (node_id n) (node_id node)) (nodes b)
    = Some node ->
  onConfigChange (data node) = Some MergeConfig
  \/ onConfigChange (data node) = Some ReplaceConfig ->
  NoDup (map fst (config (data node))) ->
  let b' := handleConfigFieldChange node fieldName value b in
  Forall2 (fun n n' =>
             node_id n' = node_id n
             /\ (node_id n <> node_id node -> n' = n)
             /\ (n = node ->
                 lookup fieldName (config (data n')) = value
                 /\ (forall k, k <> fieldName ->
                       lookup k (config (data n'))
                       = lookup k (config (data n)))
                 /\ status (data n') = status (data n)
                 /\ output (data n') = output (data n)))
    (nodes b) (nodes b').
Proof.
  intros Hf Hh Hu. cbv zeta. unfold handleConfigFieldChange, changeConfig.
  rewrite Hf.
  destruct Hh as [-> | ->]; unfold setNodes; cbn [nodes];
    (eapply Forall2_impl; [|apply patchNode_pointwise]);
    cbn beta; intros n n' (Hid & Hmiss & Hhit);
    (split; [assumption|]); (split; [assumption|]);
    intros ->; rewrite (Hhit eq_refl);
    cbn [data with_data config set_config status output].
  - rewrite !lookup_spread_assign by assumption.
    split; [apply lookup_assign_same|].
    split; [|split; reflexivity].
    intros k Hk. rewrite lookup_spread_assign by assumption.
    apply lookup_assign_other. congruence.
  - split; [apply lookup_assign_same|].
    split; [|split; reflexivity].
    intros k Hk. apply lookup_assign_other. congruence.
Qed.

Lemma panel_edit_sets_one_field_witness :
  let b := changeConfig "basic_src" [("prompt", JStr "transformers")]
             (onApplyPreset basicResearchWorkflow initialBuilder) in
  let node := nth 0 (nodes b) (createToolNode "" "" "" 0 0) in
  let b' := handleConfigFieldChange node "model" (JStr "gpt") b in
  map (fun n => (lookup "prompt" (config (data n)),
                 lookup "model" (config (data n)))) (nodes b')
  = [(JStr "transformers", JStr "gpt"); (JUndefined, JUndefined);
     (JUndefined, JUndefined)]
  /\ Forall2 (fun n n' =>
                node_id n' = node_id n
                /\ (node_id n <> node_id node -> n' = n)
                /\ (n = node ->
                    lookup "model" (config (data n')) = JStr "gpt"
                    /\ (forall k, k <> "model" ->
                          lookup k (config (data n'))
                          = lookup k (config (data n)))
                    /\ status (data n') = status (data n)
                    /\ output (data n') = output (data n)))
       (nodes b) (nodes b').
Proof.
  split; [reflexivity|].
  refine (@panel_edit_sets_one_field
            (nth 0 (nodes (changeConfig "basic_src"
                             [("prompt", JStr "transformers")]
                             (onApplyPreset basicResearchWorkflow
                                initialBuilder)))
               (createToolNode "" "" "" 0 0))
            "model" (JStr "gpt")
            (changeConfig "basic_src" [("prompt", JStr "transformers")]
               (onApplyPreset basicResearchWorkflow initialBuilder))
            eq_refl (or_introl eq_refl) _).
  repeat constructor. intros [].
Defined.
